(** * Omniscope dashboards: the revenue summary tables and the allocation calendar

    A shallow embedding of the two presentation components

    - [frontend/src/app/financial/revenue-tracking/components/Summaries.tsx]
      (modules [Summaries] and [SummariesD]) and
    - [frontend/src/app/components/AllocationCalendar_old.tsx]
      (modules [AllocationCalendar] and [CalendarD]),

    together with the parts of the ECMAScript run-time they rest on
    (module [JS]: numbers, relational comparison, [Array.prototype.sort],
    the [Date] arithmetic of ECMA-262 section 21.4.1).

    Conventions of the embedding.

    - Numbers come in two readings.  In [Summaries] and
      [AllocationCalendar] a JavaScript number that the components read
      from their inputs is a rational ([Q]) and sums and products are
      exact; the results of a division, which may be [NaN] or an infinity
      when the divisor is zero, live in [JS.number].  This reading serves
      the statements that do not depend on rounding: what is rendered and
      when, comparisons, bounds.  In [SummariesD] and [CalendarD] the same
      code is read over IEEE doubles ([PrimFloat]), added and divided in
      the order the code adds and divides; whatever is stated of the value
      of a sum or of a quotient is stated there.
    - A [Date] object is represented by its local time value in
      milliseconds (ECMA-262 [LocalTime]): a local time that a
      constructor or a setter asks for is taken to be read back
      unchanged, which holds unless a clock change of the host's zone
      skips it.  The zone is a parameter where an instant is converted:
      where a date string is parsed as UTC, and in month navigation
      ([JS.setMonthAt]).
    - A [string] stands for a JavaScript string whose code units are
      below 256, one [ascii] per code unit.
    - React state is a record; the setters the calendar receives as props
      are taken to be the state setters of its parent, and an event
      handler is a function from state to state (the setters it calls,
      applied in order).
    - Rendering is modelled by the data that decides what is drawn (an
      [option] for an element rendered conditionally), not by markup. *)

From Stdlib Require Import ZArith QArith Qround Lia Lqa List Bool String Ascii.
From Stdlib Require Import Permutation Sorted DecimalString DecimalZ.
From Stdlib Require Import Setoid Morphisms.
From Stdlib Require PrimFloat.
Import ListNotations.

Set Warnings "-inexact-float".

Set Implicit Arguments.

(* ================================================================= *)
(** * Run-time model *)

Module JS.

(** ** Dates (ECMA-262, 21.4.1) *)

Section DateArithmetic.
Local Open Scope Z_scope.

Definition msPerDay : Z := 86400000.

Definition Day (t : Z) : Z := t / msPerDay.
Definition TimeWithinDay (t : Z) : Z := t mod msPerDay.

Definition DaysInYear (y : Z) : Z :=
  if negb (y mod 4 =? 0) then 365
  else if negb (y mod 100 =? 0) then 366
  else if negb (y mod 400 =? 0) then 365
  else 366.

Definition DayFromYear (y : Z) : Z :=
  365 * (y - 1970) + (y - 1969) / 4 - (y - 1901) / 100 + (y - 1601) / 400.

(** ECMA-262 specifies the year of a day as the largest [y] with
    [DayFromYear y <= d]; this is a closed form of it, see
    [YearFromDay_spec] and [YearFromDay_unique]. *)
Definition YearFromDay (d : Z) : Z :=
  let y0 := 1970 + (400 * d) / 146097 in
  if DayFromYear (y0 + 1) <=? d then y0 + 1
  else if DayFromYear y0 <=? d then y0
  else y0 - 1.

Definition InLeapYear (d : Z) : bool := DaysInYear (YearFromDay d) =? 366.

Definition DayWithinYear (d : Z) : Z := d - DayFromYear (YearFromDay d).

(** First day-within-year of each month; [leap] is 1 in a leap year. *)
Definition monthStart (leap : Z) (m : Z) : Z :=
  match m with
  | 0 => 0
  | 1 => 31
  | 2 => 59 + leap
  | 3 => 90 + leap
  | 4 => 120 + leap
  | 5 => 151 + leap
  | 6 => 181 + leap
  | 7 => 212 + leap
  | 8 => 243 + leap
  | 9 => 273 + leap
  | 10 => 304 + leap
  | _ => 334 + leap
  end.

Definition leapDays (d : Z) : Z := if InLeapYear d then 1 else 0.

Definition MonthFromDay (d : Z) : Z :=
  let w := DayWithinYear d in
  let l := leapDays d in
  if w <? 31 then 0
  else if w <? 59 + l then 1
  else if w <? 90 + l then 2
  else if w <? 120 + l then 3
  else if w <? 151 + l then 4
  else if w <? 181 + l then 5
  else if w <? 212 + l then 6
  else if w <? 243 + l then 7
  else if w <? 273 + l then 8
  else if w <? 304 + l then 9
  else if w <? 334 + l then 10
  else 11.

Definition DateFromDay (d : Z) : Z :=
  DayWithinYear d + 1 - monthStart (leapDays d) (MonthFromDay d).

Definition WeekDay (d : Z) : Z := (d + 4) mod 7.

(** [MakeDay]: months outside 0..11 carry into the year, the date is an
    offset from the first of the month (so date 0 is the last day of the
    month before, and negative dates reach further back). *)
Definition leapOf (y : Z) : Z := if DaysInYear y =? 366 then 1 else 0.

Definition MakeDay (year month date : Z) : Z :=
  let ym := year + month / 12 in
  let mn := month mod 12 in
  DayFromYear ym + monthStart (leapOf ym) mn + date - 1.

(** Length of month [m] of year [y]: from its first day to the first day
    of the month after; [monthLength] is the usual table of it
    ([daysInMonthOf_table]). *)
Definition daysInMonthOf (y m : Z) : Z :=
  MakeDay y (m + 1) 1 - MakeDay y m 1.

Definition monthLength (y m : Z) : Z :=
  match m with
  | 1 => 28 + leapOf y
  | 3 | 5 | 8 | 10 => 30
  | _ => 31
  end.

(** *** Date objects, by local time value *)

Definition Date := Z.

(** [new Date(year, month, date)]: a two-digit year counts from 1900. *)
Definition fullYear (year : Z) : Z :=
  if (0 <=? year) && (year <=? 99) then 1900 + year else year.

Definition newDate (year month date : Z) : Date :=
  MakeDay (fullYear year) month date * msPerDay.

Definition getFullYear (t : Date) : Z := YearFromDay (Day t).
Definition getMonth (t : Date) : Z := MonthFromDay (Day t).
Definition getDate (t : Date) : Z := DateFromDay (Day t).
Definition getDay (t : Date) : Z := WeekDay (Day t).

(** [setMonth(m)] and [setDate(d)], on the local time value: the local
    time the setter asks for, with the time within the day kept.  The
    host stores the instant of that local time and the getters read the
    instant back in local time ([setMonthAt] below); the two agree unless
    the local time asked for falls in an hour that a clock change of the
    zone skips. *)
Definition setMonth (t : Date) (m : Z) : Date :=
  MakeDay (getFullYear t) m (getDate t) * msPerDay + TimeWithinDay t.

Definition setDate (t : Date) (d : Z) : Date :=
  MakeDay (getFullYear t) (getMonth t) d * msPerDay + TimeWithinDay t.

(** *** Instants and the zone of the host

    A [Date] object stores an instant (a UTC time value).  [offsetAt] is
    the offset of local time in force at an instant and [offsetOf] the
    offset the host takes for a local time (ECMA-262 [LocalTZA] with
    [isUTC] true and false).  In a zone with clock changes the two
    conversions are not inverse to each other: a skipped local time is
    read back an hour later, and a repeated one has two instants. *)
Section Zone.
Variable offsetAt : Z -> Z.
Variable offsetOf : Z -> Z.

Definition LocalTime (tv : Z) : Z := tv + offsetAt tv.
Definition UTC (t : Z) : Z := t - offsetOf t.

(** [d.setMonth(m)] on the instant held by [d] *)
Definition setMonthAt (tv : Z) (m : Z) : Z :=
  UTC (setMonth (LocalTime tv) m).

End Zone.

End DateArithmetic.

(** ** Numbers *)

(** The value of an arithmetic expression: a rational, an infinity or
    [NaN].  The two zeros of IEEE arithmetic are identified. *)
Inductive number : Type :=
| Fin (q : Q)
| PosInf
| NegInf
| NaN.

Definition Qltb (a b : Q) : bool :=
  match a ?= b with Lt => true | _ => false end.

(** Sameness of values (at [NaN] this is not the [===] of the language). *)
Definition num_eq (a b : number) : Prop :=
  match a, b with
  | Fin p, Fin q => p == q
  | PosInf, PosInf | NegInf, NegInf | NaN, NaN => True
  | _, _ => False
  end.

(** [a / b] on finite operands. *)
Definition div (a b : Q) : number :=
  if Qeq_bool b 0 then
    match a ?= 0 with Gt => PosInf | Lt => NegInf | Eq => NaN end
  else Fin (a / b).

Definition neg (a : number) : number :=
  match a with
  | Fin q => Fin (- q)
  | PosInf => NegInf
  | NegInf => PosInf
  | NaN => NaN
  end.

Definition add (a b : number) : number :=
  match a, b with
  | NaN, _ | _, NaN => NaN
  | Fin p, Fin q => Fin (p + q)
  | PosInf, NegInf | NegInf, PosInf => NaN
  | PosInf, _ | _, PosInf => PosInf
  | NegInf, _ | _, NegInf => NegInf
  end.

Definition sub (a b : number) : number := add a (neg b).

Definition mul (a b : number) : number :=
  match a, b with
  | NaN, _ | _, NaN => NaN
  | Fin p, Fin q => Fin (p * q)
  | Fin p, PosInf | PosInf, Fin p =>
      match p ?= 0 with Gt => PosInf | Lt => NegInf | Eq => NaN end
  | Fin p, NegInf | NegInf, Fin p =>
      match p ?= 0 with Gt => NegInf | Lt => PosInf | Eq => NaN end
  | PosInf, PosInf | NegInf, NegInf => PosInf
  | PosInf, NegInf | NegInf, PosInf => NegInf
  end.

(** [a <= b] and [a < b]: false as soon as an operand is [NaN]. *)
Definition leb (a b : number) : bool :=
  match a, b with
  | NaN, _ | _, NaN => false
  | Fin p, Fin q => Qle_bool p q
  | NegInf, _ | _, PosInf => true
  | _, _ => false
  end.

Definition ltb (a b : number) : bool :=
  match a, b with
  | NaN, _ | _, NaN => false
  | Fin p, Fin q => Qltb p q
  | PosInf, _ | _, NegInf => false
  | _, _ => true
  end.

(** [x || 0] on a number: zero and [NaN] are falsy. *)
Definition orZero (a : number) : number :=
  match a with
  | NaN => Fin 0
  | Fin q => if Qeq_bool q 0 then Fin 0 else Fin q
  | _ => a
  end.

(** [Math.round]: the nearest integer, ties towards plus infinity. *)
Definition Math_round (a : number) : number :=
  match a with
  | Fin q => Fin (inject_Z (Qfloor (q + (1 # 2))))
  | _ => a
  end.

(** [Math.ceil] of a finite quotient. *)
Definition Math_ceil (q : Q) : Z := Qceiling q.

(** ** Values and the relational comparison *)

Inductive value : Type :=
| VNum (q : Q)
| VStr (s : string).

Section Comparison.

(** The conversion of a string to a number is a built-in that the
    components do not define; the comparison is parametric in it. *)
Variable StringToNumber : string -> number.

Definition ToNumber (v : value) : number :=
  match v with
  | VNum q => Fin q
  | VStr s => StringToNumber s
  end.

(** [a < b]: two strings compare by code units, anything else as
    numbers.  ([String.ltb] compares the characters of the model, which
    are the code units of the strings it represents; strings with code
    units from 256 on are not represented.) *)
Definition lt (a b : value) : bool :=
  match a, b with
  | VStr s, VStr t => String.ltb s t
  | _, _ => ltb (ToNumber a) (ToNumber b)
  end.

End Comparison.

(** ** Arrays *)

Section Arrays.
Context {A B : Type}.

(** [Array.from({ length: n }, (_, i) => f i)] *)
Definition Array_from (n : Z) (f : Z -> A) : list A :=
  map (fun i => f (Z.of_nat i)) (seq 0 (Z.to_nat n)).

(** [xs.slice(from, to)] for indices that are not negative. *)
Definition slice (xs : list A) (from to : Z) : list A :=
  firstn (Z.to_nat to - Z.to_nat from) (skipn (Z.to_nat from) xs).

(** [xs.map((x, index) => f index x)] *)
Fixpoint mapi_from (n : nat) (f : nat -> A -> B) (xs : list A) : list B :=
  match xs with
  | [] => []
  | x :: xs' => f n x :: mapi_from (S n) f xs'
  end.

Definition mapi (f : nat -> A -> B) (xs : list A) : list B := mapi_from 0 f xs.

(** [Array.prototype.sort] with a comparator.  The language requires the
    sort to be stable and permutes the array; it leaves the algorithm to
    the engine.  A stable insertion sort stands for it here: an element is
    moved behind exactly those sorted elements the comparator puts
    strictly before it.  For a comparator that orders by a key, every
    stable sort returns this same list ([stable_sort_unique] below). *)
Fixpoint insert (cmp : A -> A -> Z) (x : A) (l : list A) : list A :=
  match l with
  | [] => [x]
  | y :: l' => if (cmp x y >? 0)%Z then y :: insert cmp x l' else x :: l
  end.

Definition Array_sort (cmp : A -> A -> Z) (l : list A) : list A :=
  fold_right (insert cmp) [] l.

End Arrays.

(** The sum of a list of numbers, for stating what the loops compute. *)
Definition sumOf (l : list Q) : Q := fold_right Qplus 0 l.

(** Ordered by a numeric key, larger keys first; the elements of one
    key value. *)
Definition descBy {A : Type} (key : A -> Q) : A -> A -> Prop :=
  fun a b => key b <= key a.

Definition keyIs {A : Type} (key : A -> Q) (v : Q) : A -> bool :=
  fun a => Qeq_bool (key a) v.

(** The integers [a], [a + 1], ..., [n] of them. *)
Definition range (a n : Z) : list Z :=
  map (fun i => (a + Z.of_nat i)%Z) (seq 0 (Z.to_nat n)).

(** The differences of consecutive values of a list, the first one
    taken from [prev], and the sum of a list of values. *)
Fixpoint deltas (prev : number) (cs : list number) : list number :=
  match cs with
  | [] => []
  | c :: cs' => sub c prev :: deltas c cs'
  end.

Definition sumNumbers (l : list number) : number := fold_right add (Fin 0) l.

(** [x.toFixed(1)], by the number its digits denote: the nearest
    multiple of one tenth, a tie taken away from zero.  An infinity or
    [NaN] prints as itself. *)
Definition toFixed1 (q : Q) : Q :=
  let tenths x := inject_Z (Qfloor (x * 10 + (1 # 2))) / 10 in
  if Qltb q 0 then - tenths (- q) else tenths q.

Definition numToFixed1 (a : number) : number :=
  match a with
  | Fin q => Fin (toFixed1 q)
  | _ => a
  end.

(** [n.toString()] for an integer [n], and [s.padStart(2, '0')]. *)
Definition toString (n : Z) : string := NilEmpty.string_of_int (Z.to_int n).

Definition padStart2 (s : string) : string :=
  match String.length s with
  | O => "00"
  | S O => "0" ++ s
  | _ => s
  end.

(** ** Numbers as the engine has them: IEEE 754 doubles

    The kernel's primitive floats are binary64 with the rounding of the
    language: [PrimFloat.add], [PrimFloat.sub], [PrimFloat.mul] and
    [PrimFloat.div] are [+], [-], [*] and [/]; [PrimFloat.ltb] is [<]
    and [PrimFloat.eqb] is [===] on numbers (both false at [NaN]). *)
Module Double.
Import PrimFloat.

(** [x || 0] on a number: zero, minus zero and [NaN] are falsy. *)
Definition orZero (x : float) : float :=
  if PrimFloat.eqb x 0 || PrimFloat.is_nan x then 0%float else x.

(** [xs.reduce((sum, x) => sum + x, 0)]: the doubles of a list added
    from left to right, starting from 0. *)
Definition sum (l : list float) : float := fold_left PrimFloat.add l 0%float.

(** The differences of consecutive values of a list, the first one
    taken from [prev]. *)
Fixpoint deltas (prev : float) (cs : list float) : list float :=
  match cs with
  | [] => []
  | c :: cs' => PrimFloat.sub c prev :: deltas c cs'
  end.

(** Values and [a < b], as in [lt] above. *)
Inductive value : Type :=
| VNum (x : float)
| VStr (s : string).

Section Comparison.
Variable StringToNumber : string -> float.

Definition ToNumber (v : value) : float :=
  match v with
  | VNum x => x
  | VStr s => StringToNumber s
  end.

Definition lt (a b : value) : bool :=
  match a, b with
  | VStr s, VStr t => String.ltb s t
  | _, _ => PrimFloat.ltb (ToNumber a) (ToNumber b)
  end.

End Comparison.

End Double.

End JS.

(* ================================================================= *)
(** * Summaries.tsx: the revenue summary card *)

Module Summaries.
Import JS.

Record Item : Type := {
  name : string;
  slug : option string;
  regular : Q;
  preContracted : Q;
  total : Q;
  consultingFee : option Q;
  consultingPreFee : option Q;
  handsOnFee : option Q;
  squadFee : option Q
}.

(** [keyof Item], the type of [sortConfig.key]. *)
Inductive Key : Type :=
| Kname | Kslug | Kregular | KpreContracted | Ktotal
| KconsultingFee | KconsultingPreFee | KhandsOnFee | KsquadFee.

(** The keys that hold numbers: those of the [totals] object. *)
Inductive NumKey : Type :=
| Nregular | NpreContracted | Ntotal
| NconsultingFee | NconsultingPreFee | NhandsOnFee | NsquadFee.

(** [x ?? 0] *)
Definition orElse0 (x : option Q) : Q :=
  match x with Some q => q | None => 0 end.

(** [item[key] ?? 0] *)
Definition field (key : Key) (item : Item) : value :=
  match key with
  | Kname => VStr (name item)
  | Kslug => match slug item with Some s => VStr s | None => VNum 0 end
  | Kregular => VNum (regular item)
  | KpreContracted => VNum (preContracted item)
  | Ktotal => VNum (total item)
  | KconsultingFee => VNum (orElse0 (consultingFee item))
  | KconsultingPreFee => VNum (orElse0 (consultingPreFee item))
  | KhandsOnFee => VNum (orElse0 (handsOnFee item))
  | KsquadFee => VNum (orElse0 (squadFee item))
  end.

(** [Number(item[key] ?? 0)] at a numeric key *)
Definition numField (key : NumKey) (item : Item) : Q :=
  match key with
  | Nregular => regular item
  | NpreContracted => preContracted item
  | Ntotal => total item
  | NconsultingFee => orElse0 (consultingFee item)
  | NconsultingPreFee => orElse0 (consultingPreFee item)
  | NhandsOnFee => orElse0 (handsOnFee item)
  | NsquadFee => orElse0 (squadFee item)
  end.

Definition isNumericKey (key : Key) : bool :=
  match key with Kname | Kslug => false | _ => true end.

(** [key === "name" || key === "slug" ? "total" : key] *)
Definition effectiveKey (key : Key) : NumKey :=
  match key with
  | Kname | Kslug => Ntotal
  | Kregular => Nregular
  | KpreContracted => NpreContracted
  | Ktotal => Ntotal
  | KconsultingFee => NconsultingFee
  | KconsultingPreFee => NconsultingPreFee
  | KhandsOnFee => NhandsOnFee
  | KsquadFee => NsquadFee
  end.

(** The value the specification sorts and accumulates by, written from
    its words and not from [field], [numField] or [effectiveKey]: the
    number in the field the key names, 0 where that field is absent; for
    the keys [name] and [slug], the number in [total]. *)
Definition metric (key : Key) (it : Item) : Q :=
  match key with
  | Kname | Kslug | Ktotal => total it
  | Kregular => regular it
  | KpreContracted => preContracted it
  | KconsultingFee =>
      match consultingFee it with Some q => q | None => 0 end
  | KconsultingPreFee =>
      match consultingPreFee it with Some q => q | None => 0 end
  | KhandsOnFee => match handsOnFee it with Some q => q | None => 0 end
  | KsquadFee => match squadFee it with Some q => q | None => 0 end
  end.

Section Card.
Variable StringToNumber : string -> number.

(** The comparator handed to [sort]. *)
Definition compareItems (key : Key) (a b : Item) : Z :=
  let aValue := field key a in
  let bValue := field key b in
  if lt StringToNumber aValue bValue then 1
  else if lt StringToNumber bValue aValue then (-1)
  else 0.

Definition sortedItems (key : Key) (items : list Item) : list Item :=
  Array_sort (compareItems key) items.

Record Totals : Type := {
  t_regular : Q;
  t_preContracted : Q;
  t_total : Q;
  t_consultingFee : Q;
  t_consultingPreFee : Q;
  t_handsOnFee : Q;
  t_squadFee : Q
}.

(** The reduction of the items to the footer, in exact arithmetic; the
    doubles of the engine are added in [SummariesD.totals]. *)
Definition totals (items : list Item) : Totals :=
  fold_left
    (fun acc item =>
       {| t_regular := t_regular acc + regular item;
          t_preContracted := t_preContracted acc + preContracted item;
          t_total := t_total acc + total item;
          t_consultingFee := t_consultingFee acc + orElse0 (consultingFee item);
          t_consultingPreFee :=
            t_consultingPreFee acc + orElse0 (consultingPreFee item);
          t_handsOnFee := t_handsOnFee acc + orElse0 (handsOnFee item);
          t_squadFee := t_squadFee acc + orElse0 (squadFee item) |})
    items
    {| t_regular := 0; t_preContracted := 0; t_total := 0;
       t_consultingFee := 0; t_consultingPreFee := 0;
       t_handsOnFee := 0; t_squadFee := 0 |}.

(** [totals[key]] *)
Definition totalsAt (t : Totals) (key : NumKey) : Q :=
  match key with
  | Nregular => t_regular t
  | NpreContracted => t_preContracted t
  | Ntotal => t_total t
  | NconsultingFee => t_consultingFee t
  | NconsultingPreFee => t_consultingPreFee t
  | NhandsOnFee => t_handsOnFee t
  | NsquadFee => t_squadFee t
  end.

(** [{ ...item, cumulative }] *)
Record CumulativeItem : Type := {
  item : Item;
  cumulative : number
}.

(** The cumulative shares, in exact arithmetic; the doubles of the
    engine are added and divided in [SummariesD.cumulativeItems]. *)
Definition cumulativeItems (key : Key) (items : list Item)
  : list CumulativeItem :=
  let sorted := sortedItems key items in
  mapi
    (fun index it =>
       let previousSum :=
         fold_left (fun sum i => sum + numField (effectiveKey key) i)
                   (slice sorted 0 (Z.of_nat index)) 0 in
       let currentValue := numField (effectiveKey key) it in
       let cumulative :=
         div (previousSum + currentValue)
             (totalsAt (totals items) (effectiveKey key)) in
       {| item := it; cumulative := cumulative |})
    sorted.

(** [rgb(r, g, b)] *)
Inductive color : Type := rgb (r g b : number).

(** [cumulative - (previousCumulative || 0)] *)
Definition contribution (cumulative previousCumulative : number) : number :=
  sub cumulative (orZero previousCumulative).

(** [undefined] is [None]. *)
Definition getBackgroundColor
  (cumulative previousCumulative : number) (isSignificant : bool)
  : option color :=
  if negb isSignificant then None
  else
    let contribution := contribution cumulative previousCumulative in
    let intensity :=
      Math_round (sub (Fin 230) (mul contribution (Fin 100))) in
    Some (rgb intensity intensity intensity).

Definition threshold : number := Fin (8 # 10).

Definition showHighlight (items : list Item) : bool :=
  (10 <? List.length items)%nat.

(** [index > 0 ? cumulativeItems[index - 1].cumulative : 0]; [None] is
    the [TypeError] of reading [cumulative] off a missing element. *)
Definition previousCumulative (key : Key) (items : list Item) (index : nat)
  : option number :=
  if (0 <? index)%nat then
    option_map cumulative (nth_error (cumulativeItems key items) (index - 1))
  else Some (Fin 0).

(** The [backgroundColor] of the table row at [index]. *)
Definition rowBackgroundColor
  (key : Key) (items : list Item) (index : nat) (it : CumulativeItem)
  : option (option color) :=
  match previousCumulative key items index with
  | None => None
  | Some p =>
      Some (getBackgroundColor
              (cumulative it) p
              (showHighlight items && leb (cumulative it) threshold))
  end.

Definition rowBackgroundColors (key : Key) (items : list Item)
  : list (option (option color)) :=
  mapi (rowBackgroundColor key items) (cumulativeItems key items).

(** The marginal contribution of each row, as [getBackgroundColor]
    computes it from the arguments the row passes. *)
Definition rowContributions (key : Key) (items : list Item)
  : list (option number) :=
  mapi
    (fun index it =>
       option_map (contribution (cumulative it))
                  (previousCumulative key items index))
    (cumulativeItems key items).

End Card.

(** *** Percentages *)

(** The number handed to the percent formatter ([Intl.NumberFormat] with
    one fraction digit, not modelled). *)
Definition formatPercent (value total : Q) : number := div value total.

(** [x !== 0] *)
Definition nonZero (x : Q) : bool := negb (Qeq_bool x 0).

Inductive FeeKey : Type :=
| FconsultingFee | FconsultingPreFee | FhandsOnFee | FsquadFee.

Definition feeKey (k : FeeKey) : NumKey :=
  match k with
  | FconsultingFee => NconsultingFee
  | FconsultingPreFee => NconsultingPreFee
  | FhandsOnFee => NhandsOnFee
  | FsquadFee => NsquadFee
  end.

(** What a fee cell of an item row shows: the percentage of the row's
    total (top left), the amount, the percentage of the column total
    (bottom right).  The four fee columns are the same markup with the
    field changed. *)
Record FeeCell : Type := {
  rowPercent : option number;
  amount : Q;
  columnPercent : option number
}.

Definition feeCell (k : FeeKey) (it : Item) (t : Totals) : FeeCell :=
  let v := numField (feeKey k) it in
  {| rowPercent := if nonZero v then Some (formatPercent v (total it)) else None;
     amount := v;
     columnPercent :=
       if nonZero v then Some (formatPercent v (totalsAt t (feeKey k)))
       else None |}.

(** The [Total] cell of an item row: the percentage of the grand total. *)
Definition totalCellPercent (it : Item) (t : Totals) : option number :=
  if nonZero (total it) then Some (formatPercent (total it) (t_total t))
  else None.

(** A fee cell of the totals row: the percentage of the grand total. *)
Definition totalsRowPercent (k : FeeKey) (t : Totals) : option number :=
  if nonZero (totalsAt t (feeKey k))
  then Some (formatPercent (totalsAt t (feeKey k)) (t_total t))
  else None.

(** *** Links *)

(** [getItemLink]; [null] is [None].  A slug that is missing or empty is
    falsy. *)
Definition getItemLink (title : string) (it : Item) : option string :=
  match slug it with
  | None => None
  | Some s =>
      if String.eqb s "" then None
      else if String.eqb title "By Type" then None
      else if String.eqb title "By Account Manager"
      then Some ("/team/account-managers/" ++ s)%string
      else if String.eqb title "By Client"
      then Some ("/about-us/clients/" ++ s)%string
      else if String.eqb title "By Sponsor"
      then Some ("/about-us/sponsors/" ++ s)%string
      else Some "#"%string
  end.

(** The name cell of a row: the [href] of its link, or plain text
    ([None]); a link is rendered when [getItemLink] is truthy. *)
Definition nameCellLink (title : string) (it : Item) : option string :=
  match getItemLink title it with
  | Some href => if String.eqb href "" then None else Some href
  | None => None
  end.

(** *** Sample data *)

Definition mkItem (n : string) (tot : Q) (fee : option Q) : Item :=
  {| name := n; slug := None; regular := tot; preContracted := 0;
     total := tot; consultingFee := fee; consultingPreFee := None;
     handsOnFee := None; squadFee := None |}.

(** The two rows of the example in the specification. *)
Definition itemA : Item := mkItem "A" 100 (Some 100).

Definition itemB : Item :=
  {| name := "B"; slug := None; regular := 50; preContracted := 0;
     total := 50; consultingFee := None; consultingPreFee := None;
     handsOnFee := Some 50; squadFee := None |}.

(** Eleven rows of equal weight. *)
Definition elevenItems : list Item := repeat (mkItem "row" 1 (Some 1)) 11.

(** The first of them, with its share of 1/11. *)
Definition firstOfEleven : CumulativeItem :=
  {| item := mkItem "row" 1 (Some 1); cumulative := Fin (1 # 11) |}.

(** A row with a fee and no total; two rows whose fees cancel. *)
Definition feeWithoutTotal : Item := mkItem "X" 0 (Some 5).

Definition cancellingItems : list Item :=
  [mkItem "P" 5 (Some 5); mkItem "N" (-5) (Some (-5))].

(** A row with a slug. *)
Definition mkSlugItem (sl : string) : Item :=
  {| name := "Acme"; slug := Some sl; regular := 10; preContracted := 0;
     total := 10; consultingFee := Some 10; consultingPreFee := None;
     handsOnFee := None; squadFee := None |}.

(** A host in which no string converts to a number. *)
Definition noNumber : string -> number := fun _ => NaN.

End Summaries.

(* ================================================================= *)
(** * Summaries.tsx over doubles

    The sort, the totals and the cumulative shares of [SummaryCard]
    again, line by line as in [Summaries], with the numbers of the items
    taken as doubles and added and divided as the engine does. *)

Module SummariesD.
Import JS Summaries PrimFloat.

Record Item : Type := {
  name : string;
  slug : option string;
  regular : float;
  preContracted : float;
  total : float;
  consultingFee : option float;
  consultingPreFee : option float;
  handsOnFee : option float;
  squadFee : option float
}.

(** [x ?? 0] *)
Definition orElse0 (x : option float) : float :=
  match x with Some v => v | None => 0%float end.

(** [item[key] ?? 0] *)
Definition field (key : Key) (item : Item) : Double.value :=
  match key with
  | Kname => Double.VStr (name item)
  | Kslug =>
      match slug item with
      | Some s => Double.VStr s
      | None => Double.VNum 0
      end
  | Kregular => Double.VNum (regular item)
  | KpreContracted => Double.VNum (preContracted item)
  | Ktotal => Double.VNum (total item)
  | KconsultingFee => Double.VNum (orElse0 (consultingFee item))
  | KconsultingPreFee => Double.VNum (orElse0 (consultingPreFee item))
  | KhandsOnFee => Double.VNum (orElse0 (handsOnFee item))
  | KsquadFee => Double.VNum (orElse0 (squadFee item))
  end.

(** [Number(item[key] ?? 0)] at a numeric key *)
Definition numField (key : NumKey) (item : Item) : float :=
  match key with
  | Nregular => regular item
  | NpreContracted => preContracted item
  | Ntotal => total item
  | NconsultingFee => orElse0 (consultingFee item)
  | NconsultingPreFee => orElse0 (consultingPreFee item)
  | NhandsOnFee => orElse0 (handsOnFee item)
  | NsquadFee => orElse0 (squadFee item)
  end.

(** The value the specification sorts and accumulates by, written from
    its words: the number in the field the key names, 0 where that field
    is absent; for the keys [name] and [slug], the number in [total]. *)
Definition metric (key : Key) (it : Item) : float :=
  match key with
  | Kname | Kslug | Ktotal => total it
  | Kregular => regular it
  | KpreContracted => preContracted it
  | KconsultingFee =>
      match consultingFee it with Some x => x | None => 0%float end
  | KconsultingPreFee =>
      match consultingPreFee it with Some x => x | None => 0%float end
  | KhandsOnFee =>
      match handsOnFee it with Some x => x | None => 0%float end
  | KsquadFee => match squadFee it with Some x => x | None => 0%float end
  end.

Section Card.
Variable StringToNumber : string -> float.

(** The comparator handed to [sort]. *)
Definition compareItems (key : Key) (a b : Item) : Z :=
  let aValue := field key a in
  let bValue := field key b in
  if Double.lt StringToNumber aValue bValue then 1
  else if Double.lt StringToNumber bValue aValue then (-1)
  else 0.

Definition sortedItems (key : Key) (items : list Item) : list Item :=
  Array_sort (compareItems key) items.

Record Totals : Type := {
  t_regular : float;
  t_preContracted : float;
  t_total : float;
  t_consultingFee : float;
  t_consultingPreFee : float;
  t_handsOnFee : float;
  t_squadFee : float
}.

Definition totals (items : list Item) : Totals :=
  fold_left
    (fun acc item =>
       {| t_regular := PrimFloat.add (t_regular acc) (regular item);
          t_preContracted :=
            PrimFloat.add (t_preContracted acc) (preContracted item);
          t_total := PrimFloat.add (t_total acc) (total item);
          t_consultingFee :=
            PrimFloat.add (t_consultingFee acc)
                          (orElse0 (consultingFee item));
          t_consultingPreFee :=
            PrimFloat.add (t_consultingPreFee acc)
                          (orElse0 (consultingPreFee item));
          t_handsOnFee :=
            PrimFloat.add (t_handsOnFee acc) (orElse0 (handsOnFee item));
          t_squadFee :=
            PrimFloat.add (t_squadFee acc) (orElse0 (squadFee item)) |})
    items
    {| t_regular := 0; t_preContracted := 0; t_total := 0;
       t_consultingFee := 0; t_consultingPreFee := 0;
       t_handsOnFee := 0; t_squadFee := 0 |}.

(** [totals[key]] *)
Definition totalsAt (t : Totals) (key : NumKey) : float :=
  match key with
  | Nregular => t_regular t
  | NpreContracted => t_preContracted t
  | Ntotal => t_total t
  | NconsultingFee => t_consultingFee t
  | NconsultingPreFee => t_consultingPreFee t
  | NhandsOnFee => t_handsOnFee t
  | NsquadFee => t_squadFee t
  end.

(** [{ ...item, cumulative }] *)
Record CumulativeItem : Type := {
  item : Item;
  cumulative : float
}.

Definition cumulativeItems (key : Key) (items : list Item)
  : list CumulativeItem :=
  let sorted := sortedItems key items in
  mapi
    (fun index it =>
       let previousSum :=
         fold_left
           (fun sum i => PrimFloat.add sum (numField (effectiveKey key) i))
           (slice sorted 0 (Z.of_nat index)) 0%float in
       let currentValue := numField (effectiveKey key) it in
       let cumulative :=
         PrimFloat.div (PrimFloat.add previousSum currentValue)
                       (totalsAt (totals items) (effectiveKey key)) in
       {| item := it; cumulative := cumulative |})
    sorted.

End Card.

(** *** Sample data *)

Definition mkItem (n : string) (tot : float) (fee : option float) : Item :=
  {| name := n; slug := None; regular := 0; preContracted := tot;
     total := tot; consultingFee := fee; consultingPreFee := None;
     handsOnFee := None; squadFee := None |}.

(** Three rows whose totals are one, two and three tenths. *)
Definition tenths : list Item :=
  [mkItem "a" 0.1 (Some 0.1%float); mkItem "b" 0.2 None;
   mkItem "c" 0.3 (Some 0.3%float)].

(** A host in which no string converts to a number. *)
Definition noNumber : string -> float := fun _ => nan.

End SummariesD.

(* ================================================================= *)
(** * AllocationCalendar_old.tsx: the month grid *)

Module AllocationCalendar.
Import JS.

Inductive CellType : Type := prev | current | next | total.

Definition CellType_eqb (a b : CellType) : bool :=
  match a, b with
  | prev, prev | current, current | next, next | total, total => true
  | _, _ => false
  end.

Record Hours : Type := {
  consulting : Q;
  handsOn : Q;
  squad : Q;
  internal : Q
}.

Definition noHours : Hours :=
  {| consulting := 0; handsOn := 0; squad := 0; internal := 0 |}.

(** The four [+=] of the accumulation loops, in exact arithmetic; the
    doubles of the engine are added in [CalendarD.addHours]. *)
Definition addHours (acc h : Hours) : Hours :=
  {| consulting := consulting acc + consulting h;
     handsOn := handsOn acc + handsOn h;
     squad := squad acc + squad h;
     internal := internal acc + internal h |}.

Record DayData : Type := {
  day : option Z;
  type : CellType;
  hours : Hours;
  isHoliday : option bool;
  holidayReason : option string
}.

Inductive StatType : Type := Consulting | HandsOn | Squad | Internal.

Definition StatType_eqb (a b : StatType) : bool :=
  match a, b with
  | Consulting, Consulting | HandsOn, HandsOn
  | Squad, Squad | Internal, Internal => true
  | _, _ => false
  end.

(** [hours[selectedStatType]] *)
Definition statHours (h : Hours) (s : StatType) : Q :=
  match s with
  | Consulting => consulting h
  | HandsOn => handsOn h
  | Squad => squad h
  | Internal => internal h
  end.

(** An element of [timesheet.byDate]. *)
Record DayEntry : Type := {
  date : string;
  totalConsultingHours : option Q;
  totalHandsOnHours : option Q;
  totalSquadHours : option Q;
  totalInternalHours : option Q
}.

(** A stored date in the date-only form [YYYY-MM-DD] (month 1..12), the
    form of the [byDate] keys. *)
Record IsoDate : Type := {
  iso_year : Z;
  iso_month : Z;
  iso_day : Z
}.

(** An element of [timesheet.businessCalendar.holidays]. *)
Record Holiday : Type := {
  hdate : IsoDate;
  reason : option string
}.

(** [holidays] is [None] when [businessCalendar] or its [holidays] is
    missing. *)
Record Timesheet : Type := {
  byDate : list DayEntry;
  holidays : option (list Holiday)
}.

(** [x || 0] on an optional number *)
Definition orZero (x : option Q) : Q :=
  match x with Some q => q | None => 0 end.

Definition totalHours (timesheet : Timesheet) : Hours :=
  fold_left
    (fun acc d =>
       {| consulting := consulting acc + orZero (totalConsultingHours d);
          handsOn := handsOn acc + orZero (totalHandsOnHours d);
          squad := squad acc + orZero (totalSquadHours d);
          internal := internal acc + orZero (totalInternalHours d) |})
    (byDate timesheet) noHours.

(** [Object.entries(totalHours)], in the order the literal lists them. *)
Definition entries (h : Hours) : list (StatType * Q) :=
  [ (Consulting, consulting h); (HandsOn, handsOn h);
    (Squad, squad h); (Internal, internal h) ].

Definition availableStatTypes (timesheet : Timesheet) : list StatType :=
  map fst (filter (fun e => Qltb 0 (snd e)) (entries (totalHours timesheet))).

Definition includes (l : list StatType) (s : StatType) : bool :=
  existsb (StatType_eqb s) l.

(** The call of [setSelectedStatType] during rendering, if any. *)
Definition substitutedStatType (timesheet : Timesheet) (selected : StatType)
  : option StatType :=
  let available := availableStatTypes timesheet in
  if negb (includes available selected) && (0 <? List.length available)%nat
  then hd_error available
  else None.

(** The template [`${year}-${month + 1, two digits}-${date, two digits}`] *)
Definition formatDate (d : Date) : string :=
  toString (getFullYear d) ++ "-"
  ++ padStart2 (toString (getMonth d + 1)) ++ "-"
  ++ padStart2 (toString (getDate d)).

Definition getHoursForDate (timesheet : Timesheet) (d : Date) : Hours :=
  let formattedDate := formatDate d in
  let dayData :=
    find (fun e => String.eqb (date e) formattedDate) (byDate timesheet) in
  {| consulting := orZero (match dayData with
                           | Some e => totalConsultingHours e | None => None end);
     handsOn := orZero (match dayData with
                        | Some e => totalHandsOnHours e | None => None end);
     squad := orZero (match dayData with
                      | Some e => totalSquadHours e | None => None end);
     internal := orZero (match dayData with
                         | Some e => totalInternalHours e | None => None end) |}.

Section Zone.

(** The offset of local time from UTC, in milliseconds, at a UTC time
    value (ECMA-262 [LocalTZA]); it belongs to the host. *)
Variable LocalTZA : Z -> Z.

(** [new Date(s)] for a date-only string that names a day of the
    calendar ([validIso] below): midnight UTC of that day.  For a string
    that names no day (a 32nd of March) the engine gives an invalid date,
    which matches no cell; the function says nothing of such strings, and
    what is stated of it assumes [validIso]. *)
Definition parseDateOnly (s : IsoDate) : Z :=
  (MakeDay (iso_year s) (iso_month s - 1) (iso_day s) * msPerDay)%Z.

(** [new Date(new Date(h.date).getTime() + 24 * 60 * 60 * 1000)], as the
    local time value its getters read. *)
Definition holidayDate (h : Holiday) : Date :=
  let utc := (parseDateOnly (hdate h) + 24 * 60 * 60 * 1000)%Z in
  (utc + LocalTZA utc)%Z.

(** The function [isHoliday] of the component (the name is taken by the
    field of the cell here): the first stored holiday that matches. *)
Definition findHoliday (timesheet : Timesheet) (d : Date) : option Holiday :=
  let formattedDate := formatDate d in
  match holidays timesheet with
  | None => None
  | Some hs =>
      find (fun h => String.eqb (formatDate (holidayDate h)) formattedDate) hs
  end.

(** [!!holiday] and [holiday?.reason] *)
Definition truthy (h : option Holiday) : bool :=
  match h with Some _ => true | None => false end.

Definition reasonOf (h : option Holiday) : option string :=
  match h with Some x => reason x | None => None end.

Definition dayCell (ty : CellType) (n : Z) (d : Date) (timesheet : Timesheet)
  : DayData :=
  let holiday := findHoliday timesheet d in
  {| day := Some n;
     type := ty;
     hours := getHoursForDate timesheet d;
     isHoliday := Some (truthy holiday);
     holidayReason := reasonOf holiday |}.

Section Grid.
Variable timesheet : Timesheet.
Variable selectedDate : Date.

Definition currentMonth : Z := getMonth selectedDate.
Definition currentYear : Z := getFullYear selectedDate.

Definition firstDayOfMonth : Date := newDate currentYear currentMonth 1.
Definition lastDayOfMonth : Date := newDate currentYear (currentMonth + 1) 0.

Definition daysInMonth : Z := getDate lastDayOfMonth.
Definition startingDayOfWeek : Z := getDay firstDayOfMonth.

Definition totalDays : Z := (startingDayOfWeek + daysInMonth)%Z.
Definition weeksNeeded : Z := Math_ceil (inject_Z totalDays / 7).
Definition totalCells : Z := (weeksNeeded * 7)%Z.

Definition previousMonthDays : list DayData :=
  rev (Array_from startingDayOfWeek
         (fun i =>
            let d := newDate currentYear currentMonth (- i) in
            dayCell prev (getDate d) d timesheet)).

Definition currentMonthDays : list DayData :=
  Array_from daysInMonth
    (fun i =>
       let d := newDate currentYear currentMonth (i + 1) in
       dayCell current (i + 1)%Z d timesheet).

Definition remainingDays : Z :=
  (totalCells
   - (Z.of_nat (List.length previousMonthDays)
      + Z.of_nat (List.length currentMonthDays)))%Z.

Definition nextMonthDays : list DayData :=
  Array_from remainingDays
    (fun i =>
       let d := newDate currentYear (currentMonth + 1) (i + 1) in
       dayCell next (i + 1)%Z d timesheet).

Definition allDays : list DayData :=
  previousMonthDays ++ currentMonthDays ++ nextMonthDays.

(** One week: seven day cells and the cell of the week's total. *)
Definition weekTotalOf (weekDays : list DayData) : Hours :=
  fold_left
    (fun weekTotal c =>
       if CellType_eqb (type c) current then addHours weekTotal (hours c)
       else weekTotal)
    weekDays noHours.

Definition totalCell (weekTotal : Hours) : DayData :=
  {| day := None; type := total; hours := weekTotal;
     isHoliday := None; holidayReason := None |}.

Definition rows : list (list DayData) :=
  Array_from weeksNeeded
    (fun weekIndex =>
       let weekDays :=
         slice allDays (weekIndex * 7)%Z ((weekIndex + 1) * 7)%Z in
       weekDays ++ [totalCell (weekTotalOf weekDays)]).

(** [columnTotals[index].x += day.hours.x]; reading a missing element
    raises, which is [None]. *)
Fixpoint addAt (index : nat) (h : Hours) (cts : list Hours)
  : option (list Hours) :=
  match cts, index with
  | [], _ => None
  | c :: cts', O => Some (addHours c h :: cts')
  | c :: cts', S n => option_map (cons c) (addAt n h cts')
  end.

Fixpoint addWeek (index : nat) (week : list DayData) (cts : list Hours)
  : option (list Hours) :=
  match week with
  | [] => Some cts
  | c :: week' =>
      let step :=
        if CellType_eqb (type c) current || CellType_eqb (type c) total
        then addAt index (hours c) cts
        else Some cts in
      match step with
      | Some cts' => addWeek (S index) week' cts'
      | None => None
      end
  end.

Definition columnTotals : option (list Hours) :=
  fold_left
    (fun acc week =>
       match acc with
       | Some cts => addWeek 0 week cts
       | None => None
       end)
    rows
    (Some (repeat noHours 8)).

End Grid.

(** *** Selection state and the event handlers *)

Record State : Type := {
  selectedDate : Date;
  selectedDay : option Z;
  selectedRow : option Z;
  selectedColumn : option Z;
  isAllSelected : bool;
  selectedStatType : StatType
}.

Definition setSelectedDate (d : Date) (s : State) : State :=
  {| selectedDate := d; selectedDay := selectedDay s;
     selectedRow := selectedRow s; selectedColumn := selectedColumn s;
     isAllSelected := isAllSelected s;
     selectedStatType := selectedStatType s |}.

Definition setSelectedDay (d : option Z) (s : State) : State :=
  {| selectedDate := selectedDate s; selectedDay := d;
     selectedRow := selectedRow s; selectedColumn := selectedColumn s;
     isAllSelected := isAllSelected s;
     selectedStatType := selectedStatType s |}.

Definition setSelectedRow (r : option Z) (s : State) : State :=
  {| selectedDate := selectedDate s; selectedDay := selectedDay s;
     selectedRow := r; selectedColumn := selectedColumn s;
     isAllSelected := isAllSelected s;
     selectedStatType := selectedStatType s |}.

Definition setSelectedColumn (c : option Z) (s : State) : State :=
  {| selectedDate := selectedDate s; selectedDay := selectedDay s;
     selectedRow := selectedRow s; selectedColumn := c;
     isAllSelected := isAllSelected s;
     selectedStatType := selectedStatType s |}.

Definition setIsAllSelected (b : bool) (s : State) : State :=
  {| selectedDate := selectedDate s; selectedDay := selectedDay s;
     selectedRow := selectedRow s; selectedColumn := selectedColumn s;
     isAllSelected := b;
     selectedStatType := selectedStatType s |}.

Definition setSelectedStatType (t : StatType) (s : State) : State :=
  {| selectedDate := selectedDate s; selectedDay := selectedDay s;
     selectedRow := selectedRow s; selectedColumn := selectedColumn s;
     isAllSelected := isAllSelected s;
     selectedStatType := t |}.

(** The setters called by a handler read the props of the render the
    handler was created in ([s0]) and apply to the state in order. *)
Definition handleDayClick (n : Z) (ty : CellType) (rowIndex : Z) (s0 : State)
  : State :=
  let s1 :=
    match ty with
    | prev =>
        let newDate := selectedDate s0 in
        let newDate := setMonth newDate (getMonth (selectedDate s0) - 1) in
        let newDate := setDate newDate n in
        setSelectedDate newDate s0
    | next =>
        let newDate := selectedDate s0 in
        let newDate := setMonth newDate (getMonth (selectedDate s0) + 1) in
        let newDate := setDate newDate n in
        setSelectedDate newDate s0
    | _ =>
        setSelectedDate
          (newDate (getFullYear (selectedDate s0))
                   (getMonth (selectedDate s0)) n) s0
    end in
  setIsAllSelected false
    (setSelectedColumn None (setSelectedRow None (setSelectedDay (Some n) s1))).

Definition handleColumnSelect (columnIndex : Z) (s0 : State) : State :=
  if (columnIndex =? 7)%Z then
    setSelectedDay None
      (setSelectedRow None (setSelectedColumn None (setIsAllSelected true s0)))
  else
    setIsAllSelected false
      (setSelectedDay None
         (setSelectedRow None (setSelectedColumn (Some columnIndex) s0))).

Definition handleRowSelect (rowIndex : Z) (s0 : State) : State :=
  setIsAllSelected false
    (setSelectedDay None
       (setSelectedColumn None (setSelectedRow (Some rowIndex) s0))).

Definition handleMonthChange (increment : Z) (s0 : State) : State :=
  let newDate := selectedDate s0 in
  let newDate := setMonth newDate (getMonth (selectedDate s0) + increment) in
  setIsAllSelected false
    (setSelectedColumn None
       (setSelectedRow None
          (setSelectedDay None (setSelectedDate newDate s0)))).

(** The date computed by [handleMonthChange], on the instant the
    selected date holds:
    [newDate = new Date(selectedDate);
     newDate.setMonth(selectedDate.getMonth() + increment)]. *)
Definition monthChangedAt (offsetAt offsetOf : Z -> Z)
  (increment : Z) (selected : Z) : Z :=
  let newDate := selected in
  setMonthAt offsetAt offsetOf newDate
    (getMonth (LocalTime offsetAt selected) + increment).

Definition handleStatTypeChange (newType : StatType) (s0 : State) : State :=
  setIsAllSelected false
    (setSelectedColumn None
       (setSelectedRow None
          (setSelectedDay None (setSelectedStatType newType s0)))).

(** *** The click of a day cell *)

(** [DayCell]: the arguments [onDayClick] is called with, if it is. *)
Definition dayCellOnClick
  (dayData : DayData) (weekIndex : Z) (selected : StatType)
  : option (Z * CellType * Z) :=
  let isSelectable :=
    CellType_eqb (type dayData) current
    && Qltb 0 (statHours (hours dayData) selected) in
  match day dayData with
  | Some n => if isSelectable then Some (n, type dayData, weekIndex) else None
  | None => None
  end.

(** A click on the day cell rendered at [dayIndex] of the week
    [weekIndex] ([week.slice(0, 7)] of [rows]), with [handleDayClick] as
    [onDayClick].  No cell there, no click. *)
Definition clickDayCell
  (timesheet : Timesheet) (weekIndex dayIndex : nat) (s0 : State)
  : option State :=
  match nth_error (rows timesheet (selectedDate s0)) weekIndex with
  | None => None
  | Some week =>
      match nth_error (slice week 0 7) dayIndex with
      | None => None
      | Some dayData =>
          match dayCellOnClick dayData (Z.of_nat weekIndex)
                               (selectedStatType s0) with
          | Some (n, ty, rowIndex) => Some (handleDayClick n ty rowIndex s0)
          | None => Some s0
          end
      end
  end.

End Zone.

(** *** Selection events *)

Inductive Event : Type :=
| DayClick (n : Z) (ty : CellType) (rowIndex : Z)
| ColumnSelect (columnIndex : Z)
| RowSelect (rowIndex : Z)
| MonthChange (increment : Z)
| StatTypeChange (newType : StatType).

Definition handle (e : Event) (s : State) : State :=
  match e with
  | DayClick n ty rowIndex => handleDayClick n ty rowIndex s
  | ColumnSelect columnIndex => handleColumnSelect columnIndex s
  | RowSelect rowIndex => handleRowSelect rowIndex s
  | MonthChange increment => handleMonthChange increment s
  | StatTypeChange newType => handleStatTypeChange newType s
  end.

(** How many of the four selections are active. *)
Definition active {A : Type} (o : option A) : nat :=
  match o with Some _ => 1 | None => 0 end.

Definition activeSelections (s : State) : nat :=
  active (selectedDay s) + active (selectedRow s)
  + active (selectedColumn s) + (if isAllSelected s then 1 else 0).

Definition noSelection (s : State) : Prop :=
  selectedDay s = None /\ selectedRow s = None
  /\ selectedColumn s = None /\ isAllSelected s = false.

(** *** Sums of hours, for stating what the totals hold *)

Definition sumHours (l : list Hours) : Hours := fold_right addHours noHours l.

(** Equal in every category. *)
Definition Heq (a b : Hours) : Prop :=
  consulting a == consulting b /\ handsOn a == handsOn b
  /\ squad a == squad b /\ internal a == internal b.

Definition isCurrent (c : DayData) : bool := CellType_eqb (type c) current.

(** What a cell adds to the total of its column. *)
Definition counted (c : DayData) : Hours :=
  if CellType_eqb (type c) current || CellType_eqb (type c) total
  then hours c else noHours.

(** Hours that are not negative. *)
Definition nonNegHours (h : Hours) : Prop :=
  0 <= consulting h /\ 0 <= handsOn h /\ 0 <= squad h /\ 0 <= internal h.

(** The hours an entry of [byDate] counts for. *)
Definition entryHours (e : DayEntry) : Hours :=
  {| consulting := orZero (totalConsultingHours e);
     handsOn := orZero (totalHandsOnHours e);
     squad := orZero (totalSquadHours e);
     internal := orZero (totalInternalHours e) |}.

(** What an entry counts for a category, in the words of the
    specification: the number stored, 0 where none is stored. *)
Definition entryValue (s : StatType) (e : DayEntry) : Q :=
  match s with
  | Consulting =>
      match totalConsultingHours e with Some q => q | None => 0 end
  | HandsOn => match totalHandsOnHours e with Some q => q | None => 0 end
  | Squad => match totalSquadHours e with Some q => q | None => 0 end
  | Internal => match totalInternalHours e with Some q => q | None => 0 end
  end.

(** The calendar date of a [Date]: year, month 1..12, day. *)
Definition civil (d : Date) : Z * Z * Z :=
  (getFullYear d, (getMonth d + 1)%Z, getDate d).

(** The calendar date [n] days after a stored date. *)
Definition civilAfter (s : IsoDate) (n : Z) : Z * Z * Z :=
  let d := (MakeDay (iso_year s) (iso_month s - 1) (iso_day s) + n)%Z in
  (YearFromDay d, (MonthFromDay d + 1)%Z, DateFromDay d).

(** The calendar date of a day number (days since 1 January 1970). *)
Definition civilOfDay (D : Z) : Z * Z * Z :=
  (YearFromDay D, (MonthFromDay D + 1)%Z, DateFromDay D).

(** The weekday of a day number, Sunday being 0: day 0 was a Thursday. *)
Definition sundayBased (D : Z) : Z := ((D + 4) mod 7)%Z.

(** The day number of the first of the month a date lies in
    ([new Date(year, month, 1)], with its two-digit-year rule). *)
Definition firstOfMonth (d : Date) : Z :=
  MakeDay (fullYear (getFullYear d)) (getMonth d) 1.

(** The holidays the sheet stores: none when the list is missing. *)
Definition storedHolidays (timesheet : Timesheet) : list Holiday :=
  match holidays timesheet with Some hs => hs | None => [] end.

(** A stored date that names a day of the calendar. *)
Definition validIso (s : IsoDate) : Prop :=
  (1 <= iso_month s <= 12)%Z
  /\ (1 <= iso_day s <= monthLength (iso_year s) (iso_month s - 1))%Z.

(** *** What the cells render *)

(** [isSelected] of a day cell, as the grid computes it. *)
Definition isSelected (s : State) (dayData : DayData) : bool :=
  match day dayData, selectedDay s with
  | Some n, Some k =>
      (k =? n)%Z
      && ((CellType_eqb (type dayData) current
           && (getMonth (selectedDate s) =? currentMonth (selectedDate s))%Z)
          || (CellType_eqb (type dayData) prev
              && (getMonth (selectedDate s)
                  =? currentMonth (selectedDate s) - 1)%Z)
          || (CellType_eqb (type dayData) next
              && (getMonth (selectedDate s)
                  =? currentMonth (selectedDate s) + 1)%Z))
  | _, _ => false
  end.

(** The percentages of a day cell: of its week's total, of its column's
    total. *)
Definition rowPercentage (dayData : DayData) (selected : StatType)
  (weekTotal : Q) : option Q :=
  if CellType_eqb (type dayData) current
     && Qltb 0 (statHours (hours dayData) selected)
     && Qltb 0 weekTotal
  then Some (toFixed1 (statHours (hours dayData) selected / weekTotal * 100))
  else None.

Definition columnPercentage (dayData : DayData) (selected : StatType)
  (columnTotal : Q) : option Q :=
  if CellType_eqb (type dayData) current
     && Qltb 0 (statHours (hours dayData) selected)
     && Qltb 0 columnTotal
  then Some (toFixed1 (statHours (hours dayData) selected / columnTotal * 100))
  else None.

(** The props a rendered [DayCell] receives. *)
Record DayCellProps : Type := {
  p_dayData : DayData;
  p_weekIndex : nat;
  p_dayIndex : nat;
  p_isSelected : bool;
  p_rowPercentage : option Q;
  p_columnPercentage : option Q
}.

(** The day cell rendered at [dayIndex] of the week [weekIndex].
    [None]: there is no such cell, or reading [week[7]] or
    [columnTotals[dayIndex]] raised. *)
Definition renderDayCell (LocalTZA : Z -> Z) (timesheet : Timesheet)
  (s : State) (weekIndex dayIndex : nat) : option DayCellProps :=
  match nth_error (rows LocalTZA timesheet (selectedDate s)) weekIndex with
  | None => None
  | Some week =>
      match nth_error (slice week 0 7) dayIndex,
            nth_error week 7,
            columnTotals LocalTZA timesheet (selectedDate s) with
      | Some dayData, Some weekTotalCell, Some cts =>
          match nth_error cts dayIndex with
          | None => None
          | Some columnTotal =>
              Some {| p_dayData := dayData;
                      p_weekIndex := weekIndex;
                      p_dayIndex := dayIndex;
                      p_isSelected := isSelected s dayData;
                      p_rowPercentage :=
                        rowPercentage dayData (selectedStatType s)
                          (statHours (hours weekTotalCell)
                                     (selectedStatType s));
                      p_columnPercentage :=
                        columnPercentage dayData (selectedStatType s)
                          (statHours columnTotal (selectedStatType s)) |}
          end
      | _, _, _ => None
      end
  end.

(** [DayCell]: what it derives from its props. *)
Definition isSelectable (dayData : DayData) (selected : StatType) : bool :=
  CellType_eqb (type dayData) current
  && Qltb 0 (statHours (hours dayData) selected).

Definition sameIndex (o : option Z) (index : nat) : bool :=
  match o with Some k => (k =? Z.of_nat index)%Z | None => false end.

Definition isHighlighted (p : DayCellProps) (s : State) : bool :=
  p_isSelected p || sameIndex (selectedColumn s) (p_dayIndex p)
  || sameIndex (selectedRow s) (p_weekIndex p) || isAllSelected s.

(** [WeekTotalCell]: the percentage of the grand total it is handed
    (the quotient is not guarded). *)
Definition weekTotalColumnPercentage (weekTotal grandTotal : Hours)
  (selected : StatType) : option number :=
  if Qltb 0 (statHours weekTotal selected)
  then Some (numToFixed1
               (mul (div (statHours weekTotal selected)
                         (statHours grandTotal selected))
                    (Fin 100)))
  else None.

(** [DayOfWeekTotalCell]: the percentage of the grand total shown in the
    total row under a weekday. *)
Definition dayOfWeekPercentage (columnTotal : Hours) (index : nat)
  (grandTotal : Q) (selected : StatType) : option Q :=
  if Qltb 0 (statHours columnTotal selected)
     && (index <? 7)%nat
     && negb (Qeq_bool grandTotal 0)
  then Some (toFixed1 (statHours columnTotal selected / grandTotal * 100))
  else None.

(** The percentage handed to the [WeekTotalCell] of the week
    [weekIndex], and the one the [DayOfWeekTotalCell] at [index] of the
    total row shows.  [None]: there is no such cell, or a read raised. *)
Definition renderWeekTotal (LocalTZA : Z -> Z) (timesheet : Timesheet)
  (s : State) (weekIndex : nat) : option (option number) :=
  match nth_error (rows LocalTZA timesheet (selectedDate s)) weekIndex,
        columnTotals LocalTZA timesheet (selectedDate s) with
  | Some week, Some cts =>
      match nth_error week 7, nth_error cts 7 with
      | Some weekTotalCell, Some grandTotal =>
          Some (weekTotalColumnPercentage (hours weekTotalCell) grandTotal
                  (selectedStatType s))
      | _, _ => None
      end
  | _, _ => None
  end.

Definition renderDayOfWeekTotal (LocalTZA : Z -> Z) (timesheet : Timesheet)
  (s : State) (index : nat) : option (option Q) :=
  match columnTotals LocalTZA timesheet (selectedDate s) with
  | Some cts =>
      match nth_error cts index, nth_error cts 7 with
      | Some columnTotal, Some grandTotal =>
          Some (dayOfWeekPercentage columnTotal index
                  (statHours grandTotal (selectedStatType s))
                  (selectedStatType s))
      | _, _ => None
      end
  | None => None
  end.

(** The number of working days shown under the month's name:
    [workingDays.filter(date => new Date(date).getMonth() ===
    selectedDate.getMonth()).length], for stored dates of the date-only
    form. *)
Definition workingDaysShown (LocalTZA : Z -> Z) (workingDays : list IsoDate)
  (selectedDate : Date) : nat :=
  List.length
    (filter
       (fun s =>
          let utc := parseDateOnly s in
          (getMonth (utc + LocalTZA utc) =? getMonth selectedDate)%Z)
       workingDays).

(** *** Sample data *)

(** Hosts at UTC and three hours behind it (Brasilia). *)
Definition zoneUTC : Z -> Z := fun _ => 0%Z.
Definition zoneBRT : Z -> Z := fun _ => (-3 * 60 * 60 * 1000)%Z.

Definition march2024 : Date := newDate 2024 2 1.

(** A host five hours behind UTC whose clocks go forward by an hour at
    02:00 on 10 March 2024 (07:00 UTC): the offset in force at an instant,
    and the offset taken for a local time, a skipped one being read with
    the offset before the change. *)
Definition hourMs : Z := 3600000.
Definition springForwardAt : Z -> Z :=
  fun tv => if (tv <? newDate 2024 2 10 + 7 * hourMs)%Z
            then (-5 * hourMs)%Z else (-4 * hourMs)%Z.
Definition springForwardOf : Z -> Z :=
  fun t => if (t <? newDate 2024 2 10 + 3 * hourMs)%Z
           then (-5 * hourMs)%Z else (-4 * hourMs)%Z.

Definition entry (d : string) (c : Q) : DayEntry :=
  {| date := d; totalConsultingHours := Some c; totalHandsOnHours := None;
     totalSquadHours := None; totalInternalHours := None |}.

(** The example of the specification: eight consulting hours on one day. *)
Definition marchSheet : Timesheet :=
  {| byDate := [entry "2024-03-15" 8]; holidays := None |}.

(** A sheet whose only hours fall in the month after. *)
Definition aprilSheet : Timesheet :=
  {| byDate := [entry "2024-04-10" 8]; holidays := None |}.

Definition holiday15 : Holiday :=
  {| hdate := {| iso_year := 2024; iso_month := 3; iso_day := 15 |};
     reason := Some "Holiday"%string |}.

Definition holidaySheet : Timesheet :=
  {| byDate := []; holidays := Some [holiday15] |}.

(** The first working days of March 2023 and of March and April 2024,
    and the fourth of March 2024. *)
Definition sampleWorkingDays : list IsoDate :=
  [ {| iso_year := 2023; iso_month := 3; iso_day := 1 |};
    {| iso_year := 2024; iso_month := 3; iso_day := 1 |};
    {| iso_year := 2024; iso_month := 3; iso_day := 4 |};
    {| iso_year := 2024; iso_month := 4; iso_day := 1 |} ].

Definition emptySheet : Timesheet := {| byDate := []; holidays := None |}.

Definition marchState : State :=
  {| selectedDate := march2024; selectedDay := None; selectedRow := Some 1%Z;
     selectedColumn := None; isAllSelected := false;
     selectedStatType := Consulting |}.

End AllocationCalendar.

(* ================================================================= *)
(** * AllocationCalendar_old.tsx over doubles

    The hours of the grid again, line by line as in
    [AllocationCalendar], with the hours of the sheet taken as doubles
    and added as the engine does.  The dates of the grid
    ([startingDayOfWeek], [daysInMonth], [weeksNeeded], ...) and the
    holidays do not involve the hours and are those of
    [AllocationCalendar]. *)

Module CalendarD.
Import JS AllocationCalendar PrimFloat.

Record Hours : Type := {
  consulting : float;
  handsOn : float;
  squad : float;
  internal : float
}.

Definition noHours : Hours :=
  {| consulting := 0; handsOn := 0; squad := 0; internal := 0 |}.

(** The four [+=] of the accumulation loops. *)
Definition addHours (acc h : Hours) : Hours :=
  {| consulting := PrimFloat.add (consulting acc) (consulting h);
     handsOn := PrimFloat.add (handsOn acc) (handsOn h);
     squad := PrimFloat.add (squad acc) (squad h);
     internal := PrimFloat.add (internal acc) (internal h) |}.

Record DayData : Type := {
  day : option Z;
  type : CellType;
  hours : Hours;
  isHoliday : option bool;
  holidayReason : option string
}.

(** [hours[selectedStatType]] *)
Definition statHours (h : Hours) (s : StatType) : float :=
  match s with
  | Consulting => consulting h
  | HandsOn => handsOn h
  | Squad => squad h
  | Internal => internal h
  end.

(** An element of [timesheet.byDate]. *)
Record DayEntry : Type := {
  date : string;
  totalConsultingHours : option float;
  totalHandsOnHours : option float;
  totalSquadHours : option float;
  totalInternalHours : option float
}.

Record Timesheet : Type := {
  byDate : list DayEntry;
  holidays : option (list Holiday)
}.

(** [x || 0] on an optional number *)
Definition orZero (x : option float) : float :=
  match x with Some v => Double.orZero v | None => 0%float end.

Definition totalHours (timesheet : Timesheet) : Hours :=
  fold_left
    (fun acc d =>
       {| consulting :=
            PrimFloat.add (consulting acc) (orZero (totalConsultingHours d));
          handsOn :=
            PrimFloat.add (handsOn acc) (orZero (totalHandsOnHours d));
          squad := PrimFloat.add (squad acc) (orZero (totalSquadHours d));
          internal :=
            PrimFloat.add (internal acc) (orZero (totalInternalHours d)) |})
    (byDate timesheet) noHours.

Definition getHoursForDate (timesheet : Timesheet) (d : Date) : Hours :=
  let formattedDate := formatDate d in
  let dayData :=
    find (fun e => String.eqb (date e) formattedDate) (byDate timesheet) in
  {| consulting := orZero (match dayData with
                           | Some e => totalConsultingHours e | None => None end);
     handsOn := orZero (match dayData with
                        | Some e => totalHandsOnHours e | None => None end);
     squad := orZero (match dayData with
                      | Some e => totalSquadHours e | None => None end);
     internal := orZero (match dayData with
                         | Some e => totalInternalHours e | None => None end) |}.

Section Zone.
Variable LocalTZA : Z -> Z.

Definition findHoliday (timesheet : Timesheet) (d : Date) : option Holiday :=
  let formattedDate := formatDate d in
  match holidays timesheet with
  | None => None
  | Some hs =>
      find (fun h => String.eqb (formatDate (holidayDate LocalTZA h))
                                formattedDate) hs
  end.

Definition dayCell (ty : CellType) (n : Z) (d : Date) (timesheet : Timesheet)
  : DayData :=
  let holiday := findHoliday timesheet d in
  {| day := Some n;
     type := ty;
     hours := getHoursForDate timesheet d;
     isHoliday := Some (truthy holiday);
     holidayReason := reasonOf holiday |}.

Section Grid.
Variable timesheet : Timesheet.
Variable selectedDate : Date.

Definition previousMonthDays : list DayData :=
  rev (Array_from (startingDayOfWeek selectedDate)
         (fun i =>
            let d := newDate (currentYear selectedDate)
                             (currentMonth selectedDate) (- i) in
            dayCell prev (getDate d) d timesheet)).

Definition currentMonthDays : list DayData :=
  Array_from (daysInMonth selectedDate)
    (fun i =>
       let d := newDate (currentYear selectedDate)
                        (currentMonth selectedDate) (i + 1) in
       dayCell current (i + 1)%Z d timesheet).

Definition remainingDays : Z :=
  (totalCells selectedDate
   - (Z.of_nat (List.length previousMonthDays)
      + Z.of_nat (List.length currentMonthDays)))%Z.

Definition nextMonthDays : list DayData :=
  Array_from remainingDays
    (fun i =>
       let d := newDate (currentYear selectedDate)
                        (currentMonth selectedDate + 1) (i + 1) in
       dayCell next (i + 1)%Z d timesheet).

Definition allDays : list DayData :=
  previousMonthDays ++ currentMonthDays ++ nextMonthDays.

(** One week: seven day cells and the cell of the week's total. *)
Definition weekTotalOf (weekDays : list DayData) : Hours :=
  fold_left
    (fun weekTotal c =>
       if CellType_eqb (type c) current then addHours weekTotal (hours c)
       else weekTotal)
    weekDays noHours.

Definition totalCell (weekTotal : Hours) : DayData :=
  {| day := None; type := total; hours := weekTotal;
     isHoliday := None; holidayReason := None |}.

Definition rows : list (list DayData) :=
  Array_from (weeksNeeded selectedDate)
    (fun weekIndex =>
       let weekDays :=
         slice allDays (weekIndex * 7)%Z ((weekIndex + 1) * 7)%Z in
       weekDays ++ [totalCell (weekTotalOf weekDays)]).

(** [columnTotals[index].x += day.hours.x]; reading a missing element
    raises, which is [None]. *)
Fixpoint addAt (index : nat) (h : Hours) (cts : list Hours)
  : option (list Hours) :=
  match cts, index with
  | [], _ => None
  | c :: cts', O => Some (addHours c h :: cts')
  | c :: cts', S n => option_map (cons c) (addAt n h cts')
  end.

Fixpoint addWeek (index : nat) (week : list DayData) (cts : list Hours)
  : option (list Hours) :=
  match week with
  | [] => Some cts
  | c :: week' =>
      let step :=
        if CellType_eqb (type c) current || CellType_eqb (type c) total
        then addAt index (hours c) cts
        else Some cts in
      match step with
      | Some cts' => addWeek (S index) week' cts'
      | None => None
      end
  end.

Definition columnTotals : option (list Hours) :=
  fold_left
    (fun acc week =>
       match acc with
       | Some cts => addWeek 0 week cts
       | None => None
       end)
    rows
    (Some (repeat noHours 8)).

End Grid.

End Zone.

(** *** For stating what the totals hold *)

Definition isCurrent (c : DayData) : bool := CellType_eqb (type c) current.

(** *** Sample data *)

Definition entry (d : string) (c : float) : DayEntry :=
  {| date := d; totalConsultingHours := Some c; totalHandsOnHours := None;
     totalSquadHours := None; totalInternalHours := None |}.

(** A tenth of an hour on Monday 4 March 2024, two tenths on Sunday the
    tenth and three tenths on Monday the eleventh. *)
Definition tenthsSheet : Timesheet :=
  {| byDate := [entry "2024-03-04" 0.1; entry "2024-03-10" 0.2;
                entry "2024-03-11" 0.3];
     holidays := None |}.

End CalendarD.

Unset Implicit Arguments.

(* ================================================================= *)
(** * Facts about the run-time model *)

Module JSFacts.
Import JS.

Section DateFacts.
Local Open Scope Z_scope.

Lemma mod100_mod4 y : y mod 100 = 0 -> y mod 4 = 0.
Proof.
  intros H. apply Z.mod_divide in H; [|lia]. apply Z.mod_divide; [lia|].
  destruct H as [k ->]. exists (25 * k). lia.
Qed.

Lemma mod400_mod100 y : y mod 400 = 0 -> y mod 100 = 0.
Proof.
  intros H. apply Z.mod_divide in H; [|lia]. apply Z.mod_divide; [lia|].
  destruct H as [k ->]. exists (4 * k). lia.
Qed.

Lemma DaysInYear_cases y : DaysInYear y = 365 \/ DaysInYear y = 366.
Proof.
  unfold DaysInYear.
  destruct (y mod 4 =? 0), (y mod 100 =? 0), (y mod 400 =? 0); cbn; auto.
Qed.

Lemma DayFromYear_succ y : DayFromYear (y + 1) = DayFromYear y + DaysInYear y.
Proof.
  unfold DayFromYear, DaysInYear.
  pose proof (mod100_mod4 y). pose proof (mod400_mod100 y).
  destruct (Z.eqb_spec (y mod 4) 0); destruct (Z.eqb_spec (y mod 100) 0);
  destruct (Z.eqb_spec (y mod 400) 0); cbn [negb]; try tauto;
  Z.div_mod_to_equations; lia.
Qed.

Lemma DayFromYear_mono y y' : y <= y' -> DayFromYear y <= DayFromYear y'.
Proof. unfold DayFromYear. intros. Z.div_mod_to_equations. lia. Qed.

Lemma YearFromDay_spec d :
  DayFromYear (YearFromDay d) <= d < DayFromYear (YearFromDay d + 1).
Proof.
  unfold YearFromDay.
  set (y0 := 1970 + (400 * d) / 146097).
  assert (H1 : DayFromYear (y0 - 1) <= d).
  { unfold DayFromYear, y0. Z.div_mod_to_equations. lia. }
  assert (H2 : d < DayFromYear (y0 + 2)).
  { unfold DayFromYear, y0. Z.div_mod_to_equations. lia. }
  destruct (Z.leb_spec (DayFromYear (y0 + 1)) d).
  - replace (y0 + 1 + 1) with (y0 + 2) by lia. lia.
  - destruct (Z.leb_spec (DayFromYear y0) d).
    + lia.
    + replace (y0 - 1 + 1) with y0 by lia. lia.
Qed.

(** The year of a day is the only year whose days contain it. *)
Lemma YearFromDay_unique d y :
  DayFromYear y <= d < DayFromYear (y + 1) -> YearFromDay d = y.
Proof.
  intros H. pose proof (YearFromDay_spec d) as S.
  destruct (Z.lt_trichotomy (YearFromDay d) y) as [L | [E | G]]; trivial.
  - pose proof (DayFromYear_mono (YearFromDay d + 1) y ltac:(lia)). lia.
  - pose proof (DayFromYear_mono (y + 1) (YearFromDay d) ltac:(lia)). lia.
Qed.

Lemma MakeDay_canonical y m d :
  0 <= m < 12 ->
  MakeDay y m d = DayFromYear y + monthStart (leapOf y) m + d - 1.
Proof.
  intros Hm. unfold MakeDay, leapOf.
  rewrite (Z.div_small m 12), (Z.mod_small m 12) by lia.
  now rewrite Z.add_0_r.
Qed.

Lemma MakeDay_norm y m d : MakeDay y m d = MakeDay (y + m / 12) (m mod 12) d.
Proof.
  unfold MakeDay.
  rewrite Z.mod_mod by lia.
  rewrite (Z.div_small (m mod 12) 12) by (apply Z.mod_pos_bound; lia).
  now rewrite Z.add_0_r.
Qed.

Lemma MakeDay_date y m d d' : MakeDay y m d = MakeDay y m d' + (d - d').
Proof. unfold MakeDay. lia. Qed.

Lemma leapOf_cases y : leapOf y = 0 \/ leapOf y = 1.
Proof. unfold leapOf. destruct (DaysInYear y =? 366); auto. Qed.

Lemma MakeDay_next_month y m d :
  0 <= m < 12 -> MakeDay y (m + 1) d = MakeDay y m d + monthLength y m.
Proof.
  intros Hm.
  destruct (Z.eq_dec m 11) as [-> | Hne].
  - rewrite (MakeDay_norm y (11 + 1)). change ((11 + 1) / 12) with 1.
    change ((11 + 1) mod 12) with 0.
    rewrite !MakeDay_canonical by lia. rewrite DayFromYear_succ.
    unfold leapOf, monthLength. cbn [monthStart].
    destruct (DaysInYear_cases y) as [-> | ->]; cbn; lia.
  - rewrite !MakeDay_canonical by lia.
    unfold monthLength. generalize (leapOf y) as l. intros l.
    assert (C : m = 0 \/ m = 1 \/ m = 2 \/ m = 3 \/ m = 4 \/ m = 5 \/ m = 6
                \/ m = 7 \/ m = 8 \/ m = 9 \/ m = 10) by lia.
    repeat (destruct C as [-> | C]); try subst m;
      match goal with
      | |- context [monthStart _ (?a + 1)] =>
          let v := eval vm_compute in (a + 1) in change (a + 1) with v
      end; cbn [monthStart]; lia.
Qed.

Lemma daysInMonthOf_table y m :
  0 <= m < 12 -> daysInMonthOf y m = monthLength y m.
Proof.
  intros Hm. unfold daysInMonthOf. rewrite MakeDay_next_month by trivial. lia.
Qed.

Lemma monthLength_bounds y m : 28 <= monthLength y m <= 31.
Proof.
  unfold monthLength. pose proof (leapOf_cases y).
  destruct m as [|p|p]; try lia.
  do 4 (destruct p as [p|p|]; try lia).
Qed.

Lemma leapOf_DaysInYear y : DaysInYear y = 365 + leapOf y.
Proof.
  unfold leapOf. destruct (DaysInYear_cases y) as [-> | ->]; reflexivity.
Qed.

Lemma monthStart_bounds l m d :
  0 <= l <= 1 -> 0 <= m < 12 ->
  1 <= d <= match m with 1 => 28 + l | 3 | 5 | 8 | 10 => 30 | _ => 31 end ->
  0 <= monthStart l m + d - 1 < 365 + l.
Proof.
  intros Hl Hm.
  assert (C : m = 0 \/ m = 1 \/ m = 2 \/ m = 3 \/ m = 4 \/ m = 5 \/ m = 6
              \/ m = 7 \/ m = 8 \/ m = 9 \/ m = 10 \/ m = 11) by lia.
  repeat (destruct C as [-> | C]); try subst m; cbn [monthStart]; lia.
Qed.

Ltac month_cases m :=
  let C := fresh "C" in
  assert (C : m = 0 \/ m = 1 \/ m = 2 \/ m = 3 \/ m = 4 \/ m = 5 \/ m = 6
              \/ m = 7 \/ m = 8 \/ m = 9 \/ m = 10 \/ m = 11) by lia;
  repeat (destruct C as [-> | C]); try subst m.

(** A day made from a year, a month 0..11 and a date of that month reads
    back as that year, month and date. *)
Lemma MakeDay_fields y m d :
  0 <= m < 12 -> 1 <= d <= monthLength y m ->
  YearFromDay (MakeDay y m d) = y /\
  MonthFromDay (MakeDay y m d) = m /\
  DateFromDay (MakeDay y m d) = d.
Proof.
  intros Hm Hd. rewrite MakeDay_canonical by trivial.
  pose proof (leapOf_cases y) as Hl.
  pose proof (monthStart_bounds (leapOf y) m d ltac:(lia) Hm Hd) as Hb.
  assert (HY : YearFromDay (DayFromYear y + monthStart (leapOf y) m + d - 1) = y).
  { apply YearFromDay_unique. rewrite DayFromYear_succ, leapOf_DaysInYear. lia. }
  split; [exact HY|].
  assert (HL : leapDays (DayFromYear y + monthStart (leapOf y) m + d - 1)
               = leapOf y).
  { unfold leapDays, InLeapYear. rewrite HY. reflexivity. }
  assert (HW : DayWithinYear (DayFromYear y + monthStart (leapOf y) m + d - 1)
               = monthStart (leapOf y) m + d - 1).
  { unfold DayWithinYear. rewrite HY. lia. }
  assert (HM : MonthFromDay (DayFromYear y + monthStart (leapOf y) m + d - 1)
               = m).
  { unfold MonthFromDay. rewrite HW, HL. clear HW HL HY Hb.
    unfold monthLength in Hd. revert Hl Hd. generalize (leapOf y) as l.
    intros l Hl Hd.
    month_cases m; cbn [monthStart] in *;
      repeat match goal with
             | |- context [?a <? ?b] => destruct (Z.ltb_spec a b); try lia
             end. }
  split; [exact HM|].
  unfold DateFromDay. rewrite HW, HL, HM. lia.
Qed.

Lemma MonthFromDay_range d : 0 <= MonthFromDay d <= 11.
Proof.
  unfold MonthFromDay.
  repeat match goal with
         | |- context [?a <? ?b] => destruct (a <? b); try lia
         end.
Qed.

Lemma mod12_range m : 0 <= m mod 12 < 12.
Proof. apply Z.mod_pos_bound. lia. Qed.

(** The same for any month number: the months carry into the year. *)
Lemma MakeDay_fields_any y m d :
  1 <= d <= monthLength (y + m / 12) (m mod 12) ->
  YearFromDay (MakeDay y m d) = y + m / 12 /\
  MonthFromDay (MakeDay y m d) = m mod 12 /\
  DateFromDay (MakeDay y m d) = d.
Proof.
  intros Hd. rewrite MakeDay_norm.
  apply MakeDay_fields; [apply mod12_range | exact Hd].
Qed.

Lemma Day_midnight x : Day (x * msPerDay) = x.
Proof. unfold Day. apply Z.div_mul. discriminate. Qed.

Lemma Day_within x r : 0 <= r < msPerDay -> Day (x * msPerDay + r) = x.
Proof.
  intros Hr. unfold Day.
  rewrite Z.add_comm, Z.div_add by discriminate.
  rewrite Z.div_small by trivial. reflexivity.
Qed.

Lemma WeekDay_range d : 0 <= WeekDay d <= 6.
Proof.
  unfold WeekDay. pose proof (Z.mod_pos_bound (d + 4) 7 ltac:(lia)). lia.
Qed.

(** The last [k] days before the first of a month are the last days of
    the month before. *)
Lemma MakeDay_before y m i :
  0 <= m < 12 ->
  MakeDay y m (- i) = MakeDay y (m - 1) (monthLength (y + (m - 1) / 12) ((m - 1) mod 12) - i).
Proof.
  intros Hm.
  destruct (Z.eq_dec m 0) as [-> | Hne].
  - change (0 - 1) with (-1). change (-1 / 12) with (-1).
    change (-1 mod 12) with 11.
    rewrite (MakeDay_norm y (-1)). change (-1 / 12) with (-1).
    change (-1 mod 12) with 11.
    pose proof (MakeDay_next_month (y + -1) 11 (monthLength (y + -1) 11 - i)
                  ltac:(lia)) as H.
    rewrite (MakeDay_norm (y + -1) (11 + 1)) in H.
    change ((11 + 1) / 12) with 1 in H. change ((11 + 1) mod 12) with 0 in H.
    replace (y + -1 + 1) with y in H by lia.
    rewrite (MakeDay_date y 0 (- i) (monthLength (y + -1) 11 - i)). lia.
  - rewrite (Z.div_small (m - 1) 12), (Z.mod_small (m - 1) 12) by lia.
    rewrite Z.add_0_r.
    pose proof (MakeDay_next_month y (m - 1) (monthLength y (m - 1) - i)
                  ltac:(lia)) as H.
    replace (m - 1 + 1) with m in H by lia.
    rewrite (MakeDay_date y m (- i) (monthLength y (m - 1) - i)). lia.
Qed.

(** Known days: the epoch is a Thursday; 1 March 2024 is a Friday;
    February has 29 days in 2024 and 2000 and 28 in 2023 and 1900; a
    date past the end of a month carries into the next. *)
Example date_samples :
  MakeDay 1970 0 1 = 0 /\ WeekDay 0 = 4
  /\ getDay (newDate 2024 2 1) = 5
  /\ monthLength 2024 1 = 29 /\ monthLength 2000 1 = 29
  /\ monthLength 2023 1 = 28 /\ monthLength 1900 1 = 28
  /\ (getFullYear (newDate 2023 1 29), getMonth (newDate 2023 1 29),
      getDate (newDate 2023 1 29)) = (2023, 2, 1)
  /\ (getFullYear (newDate 2024 0 0), getMonth (newDate 2024 0 0),
      getDate (newDate 2024 0 0)) = (2023, 11, 31)
  /\ getFullYear (newDate 24 0 1) = 1924.
Proof. repeat split; vm_compute; reflexivity. Qed.

End DateFacts.

(** ** Numbers *)

Lemma Qltb_lt a b : Qltb a b = true <-> a < b.
Proof.
  unfold Qltb. rewrite Qlt_alt. destruct (a ?= b); split; congruence.
Qed.

Lemma Qltb_ge a b : Qltb a b = false <-> b <= a.
Proof.
  pose proof (Qltb_lt a b) as H. split.
  - intros E. apply Qnot_lt_le. intros L. apply H in L. congruence.
  - intros L. destruct (Qltb a b); trivial.
    apply Qle_not_lt in L. exfalso. apply L. now apply H.
Qed.

Lemma Qeq_bool_false a b : Qeq_bool a b = false <-> ~ a == b.
Proof.
  pose proof (Qeq_bool_iff a b) as H. split.
  - intros E L. apply H in L. congruence.
  - intros L. destruct (Qeq_bool a b); trivial. exfalso. apply L. now apply H.
Qed.

Lemma num_eq_refl a : num_eq a a.
Proof. destruct a; cbn; trivial. reflexivity. Qed.

Lemma num_eq_sym a b : num_eq a b -> num_eq b a.
Proof. destruct a, b; cbn; trivial. intros ->. reflexivity. Qed.

Lemma num_eq_trans a b c : num_eq a b -> num_eq b c -> num_eq a c.
Proof.
  destruct a, b, c; cbn; trivial; try contradiction.
  intros -> ->. reflexivity.
Qed.

Lemma Qeq_bool_compat a a' b b' :
  a == a' -> b == b' -> Qeq_bool a b = Qeq_bool a' b'.
Proof.
  intros Ha Hb. destruct (Qeq_bool a' b') eqn:E.
  - apply Qeq_bool_iff. apply Qeq_bool_iff in E. now rewrite Ha, Hb.
  - apply Qeq_bool_false. apply Qeq_bool_false in E. now rewrite Ha, Hb.
Qed.

Lemma div_compat a a' b b' : a == a' -> b == b' -> num_eq (div a b) (div a' b').
Proof.
  intros Ha Hb. unfold div.
  rewrite (Qeq_bool_compat b b' 0 0 Hb (Qeq_refl 0)).
  destruct (Qeq_bool b' 0).
  - assert (E : (a ?= 0) = (a' ?= 0)) by now rewrite Ha.
    rewrite E. destruct (a' ?= 0); exact I.
  - cbn. now rewrite Ha, Hb.
Qed.

Lemma div_self a : ~ a == 0 -> num_eq (div a a) (Fin 1).
Proof.
  intros Ha. unfold div. rewrite (proj2 (Qeq_bool_false a 0) Ha). cbn.
  now apply Qmult_inv_r.
Qed.

Lemma div_fin a b : ~ b == 0 -> div a b = Fin (a / b).
Proof. intros Hb. unfold div. now rewrite (proj2 (Qeq_bool_false b 0) Hb). Qed.

Lemma sumOf_app l1 l2 : sumOf (l1 ++ l2) == sumOf l1 + sumOf l2.
Proof.
  induction l1 as [| x l1 IH]; cbn.
  - now rewrite Qplus_0_l.
  - rewrite IH. apply Qplus_assoc.
Qed.

Lemma sumOf_perm l1 l2 : Permutation l1 l2 -> sumOf l1 == sumOf l2.
Proof.
  induction 1; cbn.
  - reflexivity.
  - now rewrite IHPermutation.
  - rewrite !Qplus_assoc. now rewrite (Qplus_comm y x).
  - now rewrite IHPermutation1.
Qed.

(** What an accumulating [reduce] from zero computes. *)
Lemma fold_left_sum {A} (g : A -> Q) (l : list A) (acc : Q) :
  fold_left (fun sum i => sum + g i) l acc == acc + sumOf (map g l).
Proof.
  revert acc. induction l as [| x l IH]; intros acc; cbn.
  - now rewrite Qplus_0_r.
  - rewrite IH. now rewrite Qplus_assoc.
Qed.

(** ** Arrays *)

Section ArrayFacts.
Context {A B : Type}.

Lemma mapi_from_length (f : nat -> A -> B) l n :
  List.length (mapi_from n f l) = List.length l.
Proof. revert n. induction l; intros; cbn; auto. Qed.

Lemma mapi_length (f : nat -> A -> B) l : List.length (mapi f l) = List.length l.
Proof. apply mapi_from_length. Qed.

Lemma mapi_from_nth (f : nat -> A -> B) l n i :
  nth_error (mapi_from n f l) i = option_map (f (n + i)%nat) (nth_error l i).
Proof.
  revert n i. induction l as [| x l IH]; intros n [| i]; cbn; trivial.
  - now rewrite Nat.add_0_r.
  - rewrite IH. now rewrite Nat.add_succ_r.
Qed.

Lemma mapi_nth (f : nat -> A -> B) l i :
  nth_error (mapi f l) i = option_map (f i) (nth_error l i).
Proof. apply mapi_from_nth. Qed.

Lemma slice_0 (l : list A) (n : nat) : slice l 0 (Z.of_nat n) = firstn n l.
Proof.
  unfold slice. rewrite Nat2Z.id. cbn. now rewrite Nat.sub_0_r.
Qed.

Lemma firstn_succ_nth (l : list A) i x :
  nth_error l i = Some x -> firstn (S i) l = firstn i l ++ [x].
Proof.
  revert i. induction l as [| y l IH]; intros [| i] H; cbn in *; try discriminate.
  - now inversion H.
  - f_equal. now apply IH.
Qed.

Lemma Array_from_length (n : Z) (f : Z -> A) :
  List.length (Array_from n f) = Z.to_nat n.
Proof. unfold Array_from. now rewrite length_map, length_seq. Qed.

Lemma Array_from_nth (n : Z) (f : Z -> A) i :
  (i < Z.to_nat n)%nat -> nth_error (Array_from n f) i = Some (f (Z.of_nat i)).
Proof.
  intros Hi. unfold Array_from.
  rewrite nth_error_map, nth_error_nth' with (d := O) by now rewrite length_seq.
  now rewrite seq_nth.
Qed.

End ArrayFacts.

(** ** Sorting *)

Section SortFacts.
Context {A : Type}.
Variable cmp : A -> A -> Z.

Lemma insert_perm x l : Permutation (insert cmp x l) (x :: l).
Proof.
  induction l as [| y l IH]; cbn.
  - reflexivity.
  - destruct (cmp x y >? 0)%Z.
    + rewrite IH. apply perm_swap.
    + reflexivity.
Qed.

(** The sorted array is a permutation of the array, whatever the
    comparator. *)
Lemma Array_sort_perm l : Permutation (Array_sort cmp l) l.
Proof.
  induction l as [| x l IH]; cbn.
  - constructor.
  - rewrite insert_perm. now constructor.
Qed.

(** A comparator that orders by a numeric key, larger keys first. *)
Variable key : A -> Q.
Hypothesis cmp_key : forall a b, (cmp a b >? 0)%Z = Qltb (key a) (key b).


Lemma insert_sorted x l :
  StronglySorted (descBy key) l -> StronglySorted (descBy key) (insert cmp x l).
Proof.
  unfold descBy.
  induction 1 as [| y l Hs IH Hy]; cbn.
  - repeat constructor.
  - rewrite cmp_key. destruct (Qltb (key x) (key y)) eqn:E.
    + constructor; trivial.
      eapply Permutation_Forall.
      * symmetry. apply insert_perm.
      * constructor; trivial. apply Qltb_lt in E. now apply Qlt_le_weak.
    + apply Qltb_ge in E. constructor.
      * now constructor.
      * constructor; trivial.
        eapply Forall_impl; [| exact Hy]. cbn. intros z Hz.
        now apply Qle_trans with (key y).
Qed.

Lemma Array_sort_sorted l : StronglySorted (descBy key) (Array_sort cmp l).
Proof.
  induction l as [| x l IH]; cbn.
  - constructor.
  - now apply insert_sorted.
Qed.

Lemma insert_filter v x l :
  filter (keyIs key v) (insert cmp x l) = filter (keyIs key v) (x :: l).
Proof.
  unfold keyIs.
  induction l as [| y l IH]; cbn; trivial.
  rewrite cmp_key. destruct (Qltb (key x) (key y)) eqn:E; trivial.
  cbn. cbn in IH. rewrite IH.
  destruct (Qeq_bool (key x) v) eqn:Ex; trivial.
  destruct (Qeq_bool (key y) v) eqn:Ey; trivial.
  apply Qeq_bool_iff in Ex, Ey. apply Qltb_lt in E.
  rewrite Ex, Ey in E. now apply Qlt_irrefl in E.
Qed.

(** Stability: the elements of any one key value keep their order. *)
Lemma Array_sort_stable v l :
  filter (keyIs key v) (Array_sort cmp l) = filter (keyIs key v) l.
Proof.
  induction l as [| x l IH]; trivial.
  change (Array_sort cmp (x :: l)) with (insert cmp x (Array_sort cmp l)).
  rewrite insert_filter. cbn. now rewrite IH.
Qed.

Lemma filter_head_in v (a : A) l l' :
  filter (keyIs key v) l = a :: l' -> In a l /\ key a == v.
Proof.
  unfold keyIs. intros H.
  assert (Hin : In a (filter (fun a => Qeq_bool (key a) v) l))
    by (rewrite H; now left).
  apply filter_In in Hin. destruct Hin as [Hin Hk].
  split; trivial. now apply Qeq_bool_iff.
Qed.

(** A list sorted by the key and stable with respect to [l] is
    determined by [l]: it does not depend on the sorting algorithm. *)
Lemma stable_sort_unique l1 l2 :
  StronglySorted (descBy key) l1 -> StronglySorted (descBy key) l2 ->
  (forall v, filter (keyIs key v) l1 = filter (keyIs key v) l2) ->
  l1 = l2.
Proof.
  intros S1. revert l2.
  induction S1 as [| a l1 S1 IH Ha]; intros l2 S2 HF; unfold keyIs in HF.
  - destruct l2 as [| b l2]; trivial.
    specialize (HF (key b)). cbn in HF.
    rewrite (proj2 (Qeq_bool_iff _ _) (Qeq_refl (key b))) in HF. discriminate.
  - destruct S2 as [| b l2 S2 Hb].
    + specialize (HF (key a)). cbn in HF.
      rewrite (proj2 (Qeq_bool_iff _ _) (Qeq_refl (key a))) in HF. discriminate.
    + assert (Hab : key a == key b).
      { apply Qle_antisym.
        - pose proof (HF (key a)) as H. cbn in H.
          rewrite (proj2 (Qeq_bool_iff _ _) (Qeq_refl (key a))) in H.
          symmetry in H.
          destruct (Qeq_bool (key b) (key a)) eqn:E.
          + apply Qeq_bool_iff in E. rewrite E. apply Qle_refl.
          + apply filter_head_in in H. destruct H as [Hin _].
            rewrite Forall_forall in Hb. now apply Hb.
        - pose proof (HF (key b)) as H. cbn in H.
          rewrite (proj2 (Qeq_bool_iff _ _) (Qeq_refl (key b))) in H.
          destruct (Qeq_bool (key a) (key b)) eqn:E.
          + apply Qeq_bool_iff in E. rewrite E. apply Qle_refl.
          + apply filter_head_in in H. destruct H as [Hin _].
            rewrite Forall_forall in Ha. now apply Ha. }
      assert (a = b).
      { pose proof (HF (key a)) as H. cbn in H.
        rewrite (proj2 (Qeq_bool_iff _ _) (Qeq_refl (key a))) in H.
        rewrite (proj2 (Qeq_bool_iff _ _) (Qeq_sym _ _ Hab)) in H.
        now inversion H. }
      subst b. f_equal. apply IH; trivial.
      intros v. specialize (HF v). cbn in HF.
      destruct (Qeq_bool (key a) v); trivial. now inversion HF.
Qed.

(** Hence any stable sort by the key returns what [Array_sort] does. *)
Lemma Array_sort_canonical l l' :
  StronglySorted (descBy key) l' ->
  (forall v, filter (keyIs key v) l' = filter (keyIs key v) l) ->
  l' = Array_sort cmp l.
Proof.
  intros S F. apply stable_sort_unique; trivial.
  - apply Array_sort_sorted.
  - intros v. rewrite F. symmetry. apply Array_sort_stable.
Qed.

End SortFacts.

(** ** Strings of dates *)

Lemma toString_inj a b : toString a = toString b -> a = b.
Proof.
  unfold toString. intros H. apply DecimalZ.to_int_inj.
  pose proof (NilEmpty.isi (Z.to_int a)) as Ha.
  pose proof (NilEmpty.isi (Z.to_int b)) as Hb.
  rewrite H in Ha. congruence.
Qed.

Lemma append_length (s t : string) :
  String.length (s ++ t) = (String.length s + String.length t)%nat.
Proof. induction s as [| c s IH]; cbn; congruence. Qed.

(** Two concatenations with heads of one length agree part by part. *)
Lemma append_inj (s1 s2 t1 t2 : string) :
  String.length s1 = String.length s2 ->
  (s1 ++ t1 = s2 ++ t2)%string -> s1 = s2 /\ t1 = t2.
Proof.
  revert s2. induction s1 as [| c s1 IH]; intros [| c2 s2] HL H;
    try discriminate.
  - now split.
  - cbn in H. injection H as Hc Hs. injection HL as HL.
    destruct (IH s2 HL Hs) as [-> ->]. now subst.
Qed.

Lemma append_inj_tail (s1 s2 t1 t2 : string) :
  String.length t1 = String.length t2 ->
  (s1 ++ t1 = s2 ++ t2)%string -> s1 = s2 /\ t1 = t2.
Proof.
  intros HL H. apply append_inj; trivial.
  apply (f_equal String.length) in H. rewrite !append_length in H. lia.
Qed.

(** The two-digit strings of the numbers 1..31 (the months and the days
    of a date) have two characters and tell the numbers apart. *)
Lemma in_range a n x : (a <= x < a + n)%Z -> In x (range a n).
Proof.
  intros H. unfold range. apply in_map_iff.
  exists (Z.to_nat (x - a)). split; [lia |]. apply in_seq. lia.
Qed.

Lemma range_in a n x : In x (range a n) -> (a <= x < a + n)%Z.
Proof.
  unfold range. intros H. apply in_map_iff in H.
  destruct H as (i & <- & Hi). apply in_seq in Hi. lia.
Qed.

Lemma twoDigits_length n :
  (1 <= n <= 31)%Z -> String.length (padStart2 (toString n)) = 2%nat.
Proof.
  intros Hn.
  assert (H : forallb (fun n => Nat.eqb (String.length (padStart2 (toString n))) 2)
                      (range 1 31) = true) by (vm_compute; reflexivity).
  rewrite forallb_forall in H. apply Nat.eqb_eq, H, in_range. lia.
Qed.

Lemma twoDigits_inj n m :
  (1 <= n <= 31)%Z -> (1 <= m <= 31)%Z ->
  padStart2 (toString n) = padStart2 (toString m) -> n = m.
Proof.
  intros Hn Hm E.
  assert (H : forallb
                (fun n => forallb
                            (fun m => implb (String.eqb (padStart2 (toString n))
                                                        (padStart2 (toString m)))
                                            (n =? m)%Z)
                            (range 1 31))
                (range 1 31) = true) by (vm_compute; reflexivity).
  rewrite forallb_forall in H.
  specialize (H n (in_range 1 31 n ltac:(lia))).
  rewrite forallb_forall in H.
  specialize (H m (in_range 1 31 m ltac:(lia))).
  apply String.eqb_eq in E. rewrite E in H. now apply Z.eqb_eq.
Qed.

Section DateRange.
Local Open Scope Z_scope.

Lemma DayWithinYear_range d :
  0 <= DayWithinYear d < 365 + leapDays d.
Proof.
  pose proof (YearFromDay_spec d) as H.
  rewrite DayFromYear_succ, leapOf_DaysInYear in H.
  unfold DayWithinYear, leapDays, InLeapYear.
  unfold leapOf in H. destruct (DaysInYear (YearFromDay d) =? 366); lia.
Qed.

Lemma DateFromDay_range d : 1 <= DateFromDay d <= 31.
Proof.
  pose proof (DayWithinYear_range d) as Hw.
  assert (Hl : 0 <= leapDays d <= 1)
    by (unfold leapDays; destruct (InLeapYear d); lia).
  unfold DateFromDay, MonthFromDay.
  generalize dependent (DayWithinYear d). generalize dependent (leapDays d).
  intros l Hl w Hw.
  repeat match goal with
         | |- context [?a <? ?b] => destruct (Z.ltb_spec a b)
         end; cbn [monthStart]; lia.
Qed.

End DateRange.

End JSFacts.

(* ================================================================= *)
(** * The summary card: sorting, cumulative shares, highlighting *)

Module SummariesSpec.
Import JS JSFacts Summaries.

Section CardFacts.
Variable StringToNumber : string -> number.

(** On a numeric key the comparator orders by the key's value, larger
    first, whatever the conversion of strings. *)
Lemma compareItems_numeric key a b :
  isNumericKey key = true ->
  (compareItems StringToNumber key a b >? 0)%Z
  = Qltb (numField (effectiveKey key) a) (numField (effectiveKey key) b).
Proof.
  intros Hk. unfold compareItems.
  assert (E : forall x, field key x = VNum (numField (effectiveKey key) x))
    by (intros x; destruct key; try discriminate; reflexivity).
  rewrite !E. cbn [lt ToNumber ltb].
  destruct (Qltb _ _); trivial. now destruct (Qltb _ _).
Qed.

Lemma sortedItems_perm key items : Permutation (sortedItems StringToNumber key items) items.
Proof. apply Array_sort_perm. Qed.

Lemma sortedItems_length key items :
  List.length (sortedItems StringToNumber key items) = List.length items.
Proof. apply Permutation_length, sortedItems_perm. Qed.

(** ** C7 *)

(** What the code reads under a key is the value the specification
    names. *)
Lemma metric_numField key it : metric key it = numField (effectiveKey key) it.
Proof. destruct key; reflexivity. Qed.

Lemma compareItems_metric key a b :
  isNumericKey key = true ->
  (compareItems StringToNumber key a b >? 0)%Z
  = Qltb (metric key a) (metric key b).
Proof.
  intros Hk. rewrite !metric_numField. apply compareItems_numeric. exact Hk.
Qed.

(** C7. For every item list and every numeric sort key, the sorted
    sequence of the card is non-increasing in the key's value (the number
    in the field, a missing field counting as 0), and the items of any
    one key value keep the relative order they have in the input: the
    sort is stable.  (The sorted sequence is also a permutation of the
    input.) *)
Theorem sortedItems_descending_stable key items :
  isNumericKey key = true ->
  StronglySorted (descBy (metric key)) (sortedItems StringToNumber key items)
  /\ (forall v,
        filter (keyIs (metric key) v) (sortedItems StringToNumber key items)
        = filter (keyIs (metric key) v) items)
  /\ Permutation (sortedItems StringToNumber key items) items.
Proof.
  intros Hk.
  pose proof (fun a b => compareItems_metric key a b Hk) as Hc.
  split; [| split].
  - now apply Array_sort_sorted.
  - intros v. now apply Array_sort_stable.
  - apply sortedItems_perm.
Qed.

(** The result does not depend on the engine's algorithm: a sequence that
    is non-increasing in the key and stable with respect to the input is
    the sorted sequence of the model. *)
Lemma sortedItems_canonical key items l :
  isNumericKey key = true ->
  StronglySorted (descBy (numField (effectiveKey key))) l ->
  (forall v, filter (keyIs (numField (effectiveKey key)) v) l
             = filter (keyIs (numField (effectiveKey key)) v) items) ->
  l = sortedItems StringToNumber key items.
Proof.
  intros Hk Hs Hf.
  pose proof (fun a b => compareItems_numeric key a b Hk) as Hc.
  now apply (Array_sort_canonical _ _ Hc).
Qed.

(** ** Totals *)

Lemma totals_sum items k :
  totalsAt (totals items) k == sumOf (map (numField k) items).
Proof.
  unfold totals.
  match goal with
  | |- totalsAt (fold_left ?f _ ?z) _ == _ =>
      set (step := f);
      assert (G : forall l acc,
                 totalsAt (fold_left step l acc) k
                 == totalsAt acc k + sumOf (map (numField k) l));
      [| rewrite G; destruct k; cbn; apply Qplus_0_l]
  end.
  induction l as [| x l IH]; intros acc.
  - cbn [fold_left map sumOf fold_right]. now rewrite Qplus_0_r.
  - cbn [fold_left map sumOf fold_right]. rewrite IH.
    destruct k; cbn; now rewrite Qplus_assoc.
Qed.

(** ** Cumulative shares *)

Lemma cumulativeItems_length key items :
  List.length (cumulativeItems StringToNumber key items) = List.length items.
Proof.
  unfold cumulativeItems. now rewrite mapi_length, sortedItems_length.
Qed.

Lemma cumulativeItems_nth key items i it :
  nth_error (sortedItems StringToNumber key items) i = Some it ->
  exists c,
    nth_error (cumulativeItems StringToNumber key items) i = Some {| item := it; cumulative := c |}
    /\ c = div (fold_left (fun sum x => sum + numField (effectiveKey key) x)
                          (firstn i (sortedItems StringToNumber key items)) 0
                + numField (effectiveKey key) it)
               (totalsAt (totals items) (effectiveKey key))
    /\ num_eq c
         (div (sumOf (map (numField (effectiveKey key))
                          (firstn (S i) (sortedItems StringToNumber key items))))
              (sumOf (map (numField (effectiveKey key)) items))).
Proof.
  intros Hn. eexists. split; [| split].
  - unfold cumulativeItems. rewrite mapi_nth, Hn. cbn [option_map].
    rewrite slice_0. reflexivity.
  - reflexivity.
  - apply div_compat.
    + rewrite fold_left_sum, (firstn_succ_nth _ _ _ Hn), map_app, sumOf_app.
      cbn. now rewrite Qplus_0_l, Qplus_0_r.
    + apply totals_sum.
Qed.

Lemma cumulativeItems_finite key items c :
  ~ totalsAt (totals items) (effectiveKey key) == 0 ->
  In c (cumulativeItems StringToNumber key items) -> exists q, cumulative c = Fin q.
Proof.
  intros HT Hin. apply In_nth_error in Hin. destruct Hin as [i Hi].
  assert (Hlt : (i < List.length (sortedItems StringToNumber key items))%nat).
  { rewrite sortedItems_length, <- cumulativeItems_length with (key := key).
    apply nth_error_Some. congruence. }
  destruct (nth_error (sortedItems StringToNumber key items) i) as [it |] eqn:Hs;
    [| apply nth_error_None in Hs; lia].
  destruct (cumulativeItems_nth key items i it Hs) as (c' & Hc & Hd & _).
  rewrite Hc in Hi. inversion Hi; subst c. cbn. rewrite Hd.
  rewrite div_fin by trivial. eauto.
Qed.

(** *** Differences of consecutive shares *)

Lemma deltas_length p cs : List.length (deltas p cs) = List.length cs.
Proof. revert p. induction cs; intros; cbn; auto. Qed.

Lemma deltas_nth p cs i c :
  nth_error cs i = Some c ->
  nth_error (deltas p cs) i
  = Some (sub c (match i with O => p | S j => nth j cs NaN end)).
Proof.
  revert p i. induction cs as [| x cs IH]; intros p [| i] H; cbn in *;
    try discriminate.
  - now inversion H.
  - rewrite (IH x i H). destruct i; reflexivity.
Qed.

Lemma last_default {A} (l : list A) (x d d' : A) :
  last (x :: l) d = last (x :: l) d'.
Proof.
  revert x. induction l as [| y l IH]; intros x; [reflexivity |].
  change (last (y :: l) d = last (y :: l) d'). apply IH.
Qed.

Lemma last_cons {A} (l : list A) (x d : A) : last (x :: l) d = last l x.
Proof.
  destruct l as [| y l]; [reflexivity |].
  change (last (y :: l) d = last (y :: l) x). apply last_default.
Qed.

Lemma last_map_Fin q qs : last (map Fin (q :: qs)) NaN = Fin (last (q :: qs) 0).
Proof.
  revert q. induction qs as [| y l IH]; intros q; [reflexivity |].
  change (last (map Fin (y :: l)) NaN = Fin (last (y :: l) 0)). apply IH.
Qed.

(** The differences telescope. *)
Lemma deltas_sum qs p :
  exists s, sumNumbers (deltas (Fin p) (map Fin qs)) = Fin s
            /\ s == last qs p - p.
Proof.
  revert p. induction qs as [| q qs IH]; intros p.
  - exists 0. split; [reflexivity | cbn; ring].
  - destruct (IH q) as (s & Hs & Es). exists ((q + - p) + s). split.
    + cbn [map deltas sumNumbers fold_right]. unfold sumNumbers in Hs.
      rewrite Hs. reflexivity.
    + rewrite Es.
      rewrite last_cons. ring.
Qed.

Lemma all_finite (cs : list number) :
  Forall (fun c => exists q, c = Fin q) cs -> exists qs, cs = map Fin qs.
Proof.
  induction 1 as [| c cs [q ->] _ [qs ->]].
  - now exists [].
  - now exists (q :: qs).
Qed.

Lemma last_nth_error {A} (l : list A) d x :
  nth_error l (List.length l - 1) = Some x -> last l d = x.
Proof.
  induction l as [| y l IH]; cbn; [discriminate |].
  destruct l as [| z l].
  - cbn. now inversion 1.
  - cbn [List.length] in *. rewrite Nat.sub_0_r. cbn [nth_error].
    intros H. apply IH. cbn. now rewrite Nat.sub_0_r.
Qed.

Lemma Forall2_by_nth {A B} (R : A -> B -> Prop) l1 l2 :
  List.length l1 = List.length l2 ->
  (forall i a b, nth_error l1 i = Some a -> nth_error l2 i = Some b -> R a b) ->
  Forall2 R l1 l2.
Proof.
  revert l2. induction l1 as [| a l1 IH]; intros [| b l2] HL H;
    try discriminate; constructor.
  - now apply (H O).
  - apply IH; [now inversion HL |].
    intros i x y Hx Hy. now apply (H (S i)).
Qed.

Lemma contribution_finite a b :
  num_eq (contribution (Fin a) (Fin b)) (sub (Fin a) (Fin b)).
Proof.
  unfold contribution, orZero. destruct (Qeq_bool b 0) eqn:E; cbn.
  - apply Qeq_bool_iff in E. now rewrite E.
  - reflexivity.
Qed.

(** The last row holds the whole: its share is 1 when the grand total is
    not zero. *)
Lemma cumulativeItems_last key items :
  items <> [] ->
  ~ sumOf (map (numField (effectiveKey key)) items) == 0 ->
  num_eq (last (map cumulative (cumulativeItems StringToNumber key items)) NaN)
         (Fin 1).
Proof.
  intros Hne HT.
  set (n := List.length items).
  assert (Hn : (0 < n)%nat) by (destruct items; [congruence | cbn; lia]).
  destruct (nth_error (sortedItems StringToNumber key items) (n - 1))
    as [it |] eqn:Hs.
  2:{ apply nth_error_None in Hs. rewrite sortedItems_length in Hs.
      fold n in Hs. lia. }
  destruct (cumulativeItems_nth key items (n - 1) it Hs) as (c & Hc & _ & Hd).
  rewrite (last_nth_error _ NaN c).
  - eapply num_eq_trans; [exact Hd |].
    replace (S (n - 1)) with n by lia.
    rewrite firstn_all2 by (rewrite sortedItems_length; subst n; lia).
    eapply num_eq_trans; [| apply (div_self _ HT)].
    apply div_compat; [| reflexivity].
    apply sumOf_perm, Permutation_map, sortedItems_perm.
  - rewrite length_map, cumulativeItems_length. fold n.
    now rewrite nth_error_map, Hc.
Qed.

(** ** C1 *)

(** In exact arithmetic: the cumulative value annotated on the item at
    sorted position [i] is the sum of the effective-metric values of the
    sorted items 0..i divided by the grand total of the effective metric,
    and for every non-empty list whose grand total is not zero the last
    cumulative value is 1 and the differences of consecutive cumulative
    values (the marginal contributions the rows compute) sum to 1.  The
    doubles of the engine round: see [cumulative_shares] and
    [cumulative_last_not_one] below. *)
Theorem cumulative_shares_exact key items :
  (forall i, (i < List.length items)%nat ->
     exists it c,
       nth_error (sortedItems StringToNumber key items) i = Some it
       /\ nth_error (cumulativeItems StringToNumber key items) i
          = Some {| item := it; cumulative := c |}
       /\ num_eq c
            (div (sumOf (map (numField (effectiveKey key))
                             (firstn (S i) (sortedItems StringToNumber key items))))
                 (sumOf (map (numField (effectiveKey key)) items))))
  /\ (items <> [] ->
      ~ sumOf (map (numField (effectiveKey key)) items) == 0 ->
      let cs := map cumulative (cumulativeItems StringToNumber key items) in
      num_eq (last cs NaN) (Fin 1)
      /\ num_eq (sumNumbers (deltas (Fin 0) cs)) (Fin 1)
      /\ Forall2 (fun rc d => exists x, rc = Some x /\ num_eq x d)
                 (rowContributions StringToNumber key items)
                 (deltas (Fin 0) cs)).
Proof.
  split.
  - intros i Hi.
    destruct (nth_error (sortedItems StringToNumber key items) i)
      as [it |] eqn:Hs.
    2:{ apply nth_error_None in Hs. rewrite sortedItems_length in Hs. lia. }
    destruct (cumulativeItems_nth key items i it Hs) as (c & Hc & _ & Hd).
    now exists it, c.
  - intros Hne HT cs.
    assert (HT' : ~ totalsAt (totals items) (effectiveKey key) == 0)
      by now rewrite totals_sum.
    pose proof (cumulativeItems_last key items Hne HT) as HL. fold cs in HL.
    assert (HF : Forall (fun c => exists q, c = Fin q) cs).
    { subst cs. apply Forall_forall. intros c Hin. apply in_map_iff in Hin.
      destruct Hin as (x & <- & Hx).
      now apply (cumulativeItems_finite key items x HT'). }
    destruct (all_finite cs HF) as [qs Hqs].
    split; [exact HL | split].
    + destruct (deltas_sum qs 0) as (s & Hs & Es).
      rewrite Hqs, Hs. cbn. rewrite Es.
      rewrite Hqs in HL.
      destruct qs as [| q0 qs']; [subst cs; now cbn in HL |].
      rewrite last_map_Fin in HL. cbn [num_eq] in HL. rewrite HL. ring.
    + apply Forall2_by_nth.
      * unfold rowContributions. rewrite mapi_length, deltas_length.
        subst cs. now rewrite length_map.
      * intros i a b Ha Hb.
        unfold rowContributions in Ha. rewrite mapi_nth in Ha.
        destruct (nth_error (cumulativeItems StringToNumber key items) i)
          as [ci |] eqn:Hci; [| discriminate].
        cbn [option_map] in Ha. inversion Ha; subst a; clear Ha.
        assert (Hcs : nth_error cs i = Some (cumulative ci))
          by (subst cs; now rewrite nth_error_map, Hci).
        rewrite (deltas_nth _ _ _ _ Hcs) in Hb. inversion Hb; subst b; clear Hb.
        destruct (cumulativeItems_finite key items ci HT'
                    (nth_error_In _ _ Hci)) as [qa Ea].
        rewrite Ea. unfold previousCumulative.
        destruct i as [| j].
        -- cbn [Nat.ltb Nat.leb option_map].
           eexists. split; [reflexivity |]. apply contribution_finite.
        -- cbn [Nat.ltb Nat.leb]. rewrite Nat.sub_succ, Nat.sub_0_r.
           assert (Hj : (j < List.length (cumulativeItems StringToNumber key items))%nat).
           { apply Nat.lt_trans with (S j); [lia |].
             apply nth_error_Some. congruence. }
           destruct (nth_error (cumulativeItems StringToNumber key items) j)
             as [cj |] eqn:Hcj; [| apply nth_error_None in Hcj; lia].
           destruct (cumulativeItems_finite key items cj HT'
                       (nth_error_In _ _ Hcj)) as [qb Eb].
           assert (Hnth : nth j cs NaN = Fin qb).
           { subst cs. rewrite <- Eb.
             apply nth_error_nth. now rewrite nth_error_map, Hcj. }
           rewrite Hnth. cbn [option_map]. rewrite Eb.
           eexists. split; [reflexivity |]. apply contribution_finite.
Qed.

(** ** C8 *)

Lemma previousCumulative_defined key items index c :
  nth_error (cumulativeItems StringToNumber key items) index = Some c ->
  previousCumulative StringToNumber key items index
  = Some (match index with
          | O => Fin 0
          | S j => nth j (map cumulative
                            (cumulativeItems StringToNumber key items)) NaN
          end).
Proof.
  intros Hc. unfold previousCumulative. destruct index as [| j]; trivial.
  cbn [Nat.ltb Nat.leb]. rewrite Nat.sub_succ, Nat.sub_0_r.
  assert (Hj : (j < List.length (cumulativeItems StringToNumber key items))%nat).
  { apply Nat.lt_trans with (S j); [lia |]. apply nth_error_Some. congruence. }
  destruct (nth_error (cumulativeItems StringToNumber key items) j)
    as [cj |] eqn:Hcj; [| apply nth_error_None in Hcj; lia].
  cbn [option_map]. f_equal. symmetry.
  apply nth_error_nth. now rewrite nth_error_map, Hcj.
Qed.


End CardFacts.

(** ** C6 *)

Lemma nonZero_iff x : nonZero x = true <-> ~ x == 0.
Proof.
  unfold nonZero. rewrite negb_true_iff. apply Qeq_bool_false.
Qed.

Lemma if_nonZero_rendered {A} x (v : A) :
  (if nonZero x then Some v else None) <> None <-> ~ x == 0.
Proof.
  rewrite <- nonZero_iff. destruct (nonZero x); split; congruence.
Qed.

Lemma if_zero_blank {A} x (v : A) :
  x == 0 -> (if nonZero x then Some v else None) = None.
Proof.
  intros Hx. destruct (nonZero x) eqn:E; trivial.
  apply nonZero_iff in E. contradiction.
Qed.

Lemma sumOf_nonneg l : Forall (fun x => 0 <= x) l -> 0 <= sumOf l.
Proof.
  induction 1 as [| x l Hx _ IH]; cbn.
  - apply Qle_refl.
  - replace 0 with (0 + 0) by reflexivity. now apply Qplus_le_compat.
Qed.

(** In a sum of non-negative numbers that is zero every number is zero. *)
Lemma sumOf_zero l x :
  Forall (fun x => 0 <= x) l -> sumOf l == 0 -> In x l -> x == 0.
Proof.
  induction 1 as [| y l Hy Hl IH]; cbn; [contradiction |].
  intros Hs Hin. pose proof (sumOf_nonneg l Hl) as Hn.
  destruct Hin as [-> | Hin].
  - apply Qle_antisym; trivial. rewrite <- Hs.
    rewrite <- (Qplus_0_r x) at 1. now apply Qplus_le_r.
  - apply IH; trivial. apply Qle_antisym; trivial. rewrite <- Hs.
    rewrite <- (Qplus_0_l (sumOf l)) at 1. now apply Qplus_le_l.
Qed.

(** C6, as the code has it.  The cells guard on the value they show, not
    on the denominator: a percentage is rendered exactly when the cell's
    own value is not zero (a missing fee counting as 0).  A zero
    denominator therefore suppresses the percentage only where it forces
    the value to be zero: in a column whose values are all non-negative
    when the column's grand total is zero, and in a row whose value lies
    between 0 and the row's total when that total is zero. *)
Theorem percent_rendered_iff_value_nonzero k it t :
  (rowPercent (feeCell k it t) <> None <-> ~ numField (feeKey k) it == 0)
  /\ (columnPercent (feeCell k it t) <> None <-> ~ numField (feeKey k) it == 0)
  /\ (totalCellPercent it t <> None <-> ~ total it == 0)
  /\ (totalsRowPercent k t <> None <-> ~ totalsAt t (feeKey k) == 0)
  /\ (0 <= numField (feeKey k) it <= total it -> total it == 0 ->
      rowPercent (feeCell k it t) = None)
  /\ (0 <= totalsAt t (feeKey k) <= t_total t -> t_total t == 0 ->
      totalsRowPercent k t = None)
  /\ (forall items,
        Forall (fun i => 0 <= numField (feeKey k) i) items ->
        totalsAt (totals items) (feeKey k) == 0 -> In it items ->
        columnPercent (feeCell k it (totals items)) = None)
  /\ (forall items,
        Forall (fun i => 0 <= total i) items ->
        t_total (totals items) == 0 -> In it items ->
        totalCellPercent it (totals items) = None).
Proof.
  repeat split; try (apply if_nonZero_rendered; assumption);
    try (intros H; apply if_nonZero_rendered in H; exact H).
  - intros [Hlo Hhi] Hz. apply if_zero_blank.
    apply Qle_antisym; trivial. now rewrite <- Hz.
  - intros [Hlo Hhi] Hz. apply if_zero_blank.
    apply Qle_antisym; trivial. now rewrite <- Hz.
  - intros items Hnn Hz Hin. apply if_zero_blank.
    rewrite totals_sum in Hz.
    apply (sumOf_zero (map (numField (feeKey k)) items)); trivial.
    + apply Forall_map. exact Hnn.
    + now apply in_map.
  - intros items Hnn Hz Hin. apply if_zero_blank.
    pose proof (totals_sum items Ntotal) as E. cbn [totalsAt] in E.
    rewrite E in Hz.
    apply (sumOf_zero (map (numField Ntotal) items)); trivial.
    + apply Forall_map. exact Hnn.
    + now apply (in_map (numField Ntotal)).
Qed.

(** ** The statements at sample data *)

(** Sorted by the consulting fee, which B lacks: A, whose fee is 100,
    comes first; B counts as 0 and follows, before the row whose fee is
    negative; the two rows without a fee keep their order. *)
Lemma sortedItems_descending_stable_witness :
  let items := [itemB; mkItem "N" 5 (Some (-5)); itemA; mkItem "C" 7 None] in
  isNumericKey KconsultingFee = true
  /\ sortedItems noNumber KconsultingFee items
     = [itemA; itemB; mkItem "C" 7 None; mkItem "N" 5 (Some (-5))]
  /\ map (metric KconsultingFee) (sortedItems noNumber KconsultingFee items)
     = [100; 0; 0; -5]
  /\ StronglySorted (descBy (metric KconsultingFee))
                    (sortedItems noNumber KconsultingFee items)
  /\ filter (keyIs (metric KconsultingFee) 0)
            (sortedItems noNumber KconsultingFee items)
     = [itemB; mkItem "C" 7 None].
Proof.
  intros items.
  destruct (sortedItems_descending_stable noNumber KconsultingFee items
              eq_refl) as (S1 & S2 & _).
  split; [reflexivity |]. split; [reflexivity |]. split; [reflexivity |].
  split; [exact S1 |]. rewrite (S2 0). reflexivity.
Defined.

(** The example of the specification: sorted by [total], A comes before
    B, the grand total is 150. *)
Example sortedItems_example :
  sortedItems noNumber Ktotal [itemB; itemA] = [itemA; itemB]
  /\ t_total (totals [itemB; itemA]) == 150.
Proof. split; reflexivity. Qed.

(** Rows of equal value keep their order; a card whose grand total is 0
    has shares that are not numbers, and shades nothing. *)
Example sortedItems_ties :
  map name (sortedItems noNumber Ktotal
              [mkItem "a" 1 None; mkItem "b" 2 None; mkItem "c" 1 None;
               mkItem "d" 2 None])
  = ["b"; "d"; "a"; "c"]%string.
Proof. reflexivity. Qed.

Example zero_total_unshaded :
  map cumulative (cumulativeItems noNumber Ktotal (repeat (mkItem "z" 0 None) 11))
  = repeat NaN 11
  /\ rowBackgroundColors noNumber Ktotal (repeat (mkItem "z" 0 None) 11)
     = repeat (Some None) 11.
Proof. split; vm_compute; reflexivity. Qed.

Example cumulative_shares_exact_example :
  (1 < List.length [itemB; itemA])%nat
  /\ [itemB; itemA] <> []
  /\ ~ sumOf (map (numField (effectiveKey Ktotal)) [itemB; itemA]) == 0
  /\ (exists it c,
        nth_error (sortedItems noNumber Ktotal [itemB; itemA]) 1 = Some it
        /\ nth_error (cumulativeItems noNumber Ktotal [itemB; itemA]) 1
           = Some {| item := it; cumulative := c |}
        /\ num_eq c
             (div (sumOf (map (numField (effectiveKey Ktotal))
                              (firstn 2 (sortedItems noNumber Ktotal
                                                     [itemB; itemA]))))
                  (sumOf (map (numField (effectiveKey Ktotal))
                              [itemB; itemA]))))
  /\ num_eq
       (sumNumbers
          (deltas (Fin 0)
                  (map cumulative
                       (cumulativeItems noNumber Ktotal [itemB; itemA]))))
       (Fin 1).
Proof.
  assert (H1 : (1 < List.length [itemB; itemA])%nat) by (cbn; lia).
  assert (H2 : [itemB; itemA] <> []) by discriminate.
  assert (H3 : ~ sumOf (map (numField (effectiveKey Ktotal)) [itemB; itemA])
                 == 0) by (intros H; vm_compute in H; discriminate H).
  destruct (cumulative_shares_exact noNumber Ktotal [itemB; itemA]) as [P1 P2].
  split; [exact H1 |]. split; [exact H2 |]. split; [exact H3 |].
  split.
  - exact (P1 1%nat H1).
  - exact (proj1 (proj2 (P2 H2 H3))).
Qed.



Lemma percent_rendered_iff_value_nonzero_witness :
  rowPercent (feeCell FconsultingFee itemA (totals [itemA; itemB])) <> None
  /\ (0 <= numField (feeKey FhandsOnFee) (mkItem "Z" 0 None)
           <= total (mkItem "Z" 0 None)
      /\ total (mkItem "Z" 0 None) == 0
      /\ rowPercent (feeCell FhandsOnFee (mkItem "Z" 0 None)
                             (totals [mkItem "Z" 0 None])) = None).
Proof.
  pose proof (percent_rendered_iff_value_nonzero
                FconsultingFee itemA (totals [itemA; itemB])) as P.
  pose proof (percent_rendered_iff_value_nonzero
                FhandsOnFee (mkItem "Z" 0 None) (totals [mkItem "Z" 0 None]))
    as P'.
  assert (H1 : ~ numField (feeKey FconsultingFee) itemA == 0)
    by (intros H; vm_compute in H; discriminate H).
  assert (H2 : 0 <= numField (feeKey FhandsOnFee) (mkItem "Z" 0 None)
               <= total (mkItem "Z" 0 None))
    by (split; vm_compute; discriminate).
  assert (H3 : total (mkItem "Z" 0 None) == 0) by reflexivity.
  split; [exact (proj2 (proj1 P) H1) |].
  split; [exact H2 |]. split; [exact H3 |].
  exact (proj1 (proj2 (proj2 (proj2 (proj2 P')))) H2 H3).
Defined.

(** The claim fails where a value is not zero and its denominator is: a
    fee in a row whose total is 0, and a fee in a column whose fees
    cancel.  The quotient handed to the formatter is infinite. *)
Lemma percent_zero_denominator_counterexample :
  total feeWithoutTotal == 0
  /\ rowPercent (feeCell FconsultingFee feeWithoutTotal
                         (totals [feeWithoutTotal]))
     = Some PosInf
  /\ totalsAt (totals cancellingItems) (feeKey FconsultingFee) == 0
  /\ columnPercent (feeCell FconsultingFee (mkItem "P" 5 (Some 5))
                            (totals cancellingItems))
     = Some PosInf.
Proof. repeat split. Qed.

End SummariesSpec.

(* ================================================================= *)
(** * The summary card over doubles *)

Module SummariesDSpec.
Import JS JSFacts Summaries SummariesD PrimFloat.

Lemma sum_snoc l x :
  Double.sum (l ++ [x]) = PrimFloat.add (Double.sum l) x.
Proof. unfold Double.sum. rewrite fold_left_app. reflexivity. Qed.

Lemma fold_left_add_map {A} (g : A -> PrimFloat.float) l acc :
  fold_left (fun sum i => PrimFloat.add sum (g i)) l acc
  = fold_left PrimFloat.add (map g l) acc.
Proof.
  revert acc. induction l as [| x l IH]; intros acc; [reflexivity |].
  cbn [fold_left map]. apply IH.
Qed.

(** What the code reads under a key is the value the specification
    names. *)
Lemma metricD_numField key it :
  metric key it = numField (effectiveKey key) it.
Proof. destruct key; reflexivity. Qed.

(** The grand totals are the fields added in the order of the input. *)
Lemma totalsD_sum items k :
  totalsAt (totals items) k = Double.sum (map (numField k) items).
Proof.
  unfold totals, Double.sum.
  match goal with
  | |- totalsAt (fold_left ?f _ ?init) _ = _ =>
      assert (G : forall l acc,
                 totalsAt (fold_left f l acc) k
                 = fold_left PrimFloat.add (map (numField k) l)
                             (totalsAt acc k))
  end.
  { induction l as [| x l IH]; intros acc; [reflexivity |].
    cbn [fold_left map]. rewrite IH. destruct k; reflexivity. }
  rewrite G. destruct k; reflexivity.
Qed.

Section CardFactsD.
Variable StringToNumber : string -> PrimFloat.float.

(** C1, as the code has it.  For every item list and every sort key, the
    cumulative value annotated on the item at sorted position [i] is the
    quotient of two sums of doubles: the effective-metric values of the
    sorted items 0..i, added from left to right, by the effective-metric
    values of all items, added in the order of the input.  The effective
    metric is [total] for the keys [name] and [slug] and the key itself
    otherwise, a missing value counting as 0.  For the last row the two
    sums add the same values, in sorted order and in the order of the
    input.  (Its cumulative value need not be 1 for that:
    [cumulative_last_not_one].) *)
Theorem cumulative_shares key items :
  Permutation (sortedItems StringToNumber key items) items
  /\ List.length (cumulativeItems StringToNumber key items)
     = List.length items
  /\ (forall i ci,
        nth_error (cumulativeItems StringToNumber key items) i = Some ci ->
        nth_error (sortedItems StringToNumber key items) i = Some (item ci)
        /\ cumulative ci
           = PrimFloat.div
               (Double.sum
                  (map (metric key)
                       (firstn (S i)
                               (sortedItems StringToNumber key items))))
               (Double.sum (map (metric key) items)))
  /\ (forall ci,
        nth_error (cumulativeItems StringToNumber key items)
                  (List.length items - 1) = Some ci ->
        cumulative ci
        = PrimFloat.div
            (Double.sum
               (map (metric key) (sortedItems StringToNumber key items)))
            (Double.sum (map (metric key) items))).
Proof.
  assert (P : Permutation (sortedItems StringToNumber key items) items)
    by apply Array_sort_perm.
  assert (C : forall i ci,
             nth_error (cumulativeItems StringToNumber key items) i
             = Some ci ->
             nth_error (sortedItems StringToNumber key items) i
             = Some (item ci)
             /\ cumulative ci
                = PrimFloat.div
                    (Double.sum
                       (map (metric key)
                            (firstn (S i)
                               (sortedItems StringToNumber key items))))
                    (Double.sum (map (metric key) items)));
    [| split; [exact P |]; split; [| split; [exact C |]]].
  3: { intros ci Hci. rewrite (proj2 (C _ ci Hci)).
       rewrite firstn_all2; [reflexivity |].
       rewrite (Permutation_length P). lia. }
  2: { unfold cumulativeItems. rewrite mapi_length.
       apply Permutation_length. exact P. }
  - intros i ci Hci. unfold cumulativeItems in Hci.
    rewrite mapi_nth in Hci.
    destruct (nth_error (sortedItems StringToNumber key items) i)
      as [it |] eqn:Hs; [| discriminate Hci].
    cbn [option_map] in Hci. injection Hci as <-. cbn [item cumulative].
    split; [reflexivity |].
    rewrite slice_0, totalsD_sum, fold_left_add_map.
    rewrite (firstn_succ_nth _ _ _ Hs), map_app. cbn [map].
    rewrite sum_snoc, metricD_numField.
    assert (E : forall l, map (metric key) l
                          = map (numField (effectiveKey key)) l)
      by (intros l; apply map_ext; intros x; apply metricD_numField).
    rewrite !E. reflexivity.
Qed.

End CardFactsD.

(** The rows of one, two and three tenths, sorted by name: the effective
    metric is [total], and the last row, "a", gets the sum of the three
    totals in sorted order over their sum in the order of the input.
    Sorted by the consulting fee, which "b" lacks, "b" counts as 0. *)
Lemma cumulative_shares_witness :
  (exists ci,
     nth_error (cumulativeItems noNumber Kname tenths) 2 = Some ci
     /\ name (item ci) = "a"%string
     /\ cumulative ci
        = PrimFloat.div
            (PrimFloat.add (PrimFloat.add (PrimFloat.add 0 0.3) 0.2) 0.1)
            (PrimFloat.add (PrimFloat.add (PrimFloat.add 0 0.1) 0.2) 0.3))
  /\ (exists ci,
        nth_error (cumulativeItems noNumber KconsultingFee tenths) 2 = Some ci
        /\ name (item ci) = "b"%string
        /\ cumulative ci
           = PrimFloat.div
               (PrimFloat.add (PrimFloat.add (PrimFloat.add 0 0.3) 0.1) 0)
               (PrimFloat.add (PrimFloat.add (PrimFloat.add 0 0.1) 0) 0.3)).
Proof.
  split.
  - let v := eval vm_compute in
      (nth_error (cumulativeItems noNumber Kname tenths) 2) in
    match v with
    | Some ?c =>
        assert (E : nth_error (cumulativeItems noNumber Kname tenths) 2
                    = Some c) by (vm_compute; reflexivity);
        destruct (proj1 (proj2 (proj2 (cumulative_shares noNumber Kname
                                         tenths)))
                        2%nat c E) as [_ F];
        exists c; split; [exact E |]; split; [reflexivity |];
        rewrite F; reflexivity
    end.
  - let v := eval vm_compute in
      (nth_error (cumulativeItems noNumber KconsultingFee tenths) 2) in
    match v with
    | Some ?c =>
        assert (E : nth_error (cumulativeItems noNumber KconsultingFee tenths)
                              2 = Some c) by (vm_compute; reflexivity);
        destruct (proj1 (proj2 (proj2 (cumulative_shares noNumber
                                         KconsultingFee tenths)))
                        2%nat c E) as [_ F];
        exists c; split; [exact E |]; split; [reflexivity |];
        rewrite F; reflexivity
    end.
Defined.

(** The claim fails in the doubles of the engine.  For three rows whose
    totals are 0.1, 0.2 and 0.3 the grand total is not zero, and the
    cumulative value of the last row is 0.9999999999999998, not 1; the
    differences of consecutive cumulative values sum to that number. *)
Lemma cumulative_last_not_one :
  tenths <> []
  /\ PrimFloat.eqb (Double.sum (map (metric Ktotal) tenths)) 0 = false
  /\ map cumulative (cumulativeItems noNumber Ktotal tenths)
     = [0.49999999999999989; 0.83333333333333326;
        0.99999999999999978]%float
  /\ PrimFloat.eqb
       (last (map cumulative (cumulativeItems noNumber Ktotal tenths))
             PrimFloat.nan) 1
     = false
  /\ last (map cumulative (cumulativeItems noNumber Ktotal tenths))
          PrimFloat.nan <> 1%float
  /\ PrimFloat.eqb
       (Double.sum
          (Double.deltas 0
             (map cumulative (cumulativeItems noNumber Ktotal tenths)))) 1
     = false.
Proof.
  split; [discriminate |].
  split; [vm_compute; reflexivity |].
  split; [vm_compute; reflexivity |].
  split; [vm_compute; reflexivity |].
  split; [| vm_compute; reflexivity].
  intros H.
  assert (E : PrimFloat.eqb
                (last (map cumulative
                           (cumulativeItems noNumber Ktotal tenths))
                      PrimFloat.nan) 1 = true)
    by (rewrite H; vm_compute; reflexivity).
  vm_compute in E. discriminate E.
Qed.

(** ** The footer *)

(** X2. Each total of the footer is the sum of its field over the items
    as they are given (not as they are sorted), added from left to right
    from 0, a missing fee counting as 0; more items continue the
    addition where the first ones left it. *)
Theorem totals_in_input_order (key : Key) (items more : list Item) :
  totalsAt (totals items) (effectiveKey key)
  = Double.sum (map (metric key) items)
  /\ totalsAt (totals (items ++ more)) (effectiveKey key)
     = fold_left PrimFloat.add (map (metric key) more)
                 (totalsAt (totals items) (effectiveKey key)).
Proof.
  assert (E : forall l, map (metric key) l
                        = map (numField (effectiveKey key)) l)
    by (intros l; apply map_ext; intros x; apply metricD_numField).
  rewrite !totalsD_sum, !E. split; [reflexivity |].
  unfold Double.sum. rewrite map_app, fold_left_app. reflexivity.
Qed.

(** The consulting fees of the three rows, the second of which has none:
    0 + 0.1 + 0 + 0.3. *)
Lemma totals_in_input_order_witness :
  totalsAt (totals tenths) NconsultingFee
  = PrimFloat.add (PrimFloat.add (PrimFloat.add 0 0.1) 0) 0.3
  /\ totalsAt (totals (tenths ++ tenths)) Ntotal
     = PrimFloat.add
         (PrimFloat.add
            (PrimFloat.add (totalsAt (totals tenths) Ntotal) 0.1) 0.2) 0.3.
Proof.
  split.
  - exact (proj1 (totals_in_input_order KconsultingFee tenths [])).
  - exact (proj2 (totals_in_input_order Ktotal tenths tenths)).
Defined.

(** In doubles the totals depend on the order of the items: the rows of
    one, two and three tenths total 0.6000000000000001, and 0.6 when
    given in the opposite order. *)
Example totals_depend_on_order :
  totalsAt (totals tenths) Ntotal = 0.60000000000000009%float
  /\ totalsAt (totals (rev tenths)) Ntotal = 0.59999999999999998%float.
Proof. split; vm_compute; reflexivity. Qed.

End SummariesDSpec.

(* ================================================================= *)
(** * The allocation calendar: grid, totals, holidays, selection *)

Module CalendarSpec.
Import JS JSFacts AllocationCalendar.

(** ** C5 *)

(** C5. After any single selection event (a day click, a week-total
    click, a click on a weekday header or on the grand-total header, a
    month navigation, a change of the statistic category) at most one of
    selectedDay, selectedRow, selectedColumn and isAllSelected is active:
    each selection handler sets its own field and clears the other
    three, and month navigation and category switching clear all four. *)
Theorem selection_exclusive (e : Event) (s : State) :
  (activeSelections (handle e s) <= 1)%nat
  /\ match e with
     | DayClick n _ _ =>
         selectedDay (handle e s) = Some n
         /\ selectedRow (handle e s) = None
         /\ selectedColumn (handle e s) = None
         /\ isAllSelected (handle e s) = false
     | ColumnSelect c =>
         if (c =? 7)%Z then
           isAllSelected (handle e s) = true
           /\ selectedDay (handle e s) = None
           /\ selectedRow (handle e s) = None
           /\ selectedColumn (handle e s) = None
         else
           selectedColumn (handle e s) = Some c
           /\ selectedDay (handle e s) = None
           /\ selectedRow (handle e s) = None
           /\ isAllSelected (handle e s) = false
     | RowSelect r =>
         selectedRow (handle e s) = Some r
         /\ selectedDay (handle e s) = None
         /\ selectedColumn (handle e s) = None
         /\ isAllSelected (handle e s) = false
     | MonthChange _ | StatTypeChange _ => noSelection (handle e s)
     end.
Proof.
  destruct e as [n ty r | c | r | i | t]; cbn [handle].
  - destruct ty; cbn; auto.
  - unfold handleColumnSelect. destruct (c =? 7)%Z; cbn; auto.
  - cbn; auto.
  - unfold noSelection; cbn; auto.
  - unfold noSelection; cbn; auto.
Qed.

(** What else the two resetting events do: they move the month, or set
    the category, and leave the rest of the state alone. *)
Lemma reset_events_effect (s : State) i t :
  selectedDate (handleMonthChange i s)
  = setMonth (selectedDate s) (getMonth (selectedDate s) + i)
  /\ selectedStatType (handleMonthChange i s) = selectedStatType s
  /\ selectedStatType (handleStatTypeChange t s) = t
  /\ selectedDate (handleStatTypeChange t s) = selectedDate s.
Proof. repeat split. Qed.

(** ** The shape of the grid *)

Lemma Math_ceil_7 t : Math_ceil (inject_Z t / 7) = ((t + 6) / 7)%Z.
Proof.
  unfold Math_ceil, Qceiling, Qfloor. cbn.
  rewrite Z.mul_1_r. Z.div_mod_to_equations. lia.
Qed.

Lemma range_length a n : List.length (range a n) = Z.to_nat n.
Proof. unfold range. now rewrite length_map, length_seq. Qed.

(** Reversing a run counted downwards gives the run counted upwards. *)
Lemma rev_countdown {A} (g : Z -> A) (n : nat) :
  rev (map (fun i => g (Z.of_nat i)) (seq 0 n))
  = map (fun i => g (Z.of_nat n - 1 - Z.of_nat i)%Z) (seq 0 n).
Proof.
  induction n as [| n IH].
  - reflexivity.
  - rewrite seq_S at 1. rewrite map_app, rev_app_distr. cbn [map rev app].
    rewrite IH. cbn [seq map]. f_equal.
    + f_equal. lia.
    + rewrite <- seq_shift, map_map. apply map_ext. intros i. f_equal. lia.
Qed.

(** ** Formatted dates *)

(** The formatted date determines the calendar date. *)
Lemma formatDate_inj d1 d2 :
  formatDate d1 = formatDate d2 ->
  getFullYear d1 = getFullYear d2 /\ getMonth d1 = getMonth d2
  /\ getDate d1 = getDate d2.
Proof.
  unfold formatDate. intros H.
  pose proof (MonthFromDay_range (Day d1)) as M1.
  pose proof (MonthFromDay_range (Day d2)) as M2.
  pose proof (DateFromDay_range (Day d1)) as D1.
  pose proof (DateFromDay_range (Day d2)) as D2.
  fold (getMonth d1) in M1. fold (getMonth d2) in M2.
  fold (getDate d1) in D1. fold (getDate d2) in D2.
  pose proof (twoDigits_length (getMonth d1 + 1) ltac:(lia)) as LM1.
  pose proof (twoDigits_length (getMonth d2 + 1) ltac:(lia)) as LM2.
  pose proof (twoDigits_length (getDate d1) ltac:(lia)) as LD1.
  pose proof (twoDigits_length (getDate d2) ltac:(lia)) as LD2.
  apply append_inj_tail in H;
    [| rewrite !append_length, LM1, LM2, LD1, LD2; reflexivity].
  destruct H as [HY H].
  apply append_inj in H; [| reflexivity]. destruct H as [_ H].
  apply append_inj in H; [| now rewrite LM1, LM2]. destruct H as [HM H].
  apply append_inj in H; [| reflexivity]. destruct H as [_ HD].
  apply toString_inj in HY.
  apply twoDigits_inj in HM; [| lia | lia].
  apply twoDigits_inj in HD; [| lia | lia].
  repeat split; trivial. lia.
Qed.

Lemma formatDate_civil d1 d2 :
  formatDate d1 = formatDate d2 <-> civil d1 = civil d2.
Proof.
  split.
  - intros H. apply formatDate_inj in H. destruct H as (HY & HM & HD).
    unfold civil. now rewrite HY, HM, HD.
  - unfold civil, formatDate. intros H.
    assert (HY : getFullYear d1 = getFullYear d2) by congruence.
    assert (HM : (getMonth d1 + 1 = getMonth d2 + 1)%Z) by congruence.
    assert (HD : getDate d1 = getDate d2) by congruence.
    now rewrite HY, HM, HD.
Qed.

(** ** Sums of hours *)

Lemma Heq_refl a : Heq a a.
Proof. repeat split; reflexivity. Qed.

Lemma Heq_sym a b : Heq a b -> Heq b a.
Proof. intros (H1 & H2 & H3 & H4). repeat split; now symmetry. Qed.

Lemma Heq_trans a b c : Heq a b -> Heq b c -> Heq a c.
Proof.
  intros (H1 & H2 & H3 & H4) (G1 & G2 & G3 & G4).
  repeat split; etransitivity; eassumption.
Qed.

#[local] Instance Heq_equiv : Equivalence Heq.
Proof.
  constructor; [exact Heq_refl | exact Heq_sym | exact Heq_trans].
Qed.

#[local] Instance addHours_proper : Proper (Heq ==> Heq ==> Heq) addHours.
Proof.
  intros a a' (H1 & H2 & H3 & H4) b b' (G1 & G2 & G3 & G4).
  unfold addHours, Heq; cbn. rewrite H1, H2, H3, H4, G1, G2, G3, G4.
  repeat split; reflexivity.
Qed.

Lemma addHours_assoc a b c :
  Heq (addHours (addHours a b) c) (addHours a (addHours b c)).
Proof. unfold addHours, Heq; cbn. repeat split; ring. Qed.

Lemma addHours_noHours_l a : Heq (addHours noHours a) a.
Proof. unfold addHours, Heq; cbn. repeat split; ring. Qed.

Lemma addHours_noHours_r a : Heq (addHours a noHours) a.
Proof. unfold addHours, Heq; cbn. repeat split; ring. Qed.

Lemma sumHours_app l1 l2 :
  Heq (sumHours (l1 ++ l2)) (addHours (sumHours l1) (sumHours l2)).
Proof.
  induction l1 as [| h l1 IH]; cbn.
  - symmetry. apply addHours_noHours_l.
  - fold (sumHours (l1 ++ l2)). fold (sumHours l1).
    rewrite IH. symmetry. apply addHours_assoc.
Qed.

(** What the accumulation over a week computes: the hours of the cells
    of the month, and of no other cell. *)
Lemma weekTotal_fold l acc :
  Heq (fold_left
         (fun weekTotal c =>
            if CellType_eqb (type c) current
            then addHours weekTotal (hours c) else weekTotal) l acc)
      (addHours acc (sumHours (map hours (filter isCurrent l)))).
Proof.
  revert acc. induction l as [| c l IH]; intros acc; cbn [fold_left filter].
  - symmetry. apply addHours_noHours_r.
  - rewrite IH. unfold isCurrent at 2.
    destruct (CellType_eqb (type c) current); [| reflexivity].
    cbn [map sumHours fold_right]. fold (sumHours (map hours (filter isCurrent l))).
    apply addHours_assoc.
Qed.

Lemma weekTotalOf_sum l :
  Heq (weekTotalOf l) (sumHours (map hours (filter isCurrent l))).
Proof.
  unfold weekTotalOf. rewrite weekTotal_fold. apply addHours_noHours_l.
Qed.

(** ** Column totals *)

Lemma addAt_spec i h cts :
  (i < List.length cts)%nat ->
  exists cts',
    addAt i h cts = Some cts'
    /\ List.length cts' = List.length cts
    /\ nth_error cts' i = option_map (fun c => addHours c h) (nth_error cts i)
    /\ (forall j, j <> i -> nth_error cts' j = nth_error cts j).
Proof.
  revert i. induction cts as [| c cts IH]; intros i Hi; cbn in Hi; [lia |].
  destruct i as [| i].
  - eexists. split; [reflexivity |]. repeat split.
    intros [| j] Hj; [congruence | reflexivity].
  - destruct (IH i ltac:(lia)) as (cts' & E & L & N & F).
    exists (c :: cts'). cbn [addAt]. rewrite E. split; [reflexivity |].
    split; [cbn; congruence |]. split; [exact N |].
    intros [| j] Hj; [reflexivity |]. cbn. apply F. congruence.
Qed.

Lemma addWeek_app i l1 l2 cts :
  addWeek i (l1 ++ l2) cts
  = match addWeek i l1 cts with
    | Some cts' => addWeek (i + List.length l1) l2 cts'
    | None => None
    end.
Proof.
  revert i cts. induction l1 as [| c l1 IH]; intros i cts.
  - cbn. now rewrite Nat.add_0_r.
  - cbn [app addWeek List.length].
    destruct (if CellType_eqb (type c) current || CellType_eqb (type c) total
              then addAt i (hours c) cts else Some cts) as [cts' |]; trivial.
    rewrite IH. now rewrite Nat.add_succ_r.
Qed.

(** The cells of a week only touch their own columns, and reading the
    totals never fails while the week fits the array. *)
Lemma addWeek_frame i l cts :
  (i + List.length l <= List.length cts)%nat ->
  exists cts',
    addWeek i l cts = Some cts'
    /\ List.length cts' = List.length cts
    /\ (forall j, (i + List.length l <= j)%nat ->
                  nth_error cts' j = nth_error cts j).
Proof.
  revert i cts. induction l as [| c l IH]; intros i cts Hl.
  - exists cts. repeat split.
  - cbn [List.length] in Hl. cbn [addWeek].
    destruct (CellType_eqb (type c) current || CellType_eqb (type c) total).
    + destruct (addAt_spec i (hours c) cts ltac:(lia)) as (c1 & E & L & _ & F).
      rewrite E.
      destruct (IH (S i) c1 ltac:(lia)) as (c2 & E2 & L2 & F2).
      exists c2. split; [exact E2 |]. split; [congruence |].
      intros j Hj. cbn [List.length] in Hj.
      rewrite F2 by lia. apply F. lia.
    + destruct (IH (S i) cts ltac:(lia)) as (c2 & E2 & L2 & F2).
      exists c2. split; [exact E2 |]. split; [exact L2 |].
      intros j Hj. cbn [List.length] in Hj. apply F2. lia.
Qed.

(** A row of seven day cells and the cell of their total adds the total
    to the eighth column. *)
Lemma addWeek_row wd T cts c7 :
  List.length wd = 7%nat -> List.length cts = 8%nat ->
  nth_error cts 7 = Some c7 ->
  exists cts',
    addWeek 0 (wd ++ [totalCell T]) cts = Some cts'
    /\ List.length cts' = 8%nat
    /\ nth_error cts' 7 = Some (addHours c7 T).
Proof.
  intros Hw Hc H7. rewrite addWeek_app.
  destruct (addWeek_frame 0 wd cts ltac:(lia)) as (c1 & E & L & F).
  rewrite E, Hw. cbn [addWeek Nat.add totalCell type CellType_eqb orb hours].
  destruct (addAt_spec 7 T c1 ltac:(lia)) as (c2 & E2 & L2 & N & _).
  rewrite E2. exists c2. split; [reflexivity |]. split; [congruence |].
  rewrite N, F by lia. now rewrite H7.
Qed.

(** The loop over the rows. *)
Lemma columnTotals_fold (wds : list (list DayData)) cts c7 :
  Forall (fun wd => List.length wd = 7%nat) wds ->
  List.length cts = 8%nat -> nth_error cts 7 = Some c7 ->
  exists cts' g,
    fold_left
      (fun acc week =>
         match acc with
         | Some cts => addWeek 0 week cts
         | None => None
         end)
      (map (fun wd => wd ++ [totalCell (weekTotalOf wd)]) wds)
      (Some cts)
    = Some cts'
    /\ List.length cts' = 8%nat
    /\ nth_error cts' 7 = Some g
    /\ Heq g (addHours c7 (sumHours (map weekTotalOf wds))).
Proof.
  intros HF. revert cts c7.
  induction HF as [| wd wds Hwd _ IH]; intros cts c7 Hc H7.
  - exists cts, c7.
    split; [reflexivity | split; [exact Hc | split; [exact H7 |]]].
    symmetry. apply addHours_noHours_r.
  - cbn [map fold_left].
    destruct (addWeek_row wd (weekTotalOf wd) cts c7 Hwd Hc H7)
      as (c1 & E & L & N).
    rewrite E.
    destruct (IH c1 _ L N) as (c2 & g & E2 & L2 & N2 & G).
    exists c2, g.
    split; [exact E2 | split; [exact L2 | split; [exact N2 |]]].
    etransitivity; [exact G |].
    cbn [map sumHours fold_right]. fold (sumHours (map weekTotalOf wds)).
    apply addHours_assoc.
Qed.

(** Cutting a list into weeks loses nothing. *)
Lemma weeks_concat {A} (n : nat) (l : list A) :
  List.length l = (7 * n)%nat ->
  List.concat (map (fun i => firstn 7 (skipn (7 * i) l)) (seq 0 n)) = l.
Proof.
  revert l. induction n as [| n IH]; intros l Hl.
  - destruct l; [reflexivity | discriminate].
  - cbn [seq map List.concat]. rewrite <- seq_shift, map_map.
    transitivity (firstn 7 l ++ skipn 7 l); [| apply firstn_skipn].
    f_equal.
    etransitivity;
      [| apply (IH (skipn 7 l)); rewrite length_skipn; lia].
    f_equal. apply map_ext. intros i. rewrite skipn_skipn. do 2 f_equal. lia.
Qed.

Lemma sumHours_concat (f : list DayData -> list Hours) ls :
  (forall l1 l2, f (l1 ++ l2) = f l1 ++ f l2) -> f [] = [] ->
  Heq (sumHours (map (fun l => sumHours (f l)) ls)) (sumHours (f (List.concat ls))).
Proof.
  intros Happ Hnil. induction ls as [| l ls IH]; cbn [map List.concat].
  - rewrite Hnil. reflexivity.
  - rewrite Happ, sumHours_app. cbn [sumHours fold_right].
    fold (sumHours (map (fun l => sumHours (f l)) ls)). now rewrite IH.
Qed.

Lemma sumHours_ext {A} (f g : A -> Hours) l :
  (forall x, In x l -> Heq (f x) (g x)) ->
  Heq (sumHours (map f l)) (sumHours (map g l)).
Proof.
  induction l as [| x l IH]; intros H; cbn [map sumHours fold_right].
  - reflexivity.
  - fold (sumHours (map f l)). fold (sumHours (map g l)).
    rewrite (H x (or_introl eq_refl)), IH; [reflexivity |].
    intros y Hy. apply H. now right.
Qed.

(** ** Hours by date *)

Lemma addHours_comm a b : Heq (addHours a b) (addHours b a).
Proof. unfold addHours, Heq; cbn. repeat split; ring. Qed.

Lemma totalHours_sum timesheet :
  Heq (totalHours timesheet) (sumHours (map entryHours (byDate timesheet))).
Proof.
  unfold totalHours.
  match goal with
  | |- Heq (fold_left ?f _ _) _ =>
      assert (G : forall l acc,
                 Heq (fold_left f l acc)
                     (addHours acc (sumHours (map entryHours l))))
  end.
  { induction l as [| e l IH]; intros acc; cbn [fold_left map].
    - symmetry. apply addHours_noHours_r.
    - rewrite IH. cbn [sumHours fold_right].
      fold (sumHours (map entryHours l)).
      apply (addHours_assoc acc (entryHours e)). }
  rewrite G. apply addHours_noHours_l.
Qed.

Lemma getHoursForDate_find timesheet d :
  getHoursForDate timesheet d
  = match find (fun e => String.eqb (date e) (formatDate d)) (byDate timesheet)
    with
    | Some e => entryHours e
    | None => noHours
    end.
Proof.
  unfold getHoursForDate.
  now destruct (find (fun e => String.eqb (date e) (formatDate d))
                     (byDate timesheet)).
Qed.

Lemma sumHours_noHours {A} (l : list A) :
  Heq (sumHours (map (fun _ => noHours) l)) noHours.
Proof.
  induction l as [| x l IH]; cbn [map sumHours fold_right]; [reflexivity |].
  fold (sumHours (map (fun _ : A => noHours) l)).
  rewrite IH. apply addHours_noHours_l.
Qed.

(** Giving one key of a duplicate-free list a value adds that value to
    the sum over the keys. *)
Lemma sumHours_override (keys : list string) k0 h (L : string -> Hours) :
  NoDup keys -> In k0 keys -> Heq (L k0) noHours ->
  Heq (sumHours (map (fun k => if String.eqb k0 k then h else L k) keys))
      (addHours h (sumHours (map L keys))).
Proof.
  intros ND. induction ND as [| k ks Hk ND IH]; intros Hin H0; [destruct Hin |].
  cbn [map sumHours fold_right].
  fold (sumHours (map (fun k => if String.eqb k0 k then h else L k) ks)).
  fold (sumHours (map L ks)).
  destruct (String.eqb_spec k0 k) as [-> | Hne].
  - rewrite H0, addHours_noHours_l.
    apply addHours_proper; [reflexivity |].
    apply sumHours_ext. intros x Hx.
    destruct (String.eqb_spec k x) as [-> | _]; [contradiction | reflexivity].
  - destruct Hin as [-> | Hin]; [congruence |].
    rewrite (IH Hin H0).
    rewrite <- !addHours_assoc. apply addHours_proper; [| reflexivity].
    apply addHours_comm.
Qed.

(** Looking every key up in a list of entries with distinct dates, all
    of them among the keys, finds every entry once. *)
Lemma sumHours_lookup (keys : list string) (es : list DayEntry) :
  NoDup keys -> NoDup (map date es) ->
  (forall e, In e es -> In (date e) keys) ->
  Heq (sumHours
         (map (fun k =>
                 match find (fun e => String.eqb (date e) k) es with
                 | Some e => entryHours e
                 | None => noHours
                 end) keys))
      (sumHours (map entryHours es)).
Proof.
  intros NK. induction es as [| e es IH]; intros NE Hin.
  - cbn [find]. apply sumHours_noHours.
  - cbn [map] in NE. inversion NE as [| ? ? Hnot NE']; subst.
    cbn [map sumHours fold_right]. fold (sumHours (map entryHours es)).
    rewrite <- IH; [| exact NE' | intros x Hx; apply Hin; now right].
    rewrite <- (sumHours_override keys (date e) (entryHours e)); trivial.
    + apply sumHours_ext. intros k _. cbn [find].
      now destruct (String.eqb (date e) k).
    + apply Hin. now left.
    + destruct (find (fun x => String.eqb (date x) (date e)) es) as [x |] eqn:F;
        [| reflexivity].
      apply find_some in F. destruct F as [Hx Hd].
      apply String.eqb_eq in Hd. exfalso. apply Hnot.
      rewrite <- Hd. now apply in_map.
Qed.

Section GridFacts.
Variable LocalTZA : Z -> Z.
Variable timesheet : Timesheet.
Variable selectedDate : Date.
Local Open Scope Z_scope.

Local Notation "'theYear'" := (fullYear (currentYear selectedDate)).
Local Notation "'theMonth'" := (currentMonth selectedDate).
Local Notation "'monthBefore'" :=
  (monthLength (theYear + (theMonth - 1) / 12) ((theMonth - 1) mod 12)).

Lemma currentMonth_range : 0 <= theMonth < 12.
Proof.
  unfold currentMonth, getMonth.
  pose proof (MonthFromDay_range (Day selectedDate)). lia.
Qed.

(** [daysInMonth] is the length of the displayed month, 28 to 31. *)
Lemma daysInMonth_length :
  daysInMonth selectedDate = monthLength theYear theMonth.
Proof.
  pose proof currentMonth_range as Hm.
  pose proof (monthLength_bounds theYear theMonth) as Hb.
  unfold daysInMonth, lastDayOfMonth, getDate, newDate.
  rewrite Day_midnight, MakeDay_next_month by exact Hm.
  replace (MakeDay theYear theMonth 0 + monthLength theYear theMonth)
    with (MakeDay theYear theMonth (monthLength theYear theMonth))
    by (rewrite (MakeDay_date theYear theMonth _ 0); lia).
  apply MakeDay_fields; lia.
Qed.

Lemma startingDayOfWeek_range : 0 <= startingDayOfWeek selectedDate <= 6.
Proof. apply WeekDay_range. Qed.

Lemma weeksNeeded_ceil :
  7 * (weeksNeeded selectedDate - 1)
  < startingDayOfWeek selectedDate + daysInMonth selectedDate
  <= 7 * weeksNeeded selectedDate.
Proof.
  unfold weeksNeeded, totalDays. rewrite Math_ceil_7.
  Z.div_mod_to_equations. lia.
Qed.

(** The dates of the cells. *)
Lemma current_cell_fields i :
  0 <= i < daysInMonth selectedDate ->
  getFullYear (newDate (currentYear selectedDate) theMonth (i + 1)) = theYear
  /\ getMonth (newDate (currentYear selectedDate) theMonth (i + 1)) = theMonth
  /\ getDate (newDate (currentYear selectedDate) theMonth (i + 1)) = i + 1.
Proof.
  intros Hi. rewrite daysInMonth_length in Hi.
  unfold getFullYear, getMonth, getDate, newDate.
  rewrite Day_midnight.
  apply MakeDay_fields; [apply currentMonth_range | lia].
Qed.

Lemma previous_cell_fields i :
  0 <= i < 7 ->
  getFullYear (newDate (currentYear selectedDate) theMonth (- i))
  = theYear + (theMonth - 1) / 12
  /\ getMonth (newDate (currentYear selectedDate) theMonth (- i))
     = (theMonth - 1) mod 12
  /\ getDate (newDate (currentYear selectedDate) theMonth (- i))
     = monthBefore - i.
Proof.
  intros Hi.
  pose proof (monthLength_bounds (theYear + (theMonth - 1) / 12)
                                 ((theMonth - 1) mod 12)) as Hb.
  unfold getFullYear, getMonth, getDate, newDate.
  rewrite Day_midnight, MakeDay_before by apply currentMonth_range.
  apply MakeDay_fields_any. lia.
Qed.

Lemma next_cell_fields i :
  0 <= i < 28 ->
  getFullYear (newDate (currentYear selectedDate) (theMonth + 1) (i + 1))
  = theYear + (theMonth + 1) / 12
  /\ getMonth (newDate (currentYear selectedDate) (theMonth + 1) (i + 1))
     = (theMonth + 1) mod 12
  /\ getDate (newDate (currentYear selectedDate) (theMonth + 1) (i + 1))
     = i + 1.
Proof.
  intros Hi.
  pose proof (monthLength_bounds (theYear + (theMonth + 1) / 12)
                                 ((theMonth + 1) mod 12)) as Hb.
  unfold getFullYear, getMonth, getDate, newDate.
  rewrite Day_midnight.
  apply MakeDay_fields_any. lia.
Qed.

(** The three runs of cells. *)
Lemma previousMonthDays_cells :
  previousMonthDays LocalTZA timesheet selectedDate
  = map (fun i =>
           dayCell LocalTZA prev
             (monthBefore - startingDayOfWeek selectedDate + 1 + Z.of_nat i)
             (newDate (currentYear selectedDate) theMonth
                      (- (startingDayOfWeek selectedDate - 1 - Z.of_nat i)))
             timesheet)
        (seq 0 (Z.to_nat (startingDayOfWeek selectedDate))).
Proof.
  pose proof startingDayOfWeek_range as Hs.
  unfold previousMonthDays, Array_from.
  rewrite (rev_countdown
             (fun i => dayCell LocalTZA prev
                         (getDate (newDate (currentYear selectedDate)
                                           theMonth (- i)))
                         (newDate (currentYear selectedDate) theMonth (- i))
                         timesheet)).
  rewrite Z2Nat.id by lia.
  apply map_ext_in. intros i Hi. apply in_seq in Hi.
  assert (Hr : 0 <= startingDayOfWeek selectedDate - 1 - Z.of_nat i < 7) by lia.
  rewrite (proj2 (proj2 (previous_cell_fields _ Hr))). f_equal. lia.
Qed.

Lemma currentMonthDays_cells :
  currentMonthDays LocalTZA timesheet selectedDate
  = map (fun i =>
           dayCell LocalTZA current (Z.of_nat i + 1)
             (newDate (currentYear selectedDate) theMonth (Z.of_nat i + 1))
             timesheet)
        (seq 0 (Z.to_nat (daysInMonth selectedDate))).
Proof. reflexivity. Qed.

Lemma nextMonthDays_cells :
  nextMonthDays LocalTZA timesheet selectedDate
  = map (fun i =>
           dayCell LocalTZA next (Z.of_nat i + 1)
             (newDate (currentYear selectedDate) (theMonth + 1)
                      (Z.of_nat i + 1))
             timesheet)
        (seq 0 (Z.to_nat (remainingDays LocalTZA timesheet selectedDate))).
Proof. reflexivity. Qed.

Lemma previousMonthDays_length :
  List.length (previousMonthDays LocalTZA timesheet selectedDate)
  = Z.to_nat (startingDayOfWeek selectedDate).
Proof.
  unfold previousMonthDays. now rewrite length_rev, Array_from_length.
Qed.

Lemma currentMonthDays_length :
  List.length (currentMonthDays LocalTZA timesheet selectedDate)
  = Z.to_nat (daysInMonth selectedDate).
Proof. unfold currentMonthDays. now rewrite Array_from_length. Qed.

Lemma daysInMonth_bounds : 28 <= daysInMonth selectedDate <= 31.
Proof. rewrite daysInMonth_length. apply monthLength_bounds. Qed.

Lemma remainingDays_eq :
  remainingDays LocalTZA timesheet selectedDate
  = 7 * weeksNeeded selectedDate
    - (startingDayOfWeek selectedDate + daysInMonth selectedDate).
Proof.
  pose proof startingDayOfWeek_range. pose proof daysInMonth_bounds.
  unfold remainingDays, totalCells.
  rewrite previousMonthDays_length, currentMonthDays_length.
  rewrite !Z2Nat.id by lia. lia.
Qed.

Lemma remainingDays_range :
  0 <= remainingDays LocalTZA timesheet selectedDate <= 6.
Proof. rewrite remainingDays_eq. pose proof weeksNeeded_ceil. lia. Qed.

Lemma allDays_length :
  Z.of_nat (List.length (allDays LocalTZA timesheet selectedDate))
  = 7 * weeksNeeded selectedDate.
Proof.
  pose proof startingDayOfWeek_range. pose proof daysInMonth_bounds.
  pose proof remainingDays_range as Hr.
  unfold allDays. rewrite !length_app.
  rewrite previousMonthDays_length, currentMonthDays_length.
  unfold nextMonthDays. rewrite Array_from_length.
  rewrite !Nat2Z.inj_add, !Z2Nat.id by lia.
  rewrite remainingDays_eq. lia.
Qed.

Lemma map_const {A B} (b : B) (l : list A) :
  map (fun _ => b) l = repeat b (List.length l).
Proof. induction l; cbn; congruence. Qed.

Lemma allDays_types :
  map type (allDays LocalTZA timesheet selectedDate)
  = repeat prev (Z.to_nat (startingDayOfWeek selectedDate))
    ++ repeat current (Z.to_nat (daysInMonth selectedDate))
    ++ repeat next (Z.to_nat (remainingDays LocalTZA timesheet selectedDate)).
Proof.
  unfold allDays. rewrite !map_app. f_equal; [| f_equal].
  - rewrite previousMonthDays_cells, map_map. cbn [type dayCell].
    now rewrite map_const, length_seq.
  - unfold currentMonthDays, Array_from. rewrite map_map. cbn [type dayCell].
    now rewrite map_const, length_seq.
  - unfold nextMonthDays, Array_from. rewrite map_map. cbn [type dayCell].
    now rewrite map_const, length_seq.
Qed.

Lemma allDays_days :
  map day (allDays LocalTZA timesheet selectedDate)
  = map Some
      (range (monthBefore - startingDayOfWeek selectedDate + 1)
             (startingDayOfWeek selectedDate)
       ++ range 1 (daysInMonth selectedDate)
       ++ range 1 (remainingDays LocalTZA timesheet selectedDate)).
Proof.
  unfold allDays, range. rewrite !map_app. f_equal; [| f_equal].
  - rewrite previousMonthDays_cells, !map_map. reflexivity.
  - unfold currentMonthDays, Array_from. rewrite !map_map.
    apply map_ext. intros i. cbn [day dayCell]. f_equal. lia.
  - unfold nextMonthDays, Array_from. rewrite !map_map.
    apply map_ext. intros i. cbn [day dayCell]. f_equal. lia.
Qed.

(** *** Weeks *)

(** *** The cells by their calendar days *)

Local Notation "'firstDay'" := (firstOfMonth selectedDate).

Lemma firstDay_eq : firstDay = MakeDay theYear theMonth 1.
Proof. unfold firstOfMonth, currentYear, currentMonth. reflexivity. Qed.

(** The grid starts on the weekday of the first of the month. *)
Lemma startingDayOfWeek_first :
  startingDayOfWeek selectedDate = sundayBased firstDay.
Proof.
  unfold startingDayOfWeek, firstDayOfMonth, getDay, newDate.
  rewrite Day_midnight.
  unfold WeekDay, sundayBased, firstOfMonth, currentYear, currentMonth.
  reflexivity.
Qed.

Lemma previous_cell i :
  0 <= i < startingDayOfWeek selectedDate ->
  dayCell LocalTZA prev
    (monthBefore - startingDayOfWeek selectedDate + 1 + i)
    (newDate (currentYear selectedDate) theMonth
             (- (startingDayOfWeek selectedDate - 1 - i)))
    timesheet
  = dayCell LocalTZA prev
      (DateFromDay (firstDay - startingDayOfWeek selectedDate + i))
      ((firstDay - startingDayOfWeek selectedDate + i) * msPerDay)
      timesheet.
Proof.
  intros Hi. pose proof startingDayOfWeek_range as Hs.
  assert (E1 : newDate (currentYear selectedDate) theMonth
                       (- (startingDayOfWeek selectedDate - 1 - i))
               = (firstDay - startingDayOfWeek selectedDate + i) * msPerDay).
  { unfold newDate. rewrite firstDay_eq.
    rewrite (MakeDay_date theYear theMonth _ 1). f_equal. lia. }
  assert (E2 : monthBefore - startingDayOfWeek selectedDate + 1 + i
               = DateFromDay (firstDay - startingDayOfWeek selectedDate + i)).
  { assert (Hj : 0 <= startingDayOfWeek selectedDate - 1 - i < 7) by lia.
    transitivity (getDate (newDate (currentYear selectedDate) theMonth
                             (- (startingDayOfWeek selectedDate - 1 - i)))).
    - rewrite (proj2 (proj2 (previous_cell_fields _ Hj))). lia.
    - rewrite E1. unfold getDate. rewrite Day_midnight. reflexivity. }
  rewrite E1, E2. reflexivity.
Qed.

Lemma current_cell i :
  0 <= i < daysInMonth selectedDate ->
  dayCell LocalTZA current (i + 1)
    (newDate (currentYear selectedDate) theMonth (i + 1)) timesheet
  = dayCell LocalTZA current (DateFromDay (firstDay + i))
            ((firstDay + i) * msPerDay) timesheet.
Proof.
  intros Hi.
  assert (E1 : newDate (currentYear selectedDate) theMonth (i + 1)
               = (firstDay + i) * msPerDay).
  { unfold newDate. rewrite firstDay_eq.
    rewrite (MakeDay_date theYear theMonth _ 1). f_equal. lia. }
  assert (E2 : i + 1 = DateFromDay (firstDay + i)).
  { transitivity (getDate (newDate (currentYear selectedDate) theMonth
                             (i + 1))).
    - rewrite (proj2 (proj2 (current_cell_fields i Hi))). reflexivity.
    - rewrite E1. unfold getDate. rewrite Day_midnight. reflexivity. }
  rewrite E1. rewrite E2 at 1. reflexivity.
Qed.

Lemma next_cell i :
  0 <= i < 28 ->
  dayCell LocalTZA next (i + 1)
    (newDate (currentYear selectedDate) (theMonth + 1) (i + 1)) timesheet
  = dayCell LocalTZA next
      (DateFromDay (firstDay + daysInMonth selectedDate + i))
      ((firstDay + daysInMonth selectedDate + i) * msPerDay) timesheet.
Proof.
  intros Hi.
  assert (E1 : newDate (currentYear selectedDate) (theMonth + 1) (i + 1)
               = (firstDay + daysInMonth selectedDate + i) * msPerDay).
  { unfold newDate. rewrite firstDay_eq, daysInMonth_length.
    rewrite MakeDay_next_month by apply currentMonth_range.
    rewrite (MakeDay_date theYear theMonth _ 1). f_equal. lia. }
  assert (E2 : i + 1
               = DateFromDay (firstDay + daysInMonth selectedDate + i)).
  { transitivity (getDate (newDate (currentYear selectedDate)
                             (theMonth + 1) (i + 1))).
    - rewrite (proj2 (proj2 (next_cell_fields i Hi))). reflexivity.
    - rewrite E1. unfold getDate. rewrite Day_midnight. reflexivity. }
  rewrite E1. rewrite E2 at 1. reflexivity.
Qed.

(** The type of the cell of a day number. *)
Lemma cell_type_cases (D : Z) :
  (if D <? firstDay then prev
   else if D <? firstDay + daysInMonth selectedDate then current else next)
  = prev /\ D < firstDay
  \/ (if D <? firstDay then prev
      else if D <? firstDay + daysInMonth selectedDate then current else next)
     = current /\ firstDay <= D < firstDay + daysInMonth selectedDate
  \/ (if D <? firstDay then prev
      else if D <? firstDay + daysInMonth selectedDate then current else next)
     = next /\ firstDay + daysInMonth selectedDate <= D.
Proof.
  destruct (Z.ltb_spec D firstDay); [left; split; [reflexivity | lia] |].
  destruct (Z.ltb_spec D (firstDay + daysInMonth selectedDate)).
  - right. left. split; [reflexivity | lia].
  - right. right. split; [reflexivity | lia].
Qed.

(** Cell [k] of the grid is the cell of the calendar day [k] days after
    the first cell's, which is [startingDayOfWeek] days before the first
    of the month. *)
Lemma allDays_nth k :
  Z.of_nat k < 7 * weeksNeeded selectedDate ->
  let D := firstDay - startingDayOfWeek selectedDate + Z.of_nat k in
  nth_error (allDays LocalTZA timesheet selectedDate) k
  = Some (dayCell LocalTZA
            (if D <? firstDay then prev
             else if D <? firstDay + daysInMonth selectedDate then current
                  else next)
            (DateFromDay D) (D * msPerDay) timesheet).
Proof.
  intros Hk D.
  pose proof startingDayOfWeek_range as Hs.
  pose proof daysInMonth_bounds as Hd.
  pose proof remainingDays_range as Hr.
  pose proof remainingDays_eq as Er.
  unfold allDays.
  destruct (Z.ltb_spec D firstDay) as [L1 | L1].
  - rewrite nth_error_app1 by (rewrite previousMonthDays_length; lia).
    rewrite previousMonthDays_cells, nth_error_map, nth_error_seq.
    replace (k <? Z.to_nat (startingDayOfWeek selectedDate))%nat with true
      by (symmetry; apply Nat.ltb_lt; lia).
    cbn [option_map Nat.add]. f_equal.
    apply previous_cell. lia.
  - rewrite nth_error_app2 by (rewrite previousMonthDays_length; lia).
    rewrite previousMonthDays_length.
    destruct (Z.ltb_spec D (firstDay + daysInMonth selectedDate)) as [L2 | L2].
    + rewrite nth_error_app1 by (rewrite currentMonthDays_length; lia).
      rewrite currentMonthDays_cells, nth_error_map, nth_error_seq.
      replace (k - Z.to_nat (startingDayOfWeek selectedDate)
               <? Z.to_nat (daysInMonth selectedDate))%nat with true
        by (symmetry; apply Nat.ltb_lt; lia).
      cbn [option_map Nat.add]. f_equal.
      rewrite current_cell by lia.
      replace (firstDay
               + Z.of_nat (k - Z.to_nat (startingDayOfWeek selectedDate)))
        with D by (unfold D; lia).
      reflexivity.
    + rewrite nth_error_app2 by (rewrite currentMonthDays_length; lia).
      rewrite currentMonthDays_length.
      rewrite nextMonthDays_cells, nth_error_map, nth_error_seq.
      replace (k - Z.to_nat (startingDayOfWeek selectedDate)
               - Z.to_nat (daysInMonth selectedDate)
               <? Z.to_nat (remainingDays LocalTZA timesheet selectedDate))%nat
        with true by (symmetry; apply Nat.ltb_lt; lia).
      cbn [option_map Nat.add]. f_equal.
      rewrite next_cell by lia.
      replace (firstDay + daysInMonth selectedDate
               + Z.of_nat (k - Z.to_nat (startingDayOfWeek selectedDate)
                           - Z.to_nat (daysInMonth selectedDate)))
        with D by (unfold D; lia).
      reflexivity.
Qed.

Lemma slice_week {A} (l : list A) (i : nat) :
  slice l (Z.of_nat i * 7) ((Z.of_nat i + 1) * 7) = firstn 7 (skipn (7 * i) l).
Proof.
  unfold slice.
  replace (Z.of_nat i * 7) with (Z.of_nat (7 * i)) by lia.
  replace ((Z.of_nat i + 1) * 7) with (Z.of_nat (7 * i + 7)) by lia.
  rewrite !Nat2Z.id. f_equal. lia.
Qed.

Lemma week_length i :
  (i < Z.to_nat (weeksNeeded selectedDate))%nat ->
  List.length (firstn 7 (skipn (7 * i)
                           (allDays LocalTZA timesheet selectedDate))) = 7%nat.
Proof.
  intros Hi. pose proof allDays_length as HL.
  rewrite length_firstn, length_skipn. lia.
Qed.

Lemma week_nth i j :
  (j < 7)%nat ->
  nth_error (firstn 7 (skipn (7 * i) (allDays LocalTZA timesheet selectedDate))) j
  = nth_error (allDays LocalTZA timesheet selectedDate) (7 * i + j).
Proof.
  intros Hj. rewrite nth_error_firstn, nth_error_skipn.
  apply Nat.ltb_lt in Hj. now rewrite Hj.
Qed.

Lemma rows_nth i :
  (i < Z.to_nat (weeksNeeded selectedDate))%nat ->
  nth_error (rows LocalTZA timesheet selectedDate) i
  = Some (firstn 7 (skipn (7 * i) (allDays LocalTZA timesheet selectedDate))
          ++ [totalCell
                (weekTotalOf
                   (firstn 7 (skipn (7 * i)
                                (allDays LocalTZA timesheet selectedDate))))]).
Proof.
  intros Hi. unfold rows. rewrite Array_from_nth by exact Hi.
  now rewrite slice_week.
Qed.

Lemma rows_length :
  List.length (rows LocalTZA timesheet selectedDate)
  = Z.to_nat (weeksNeeded selectedDate).
Proof. unfold rows. apply Array_from_length. Qed.

(** The cells from index [startingDayOfWeek] on, [daysInMonth] of them,
    are the current month's. *)
Lemma current_cells j :
  (Z.to_nat (startingDayOfWeek selectedDate) <= j
   < Z.to_nat (startingDayOfWeek selectedDate)
     + Z.to_nat (daysInMonth selectedDate))%nat ->
  exists c, nth_error (allDays LocalTZA timesheet selectedDate) j = Some c
            /\ type c = current.
Proof.
  intros Hj.
  assert (H : nth_error (map type (allDays LocalTZA timesheet selectedDate)) j
              = Some current).
  { rewrite allDays_types, nth_error_app, repeat_length.
    destruct (Nat.ltb_spec j (Z.to_nat (startingDayOfWeek selectedDate)));
      [lia |].
    rewrite nth_error_app, repeat_length.
    destruct (Nat.ltb_spec (j - Z.to_nat (startingDayOfWeek selectedDate))
                (Z.to_nat (daysInMonth selectedDate))); [| lia].
    now apply nth_error_repeat. }
  rewrite nth_error_map in H.
  destruct (nth_error (allDays LocalTZA timesheet selectedDate) j) as [c |];
    [| discriminate].
  exists c. split; trivial. cbn in H. congruence.
Qed.

Lemma row_has_current i j :
  (i < Z.to_nat (weeksNeeded selectedDate))%nat ->
  (7 * i <= j < 7 * i + 7)%nat ->
  (Z.to_nat (startingDayOfWeek selectedDate) <= j
   < Z.to_nat (startingDayOfWeek selectedDate)
     + Z.to_nat (daysInMonth selectedDate))%nat ->
  exists r c, nth_error (rows LocalTZA timesheet selectedDate) i = Some r
              /\ In c r /\ type c = current.
Proof.
  intros Hi Hj Hc. destruct (current_cells j Hc) as (c & Hn & Ht).
  eexists. exists c. split; [apply (rows_nth i Hi) |]. split; trivial.
  apply in_or_app. left. apply nth_error_In with (n := (j - 7 * i)%nat).
  rewrite week_nth by lia. rewrite <- Hn. f_equal. lia.
Qed.

(** ** C4 *)

(** C4. For every reference month the grid is made of exactly
    weeksNeeded * 7 day cells, weeksNeeded being the ceiling of
    (startingWeekdayOfMonth + daysInMonth) / 7, where
    startingWeekdayOfMonth is the weekday (Sunday = 0) of the first of
    the month and daysInMonth the length of the month.  The cells are
    consecutive days of the calendar, each under its weekday: the first
    startingWeekdayOfMonth cells are the last days of the month before,
    in ascending order; the next daysInMonth cells are the days
    1..daysInMonth of the month; the cells that remain are the first days
    of the month after.  The first and the last row of the grid each hold
    a day of the month. *)
Theorem grid_shape :
  let start := startingDayOfWeek selectedDate in
  let dim := daysInMonth selectedDate in
  let weeks := weeksNeeded selectedDate in
  let rest := 7 * weeks - (start + dim) in
  (start = sundayBased (firstOfMonth selectedDate)
   /\ 0 <= start <= 6 /\ dim = monthLength theYear theMonth /\ 28 <= dim <= 31)
  /\ (weeks = Math_ceil (inject_Z (start + dim) / 7)
      /\ 7 * (weeks - 1) < start + dim <= 7 * weeks)
  /\ Z.of_nat (List.length (allDays LocalTZA timesheet selectedDate))
     = weeks * 7
  /\ (forall k, Z.of_nat k < weeks * 7 ->
        let D := firstOfMonth selectedDate - start + Z.of_nat k in
        exists c,
          nth_error (allDays LocalTZA timesheet selectedDate) k = Some c
          /\ day c = Some (DateFromDay D)
          /\ sundayBased D = Z.of_nat k mod 7
          /\ (type c = prev <-> D < firstOfMonth selectedDate)
          /\ (type c = current
              <-> firstOfMonth selectedDate <= D
                  < firstOfMonth selectedDate + dim)
          /\ (type c = next <-> firstOfMonth selectedDate + dim <= D))
  /\ map type (allDays LocalTZA timesheet selectedDate)
     = repeat prev (Z.to_nat start) ++ repeat current (Z.to_nat dim)
       ++ repeat next (Z.to_nat rest)
  /\ map day (allDays LocalTZA timesheet selectedDate)
     = map Some (range (monthBefore - start + 1) start
                 ++ range 1 dim ++ range 1 rest)
  /\ (exists r c, nth_error (rows LocalTZA timesheet selectedDate) 0 = Some r
                  /\ In c r /\ type c = current)
  /\ (exists r c, nth_error (rows LocalTZA timesheet selectedDate)
                            (Z.to_nat (weeks - 1)) = Some r
                  /\ In c r /\ type c = current).
Proof.
  intros start dim weeks rest.
  pose proof startingDayOfWeek_range as Hs. fold start in Hs.
  pose proof daysInMonth_bounds as Hd. fold dim in Hd.
  pose proof weeksNeeded_ceil as Hw. fold start dim weeks in Hw.
  pose proof startingDayOfWeek_first as Hf. fold start in Hf.
  assert (Er : remainingDays LocalTZA timesheet selectedDate = rest)
    by apply remainingDays_eq.
  split; [split; [exact Hf |];
          split; [exact Hs | split; [apply daysInMonth_length | exact Hd]] |].
  split; [split; [reflexivity | exact Hw] |].
  split; [rewrite allDays_length; subst weeks; lia |].
  split.
  { intros k Hk D.
    assert (Hk' : Z.of_nat k < 7 * weeksNeeded selectedDate)
      by (fold weeks; lia).
    pose proof (allDays_nth k Hk') as Hn. cbv zeta in Hn.
    fold start dim in Hn. fold D in Hn.
    eexists. split; [exact Hn |]. cbn [day type dayCell].
    split; [reflexivity |]. split.
    - unfold D. rewrite Hf. unfold sundayBased.
      generalize (firstOfMonth selectedDate). intros F.
      Z.div_mod_to_equations. lia.
    - destruct (cell_type_cases D) as [[E L] | [[E L] | [E L]]];
        fold dim in E, L; rewrite E;
        (split; [split; [intros H; try discriminate H; lia
                        | intros H; try reflexivity; lia] |]);
        (split; [split; [intros H; try discriminate H; lia
                        | intros H; try reflexivity; lia]
                | split; [intros H; try discriminate H; lia
                         | intros H; try reflexivity; lia]]). }
  split; [rewrite allDays_types, Er; reflexivity |].
  split; [rewrite allDays_days, Er; reflexivity |].
  split.
  - apply (row_has_current 0 (Z.to_nat start)); fold start dim weeks; lia.
  - apply (row_has_current (Z.to_nat (weeks - 1)) (Z.to_nat (start + dim - 1)));
      fold start dim weeks; lia.
Qed.

(** ** C2 *)

Lemma rows_weeks :
  rows LocalTZA timesheet selectedDate
  = map (fun wd => wd ++ [totalCell (weekTotalOf wd)])
        (map (fun i => firstn 7 (skipn (7 * i)
                                   (allDays LocalTZA timesheet selectedDate)))
             (seq 0 (Z.to_nat (weeksNeeded selectedDate)))).
Proof.
  unfold rows, Array_from. rewrite map_map. apply map_ext. intros i.
  now rewrite slice_week.
Qed.

Lemma weeks_lengths :
  Forall (fun wd : list DayData => List.length wd = 7%nat)
    (map (fun i => firstn 7 (skipn (7 * i)
                               (allDays LocalTZA timesheet selectedDate)))
         (seq 0 (Z.to_nat (weeksNeeded selectedDate)))).
Proof.
  apply Forall_forall. intros wd Hin. apply in_map_iff in Hin.
  destruct Hin as (i & <- & Hi). apply in_seq in Hi.
  apply week_length. lia.
Qed.

(** The loop over the rows never fails, and its eighth column holds the
    sum of the week totals, which is the sum over the month's cells. *)
Lemma columnTotals_grand :
  exists cts grand,
    columnTotals LocalTZA timesheet selectedDate = Some cts
    /\ List.length cts = 8%nat
    /\ nth_error cts 7 = Some grand
    /\ Heq grand
           (sumHours
              (map (fun r => hours (nth 7 r (totalCell noHours)))
                   (rows LocalTZA timesheet selectedDate)))
    /\ Heq grand
           (sumHours
              (map hours
                   (filter isCurrent
                           (allDays LocalTZA timesheet selectedDate)))).
Proof.
  destruct (columnTotals_fold _ (repeat noHours 8) noHours weeks_lengths
              eq_refl eq_refl) as (cts & g & E & L & N & G).
  exists cts, g. unfold columnTotals. rewrite rows_weeks.
  split; [exact E | split; [exact L | split; [exact N |]]].
  assert (G' : Heq g (sumHours
                        (map weekTotalOf
                             (map (fun i => firstn 7 (skipn (7 * i)
                                    (allDays LocalTZA timesheet selectedDate)))
                                  (seq 0 (Z.to_nat (weeksNeeded selectedDate)))))))
    by (rewrite G; apply addHours_noHours_l).
  split.
  - rewrite G'. rewrite !map_map. apply sumHours_ext.
    intros i Hi. apply in_seq in Hi.
    rewrite app_nth2 by (rewrite week_length; lia).
    rewrite week_length by lia. reflexivity.
  - rewrite G'.
    etransitivity;
      [apply (sumHours_ext weekTotalOf
                (fun l => sumHours (map hours (filter isCurrent l))));
       intros; apply weekTotalOf_sum |].
    rewrite (sumHours_concat (fun l => map hours (filter isCurrent l)));
      [| intros; now rewrite filter_app, map_app | reflexivity].
    rewrite weeks_concat; [reflexivity |].
    pose proof allDays_length. lia.
Qed.

(** In exact arithmetic: in every week row the eighth cell holds, per
    category, the sum of the hours of the row's current-month cells
    only; the grand total is per category the sum of the week totals,
    which is the sum over all current-month cells of the grid.  The
    doubles of the engine round: see [CalendarDSpec]. *)
Theorem week_and_grand_totals_exact :
  (forall i, (i < Z.to_nat (weeksNeeded selectedDate))%nat ->
     exists weekDays T,
       nth_error (rows LocalTZA timesheet selectedDate) i
       = Some (weekDays ++ [totalCell T])
       /\ weekDays = slice (allDays LocalTZA timesheet selectedDate)
                           (Z.of_nat i * 7) ((Z.of_nat i + 1) * 7)
       /\ List.length weekDays = 7%nat
       /\ nth_error (weekDays ++ [totalCell T]) 7 = Some (totalCell T)
       /\ Heq T (sumHours (map hours (filter isCurrent weekDays))))
  /\ (exists cts grand,
        columnTotals LocalTZA timesheet selectedDate = Some cts
        /\ List.length cts = 8%nat
        /\ nth_error cts 7 = Some grand
        /\ Heq grand
               (sumHours
                  (map (fun r => hours (nth 7 r (totalCell noHours)))
                       (rows LocalTZA timesheet selectedDate)))
        /\ Heq grand
               (sumHours
                  (map hours
                       (filter isCurrent
                               (allDays LocalTZA timesheet selectedDate))))).
Proof.
  split.
  - intros i Hi. eexists. eexists.
    split; [apply (rows_nth i Hi) |]. split; [now rewrite slice_week |].
    pose proof (week_length i Hi) as HL.
    split; [exact HL |]. split.
    + rewrite nth_error_app2 by lia. rewrite HL. reflexivity.
    + apply weekTotalOf_sum.
  - exact columnTotals_grand.
Qed.

(** *** The cells of the month and the sheet *)

Lemma filter_current_all (l : list DayData) :
  Forall (fun c => type c = current) l -> filter isCurrent l = l.
Proof.
  induction 1 as [| c l Hc _ IH]; cbn [filter]; trivial.
  unfold isCurrent at 1. rewrite Hc, IH. reflexivity.
Qed.

Lemma filter_current_none (l : list DayData) ty :
  ty <> current -> Forall (fun c => type c = ty) l -> filter isCurrent l = [].
Proof.
  intros Hty. induction 1 as [| c l Hc _ IH]; cbn [filter]; trivial.
  unfold isCurrent at 1. rewrite Hc, IH.
  destruct ty; try reflexivity; congruence.
Qed.

Lemma previousMonthDays_type :
  Forall (fun c => type c = prev)
         (previousMonthDays LocalTZA timesheet selectedDate).
Proof.
  rewrite previousMonthDays_cells. apply Forall_forall. intros c Hc.
  apply in_map_iff in Hc. now destruct Hc as (i & <- & _).
Qed.

Lemma currentMonthDays_type :
  Forall (fun c => type c = current)
         (currentMonthDays LocalTZA timesheet selectedDate).
Proof.
  rewrite currentMonthDays_cells. apply Forall_forall. intros c Hc.
  apply in_map_iff in Hc. now destruct Hc as (i & <- & _).
Qed.

Lemma nextMonthDays_type :
  Forall (fun c => type c = next)
         (nextMonthDays LocalTZA timesheet selectedDate).
Proof.
  rewrite nextMonthDays_cells. apply Forall_forall. intros c Hc.
  apply in_map_iff in Hc. now destruct Hc as (i & <- & _).
Qed.

Lemma current_of_allDays :
  filter isCurrent (allDays LocalTZA timesheet selectedDate)
  = currentMonthDays LocalTZA timesheet selectedDate.
Proof.
  unfold allDays. rewrite !filter_app.
  rewrite (filter_current_none _ prev ltac:(discriminate) previousMonthDays_type).
  rewrite (filter_current_all _ currentMonthDays_type).
  rewrite (filter_current_none _ next ltac:(discriminate) nextMonthDays_type).
  rewrite app_nil_r. apply app_nil_l.
Qed.

(** A cell of the month shows a day of the month. *)
Lemma current_cell_day c :
  In c (allDays LocalTZA timesheet selectedDate) -> type c = current ->
  exists n, 1 <= n <= daysInMonth selectedDate /\ day c = Some n.
Proof.
  intros Hin Ht.
  assert (Hc : In c (filter isCurrent (allDays LocalTZA timesheet selectedDate))).
  { apply filter_In. split; [exact Hin |]. unfold isCurrent.
    rewrite Ht. reflexivity. }
  rewrite current_of_allDays, currentMonthDays_cells in Hc.
  apply in_map_iff in Hc.
  destruct Hc as (i & <- & Hi). apply in_seq in Hi.
  exists (Z.of_nat i + 1). split; [lia | reflexivity].
Qed.

Lemma monthKeys_NoDup :
  NoDup (map (fun i => formatDate
                         (newDate (currentYear selectedDate) theMonth
                                  (Z.of_nat i + 1)))
             (seq 0 (Z.to_nat (daysInMonth selectedDate)))).
Proof.
  apply NoDup_map_NoDup_ForallPairs; [| apply seq_NoDup].
  intros i j Hi Hj E. apply in_seq in Hi, Hj.
  apply formatDate_inj in E. destruct E as (_ & _ & E).
  rewrite (proj2 (proj2 (current_cell_fields (Z.of_nat i) ltac:(lia)))) in E.
  rewrite (proj2 (proj2 (current_cell_fields (Z.of_nat j) ltac:(lia)))) in E.
  lia.
Qed.

(** When the entries of the sheet have distinct dates, all of them days
    of the displayed month, the grand total of the grid is the sum over
    the sheet. *)
Lemma grand_total_of_sheet :
  NoDup (map date (byDate timesheet)) ->
  (forall e, In e (byDate timesheet) ->
     exists n, 1 <= n <= daysInMonth selectedDate
               /\ date e = formatDate (newDate (currentYear selectedDate)
                                               theMonth n)) ->
  Heq (sumHours (map hours (filter isCurrent
                              (allDays LocalTZA timesheet selectedDate))))
      (totalHours timesheet).
Proof.
  intros ND Hin. rewrite current_of_allDays, totalHours_sum.
  rewrite currentMonthDays_cells, map_map. cbn [hours dayCell].
  rewrite <- (sumHours_lookup _ (byDate timesheet) monthKeys_NoDup ND).
  - rewrite map_map. apply sumHours_ext. intros i _.
    rewrite getHoursForDate_find. reflexivity.
  - intros e He. destruct (Hin e He) as (n & Hn & ->).
    apply in_map_iff. exists (Z.to_nat (n - 1)). split.
    + do 2 f_equal. lia.
    + apply in_seq. lia.
Qed.

End GridFacts.

(** ** C9 *)

Lemma includes_In l s : includes l s = true <-> In s l.
Proof.
  unfold includes. rewrite existsb_exists. split.
  - intros (x & Hx & E). destruct s, x; try discriminate; exact Hx.
  - intros H. exists s. split; trivial. now destruct s.
Qed.

Lemma availableStatTypes_In timesheet s :
  In s (availableStatTypes timesheet)
  <-> 0 < statHours (totalHours timesheet) s.
Proof.
  unfold availableStatTypes. rewrite in_map_iff. split.
  - intros ((s', q) & E & Hin). cbn in E. subst s'.
    apply filter_In in Hin. destruct Hin as [Hin Hq]. cbn in Hq.
    apply Qltb_lt in Hq. unfold entries in Hin. cbn [In] in Hin.
    destruct Hin as [E | [E | [E | [E | []]]]]; inversion E; subst;
      exact Hq.
  - intros H. exists (s, statHours (totalHours timesheet) s).
    split; [reflexivity |]. apply filter_In. split.
    + unfold entries. destruct s; cbn; auto.
    + cbn. now apply Qltb_lt.
Qed.

Lemma statHours_add a b st :
  statHours (addHours a b) st = statHours a st + statHours b st.
Proof. destruct st; reflexivity. Qed.

Lemma statHours_Heq a b st : Heq a b -> statHours a st == statHours b st.
Proof. intros (H1 & H2 & H3 & H4). destruct st; assumption. Qed.

Lemma statHours_sumHours l st :
  statHours (sumHours l) st == sumOf (map (fun h => statHours h st) l).
Proof.
  induction l as [| h l IH]; [destruct st; reflexivity |].
  cbn [sumHours fold_right map sumOf]. fold (sumHours l).
  fold (sumOf (map (fun h => statHours h st) l)).
  rewrite statHours_add, IH. reflexivity.
Qed.

Lemma entryValue_spec st e : entryValue st e = statHours (entryHours e) st.
Proof. destruct st; reflexivity. Qed.

(** The total of a category over the sheet, entry by entry. *)
Lemma totalHours_entries timesheet st :
  statHours (totalHours timesheet) st
  == sumOf (map (entryValue st) (byDate timesheet)).
Proof.
  rewrite (statHours_Heq _ _ st (totalHours_sum timesheet)).
  rewrite statHours_sumHours, map_map.
  assert (E : map (fun x => statHours (entryHours x) st) (byDate timesheet)
              = map (entryValue st) (byDate timesheet))
    by (apply map_ext; intros e; symmetry; apply entryValue_spec).
  rewrite E. reflexivity.
Qed.

Lemma find_by_date (l : list DayEntry) e :
  NoDup (map date l) -> In e l ->
  find (fun x => String.eqb (date x) (date e)) l = Some e.
Proof.
  induction l as [| a l IH]; intros ND Hin; [contradiction |].
  cbn [map] in ND. apply NoDup_cons_iff in ND. destruct ND as [Ha ND].
  cbn [find]. destruct Hin as [-> | Hin].
  - rewrite String.eqb_refl. reflexivity.
  - destruct (String.eqb (date a) (date e)) eqn:E.
    + apply String.eqb_eq in E. exfalso. apply Ha. rewrite E.
      apply in_map. exact Hin.
    + apply IH; assumption.
Qed.

Section SheetFacts.
Variable LocalTZA : Z -> Z.
Variable timesheet : Timesheet.
Variable selectedDate : Date.

(** A cell of the month shows the hours of an entry of the sheet, or
    none. *)
Lemma current_cell_hours c :
  In c (allDays LocalTZA timesheet selectedDate) -> type c = current ->
  (forall st, statHours (hours c) st = 0)
  \/ exists e, In e (byDate timesheet)
               /\ forall st, statHours (hours c) st = entryValue st e.
Proof.
  intros Hin Ht.
  assert (Hc : In c (filter isCurrent
                             (allDays LocalTZA timesheet selectedDate))).
  { apply filter_In. split; [exact Hin |]. unfold isCurrent.
    rewrite Ht. reflexivity. }
  rewrite current_of_allDays, currentMonthDays_cells in Hc.
  apply in_map_iff in Hc. destruct Hc as (i & <- & _).
  cbn [hours dayCell]. rewrite getHoursForDate_find.
  destruct (find _ (byDate timesheet)) as [e |] eqn:Hf.
  - right. exists e. split; [exact (proj1 (find_some _ _ Hf)) |].
    intros st. symmetry. apply entryValue_spec.
  - left. intros st. destruct st; reflexivity.
Qed.

(** An entry dated a day of the displayed month is shown in the cell of
    that day, when no other entry has its date. *)
Lemma entry_cell e n :
  NoDup (map date (byDate timesheet)) -> In e (byDate timesheet) ->
  (1 <= n <= daysInMonth selectedDate)%Z ->
  date e = formatDate (newDate (currentYear selectedDate)
                               (currentMonth selectedDate) n) ->
  exists c, In c (allDays LocalTZA timesheet selectedDate)
            /\ type c = current /\ day c = Some n
            /\ forall st, statHours (hours c) st = entryValue st e.
Proof.
  intros ND Hin Hn He.
  exists (dayCell LocalTZA current n
            (newDate (currentYear selectedDate) (currentMonth selectedDate) n)
            timesheet).
  split; [| split; [reflexivity | split; [reflexivity |]]].
  - unfold allDays. apply in_or_app. right. apply in_or_app. left.
    rewrite currentMonthDays_cells. apply in_map_iff.
    exists (Z.to_nat (n - 1)). split; [| apply in_seq; lia].
    replace (Z.of_nat (Z.to_nat (n - 1)) + 1)%Z with n by lia.
    reflexivity.
  - intros st. cbn [hours dayCell]. rewrite getHoursForDate_find, <- He.
    rewrite (find_by_date _ e ND Hin). symmetry. apply entryValue_spec.
Qed.

End SheetFacts.

(** C9, as the code has it.  A category is offered exactly when the sum
    of its hours over all entries of the sheet's byDate list (a missing
    value counting as 0) is greater than zero.  A cell of the displayed
    month shows the hours of an entry of that list or none, and when the
    entries have distinct dates that are all days of the displayed
    month, each entry is shown in the cell of its day: the sum then runs
    over the hours the grid shows for the month.  Whenever the selected
    category is not among those offered while at least one is offered,
    the first one offered is set as the selection; otherwise the
    selection is left alone. *)
Theorem available_stat_types (timesheet : Timesheet) (selected : StatType) :
  (forall s, statHours (totalHours timesheet) s
             == sumOf (map (entryValue s) (byDate timesheet)))
  /\ (forall s, In s (availableStatTypes timesheet)
                <-> 0 < sumOf (map (entryValue s) (byDate timesheet)))
  /\ (~ In selected (availableStatTypes timesheet) ->
      availableStatTypes timesheet <> [] ->
      exists first rest,
        availableStatTypes timesheet = first :: rest
        /\ substitutedStatType timesheet selected = Some first)
  /\ (In selected (availableStatTypes timesheet)
      \/ availableStatTypes timesheet = [] ->
      substitutedStatType timesheet selected = None)
  /\ (forall LocalTZA selectedDate,
        (forall c, In c (allDays LocalTZA timesheet selectedDate) ->
           type c = current ->
           (forall st, statHours (hours c) st = 0)
           \/ exists e, In e (byDate timesheet)
                        /\ forall st, statHours (hours c) st = entryValue st e)
        /\ (NoDup (map date (byDate timesheet)) ->
            forall e n,
              In e (byDate timesheet) ->
              (1 <= n <= daysInMonth selectedDate)%Z ->
              date e = formatDate (newDate (currentYear selectedDate)
                                           (currentMonth selectedDate) n) ->
              exists c, In c (allDays LocalTZA timesheet selectedDate)
                        /\ type c = current /\ day c = Some n
                        /\ forall st,
                             statHours (hours c) st = entryValue st e)).
Proof.
  split; [intros s; apply totalHours_entries |].
  split; [intros s; rewrite availableStatTypes_In, totalHours_entries;
          reflexivity |].
  split; [| split; [| intros LocalTZA selectedDate; split]].
  - intros Hnot Hne. unfold substitutedStatType.
    destruct (availableStatTypes timesheet) as [| first rest] eqn:E;
      [congruence |].
    exists first, rest. split; [reflexivity |].
    destruct (includes (first :: rest) selected) eqn:I.
    + apply includes_In in I. contradiction.
    + reflexivity.
  - intros [Hin | Hnil]; unfold substitutedStatType.
    + apply includes_In in Hin. now rewrite Hin.
    + rewrite Hnil. reflexivity.
  - apply current_cell_hours.
  - intros ND e n Hin Hn He.
    exact (entry_cell LocalTZA timesheet selectedDate e n ND Hin Hn He).
Qed.

(** ** C10 *)

Lemma dayCellOnClick_spec dayData w st n ty r :
  dayCellOnClick dayData w st = Some (n, ty, r) ->
  type dayData = current /\ 0 < statHours (hours dayData) st
  /\ day dayData = Some n /\ ty = current /\ r = w.
Proof.
  unfold dayCellOnClick. destruct (day dayData) as [m |]; [| discriminate].
  destruct (CellType_eqb (type dayData) current) eqn:Et; [| discriminate].
  destruct (Qltb 0 (statHours (hours dayData) st)) eqn:Eh; [| discriminate].
  cbn [andb]. intros H. inversion H; subst.
  assert (type dayData = current) by (destruct (type dayData); now try discriminate).
  repeat split; trivial. now apply Qltb_lt.
Qed.

Lemma slice_0_7 {A} (l : list A) : slice l 0 7 = firstn 7 l.
Proof. reflexivity. Qed.

Lemma Some_inj {A} (x y : A) : Some x = Some y -> x = y.
Proof. now injection 1. Qed.

Lemma week_slice {A} (wd : list A) tc dayIndex c :
  List.length wd = 7%nat ->
  nth_error (slice (wd ++ [tc]) 0 7) dayIndex = Some c ->
  nth_error wd dayIndex = Some c /\ (dayIndex < 7)%nat.
Proof.
  intros HL Hc. rewrite slice_0_7, firstn_app, HL in Hc.
  rewrite firstn_all2 in Hc by lia.
  change (firstn (7 - 7) [tc]) with (@nil A) in Hc.
  rewrite app_nil_r in Hc. split; [exact Hc |].
  rewrite <- HL. apply nth_error_Some. congruence.
Qed.

Section ClickFacts.
Variable LocalTZA : Z -> Z.
Variable timesheet : Timesheet.

(** The day cells that are rendered are the cells of [allDays]. *)
Lemma rendered_cell sd weekIndex dayIndex week c :
  nth_error (rows LocalTZA timesheet sd) weekIndex = Some week ->
  nth_error (slice week 0 7) dayIndex = Some c ->
  In c (allDays LocalTZA timesheet sd).
Proof.
  intros Hw Hc.
  assert (Hi : (weekIndex < Z.to_nat (weeksNeeded sd))%nat).
  { rewrite <- (rows_length LocalTZA timesheet sd).
    apply nth_error_Some. congruence. }
  pose proof (rows_nth LocalTZA timesheet sd weekIndex Hi) as Hr.
  rewrite Hw in Hr. apply Some_inj in Hr. rewrite Hr in Hc.
  pose proof (week_length LocalTZA timesheet sd weekIndex Hi) as HL.
  destruct (week_slice _ _ _ _ HL Hc) as [Hn Hd].
  rewrite week_nth in Hn by exact Hd.
  eapply nth_error_In. exact Hn.
Qed.

(** C10. A day cell calls the day-click handler only when its type is
    'current' and its hours for the selected statistic are greater than
    zero.  Hence, from the rendered grid, the handler only ever runs its
    branch for the current month: a click on a day cell either does
    nothing or selects a day 1..daysInMonth of the displayed month, and
    the month (and the year) displayed afterwards is the one displayed
    before. *)
Theorem day_click_stays_in_month :
  (forall dayData w st n ty r,
     dayCellOnClick dayData w st = Some (n, ty, r) ->
     type dayData = current /\ 0 < statHours (hours dayData) st
     /\ ty = current)
  /\ (forall s0 weekIndex dayIndex s1,
        clickDayCell LocalTZA timesheet weekIndex dayIndex s0 = Some s1 ->
        getMonth (selectedDate s1) = getMonth (selectedDate s0)
        /\ (getFullYear (selectedDate s1) = getFullYear (selectedDate s0)
            \/ getFullYear (selectedDate s1)
               = fullYear (getFullYear (selectedDate s0)))
        /\ (s1 = s0
            \/ exists n,
                 (1 <= n <= daysInMonth (selectedDate s0))%Z
                 /\ s1 = handleDayClick n current (Z.of_nat weekIndex) s0
                 /\ selectedDate s1
                    = newDate (getFullYear (selectedDate s0))
                              (getMonth (selectedDate s0)) n
                 /\ getDate (selectedDate s1) = n)).
Proof.
  split.
  - intros dayData w st n ty r H.
    destruct (dayCellOnClick_spec _ _ _ _ _ _ H) as (Ht & Hh & _ & Hty & _).
    auto.
  - intros s0 weekIndex dayIndex s1 H. unfold clickDayCell in H.
    destruct (nth_error (rows LocalTZA timesheet (selectedDate s0)) weekIndex)
      as [week |] eqn:Hw; [| discriminate].
    destruct (nth_error (slice week 0 7) dayIndex) as [c |] eqn:Hc;
      [| discriminate].
    destruct (dayCellOnClick c (Z.of_nat weekIndex) (selectedStatType s0))
      as [[[n ty] r] |] eqn:Hk.
    + destruct (dayCellOnClick_spec _ _ _ _ _ _ Hk) as (Ht & _ & Hd & -> & ->).
      pose proof (rendered_cell _ _ _ _ _ Hw Hc) as Hin.
      destruct (current_cell_day LocalTZA timesheet (selectedDate s0) c Hin Ht)
        as (m & Hm & Hdm).
      rewrite Hd in Hdm. apply Some_inj in Hdm. subst m.
      apply Some_inj in H. subst s1.
      destruct (current_cell_fields (selectedDate s0) (n - 1) ltac:(lia))
        as (FY & FM & FD).
      replace (n - 1 + 1)%Z with n in FY, FM, FD by lia.
      cbn [handleDayClick selectedDate setSelectedDate setSelectedDay
           setSelectedRow setSelectedColumn setIsAllSelected].
      split; [exact FM |]. split; [right; exact FY |].
      right. exists n.
      split; [exact Hm |]. split; [reflexivity |]. split; [reflexivity |].
      exact FD.
    + apply Some_inj in H. subst s1.
      split; [reflexivity |]. split; left; reflexivity.
Qed.

End ClickFacts.

(** ** C3 *)

Lemma find_first {A} (p : A -> bool) l x :
  find p l = Some x ->
  exists l1 l2, l = l1 ++ x :: l2 /\ p x = true
                /\ (forall y, In y l1 -> p y = false).
Proof.
  induction l as [| a l IH]; cbn; [discriminate |].
  destruct (p a) eqn:E.
  - intros H. inversion H; subst a. exists [], l. repeat split; trivial.
    intros y [].
  - intros H. destruct (IH H) as (l1 & l2 & -> & Hx & Hl).
    exists (a :: l1), l2. repeat split; trivial.
    intros y [<- | Hy]; auto.
Qed.

Lemma find_exists {A} (p : A -> bool) l y :
  In y l -> p y = true -> exists x, find p l = Some x.
Proof.
  intros Hin Hp. destruct (find p l) as [x |] eqn:E; [eauto |].
  pose proof (find_none p l E y Hin). congruence.
Qed.

Lemma Day_shifted m r :
  (0 <= r < msPerDay -> Day (m * msPerDay + msPerDay + r) = m + 1)%Z
  /\ (- msPerDay <= r < 0 -> Day (m * msPerDay + msPerDay + r) = m)%Z.
Proof.
  unfold Day, msPerDay. split; intros H; Z.div_mod_to_equations; lia.
Qed.

Section HolidayFacts.
Variable LocalTZA : Z -> Z.
Variable timesheet : Timesheet.
Local Open Scope Z_scope.

Lemma holidayDate_Day h :
  let utc := parseDateOnly (hdate h) + msPerDay in
  let m := MakeDay (iso_year (hdate h)) (iso_month (hdate h) - 1)
                   (iso_day (hdate h)) in
  (0 <= LocalTZA utc < msPerDay -> Day (holidayDate LocalTZA h) = m + 1)
  /\ (- msPerDay <= LocalTZA utc < 0 -> Day (holidayDate LocalTZA h) = m).
Proof.
  intros utc m. unfold holidayDate.
  change (24 * 60 * 60 * 1000) with msPerDay. fold utc.
  unfold utc at 1 3, parseDateOnly. fold m. apply Day_shifted.
Qed.

Lemma findHoliday_stored d :
  findHoliday LocalTZA timesheet d
  = find (fun h => String.eqb (formatDate (holidayDate LocalTZA h))
                              (formatDate d))
         (storedHolidays timesheet).
Proof.
  unfold findHoliday, storedHolidays.
  destruct (holidays timesheet); reflexivity.
Qed.

(** The local calendar date of the instant a stored holiday is moved to,
    for a date that names a day of the calendar. *)
Lemma holiday_local_date h :
  validIso (hdate h) ->
  civilAfter (hdate h) 0
  = (iso_year (hdate h), iso_month (hdate h), iso_day (hdate h))
  /\ (0 <= LocalTZA (parseDateOnly (hdate h) + msPerDay) < msPerDay ->
      civil (holidayDate LocalTZA h) = civilAfter (hdate h) 1)
  /\ (- msPerDay <= LocalTZA (parseDateOnly (hdate h) + msPerDay) < 0 ->
      civil (holidayDate LocalTZA h) = civilAfter (hdate h) 0).
Proof.
  intros [Hm Hd].
  destruct (holidayDate_Day h) as [Hpos Hneg].
  split; [| split].
  - unfold civilAfter. rewrite Z.add_0_r.
    destruct (MakeDay_fields (iso_year (hdate h)) (iso_month (hdate h) - 1)
                (iso_day (hdate h)) ltac:(lia) Hd) as (-> & -> & ->).
    f_equal. f_equal. lia.
  - intros Hz. unfold civil, getFullYear, getMonth, getDate, civilAfter.
    now rewrite (Hpos Hz).
  - intros Hz. unfold civil, getFullYear, getMonth, getDate, civilAfter.
    rewrite (Hneg Hz). now rewrite Z.add_0_r.
Qed.

(** What a cell built for a date shows of the holidays. *)
Lemma dayCell_holiday ty n d :
  let marks h := civil (holidayDate LocalTZA h) = civil d in
  let c := dayCell LocalTZA ty n d timesheet in
  (isHoliday c = Some true
   <-> exists h, In h (storedHolidays timesheet) /\ marks h)
  /\ (isHoliday c = Some true \/ isHoliday c = Some false)
  /\ (isHoliday c = Some true ->
      exists h l1 l2,
        storedHolidays timesheet = l1 ++ h :: l2 /\ marks h
        /\ (forall x, In x l1 -> ~ marks x)
        /\ holidayReason c = reason h)
  /\ (isHoliday c = Some false -> holidayReason c = None).
Proof.
  intros marks c.
  assert (Ei : isHoliday c = Some (truthy (findHoliday LocalTZA timesheet d)))
    by reflexivity.
  assert (Er : holidayReason c = reasonOf (findHoliday LocalTZA timesheet d))
    by reflexivity.
  rewrite Ei, Er. clear Ei Er. rewrite findHoliday_stored.
  set (p := fun h => String.eqb (formatDate (holidayDate LocalTZA h))
                                (formatDate d)).
  assert (Hp : forall h, p h = true <-> marks h).
  { intros h. unfold p, marks. rewrite String.eqb_eq. split.
    - apply formatDate_civil.
    - apply formatDate_civil. }
  destruct (find p (storedHolidays timesheet)) as [h |] eqn:Hf.
  - destruct (find_first _ _ _ Hf) as (l1 & l2 & E & Hh & Hl).
    cbn [truthy reasonOf]. split; [| split; [| split]].
    + split; [intros _ | reflexivity].
      exists h. split; [| apply Hp; exact Hh].
      rewrite E. apply in_or_app. right. left. reflexivity.
    + left. reflexivity.
    + intros _. exists h, l1, l2. split; [exact E |].
      split; [apply Hp; exact Hh |]. split; [| reflexivity].
      intros x Hx Hm. apply Hp in Hm. rewrite (Hl x Hx) in Hm.
      discriminate Hm.
    + discriminate.
  - cbn [truthy reasonOf]. split; [| split; [| split]].
    + split; [discriminate |]. intros (h & Hin & Hm). apply Hp in Hm.
      rewrite (find_none p _ Hf h Hin) in Hm. discriminate Hm.
    + right. reflexivity.
    + discriminate.
    + reflexivity.
Qed.

(** C3, as the code has it.  Cell [k] of the grid shows the calendar day
    [k] days after the Sunday on or before the first of the displayed
    month.  A stored holiday (a date that names a day of the calendar) is
    parsed as midnight UTC of its date D, moved on by 24 hours and read
    in local time; the cell it marks is the one whose calendar date is
    the local calendar date of that instant: the day after D where the
    host's zone is at or ahead of UTC (offset from 0 up to 24 hours),
    and D itself where the zone is behind UTC.  A marked cell carries the
    reason of the first stored holiday that matches it, and a cell is
    marked only if a stored holiday matches it in this way. *)
Theorem holiday_marking (selectedDate : Date) (k : nat) (c : DayData) :
  Forall (fun h => validIso (hdate h)) (storedHolidays timesheet) ->
  nth_error (allDays LocalTZA timesheet selectedDate) k = Some c ->
  let cellDate :=
    civilOfDay (firstOfMonth selectedDate
                - sundayBased (firstOfMonth selectedDate) + Z.of_nat k) in
  let marks h := civil (holidayDate LocalTZA h) = cellDate in
  (isHoliday c = Some true
   <-> exists h, In h (storedHolidays timesheet) /\ marks h)
  /\ (isHoliday c = Some true \/ isHoliday c = Some false)
  /\ (isHoliday c = Some true ->
      exists h l1 l2,
        storedHolidays timesheet = l1 ++ h :: l2 /\ marks h
        /\ (forall x, In x l1 -> ~ marks x)
        /\ holidayReason c = reason h)
  /\ (isHoliday c = Some false -> holidayReason c = None)
  /\ (forall h, In h (storedHolidays timesheet) ->
        civilAfter (hdate h) 0
        = (iso_year (hdate h), iso_month (hdate h), iso_day (hdate h))
        /\ (0 <= LocalTZA (parseDateOnly (hdate h) + msPerDay) < msPerDay ->
            civil (holidayDate LocalTZA h) = civilAfter (hdate h) 1)
        /\ (- msPerDay <= LocalTZA (parseDateOnly (hdate h) + msPerDay) < 0 ->
            civil (holidayDate LocalTZA h) = civilAfter (hdate h) 0)).
Proof.
  intros HV Hk cellDate marks.
  assert (Hlt : Z.of_nat k < 7 * weeksNeeded selectedDate).
  { rewrite <- (allDays_length LocalTZA timesheet selectedDate).
    apply Nat2Z.inj_lt. apply nth_error_Some. rewrite Hk. discriminate. }
  pose proof (allDays_nth LocalTZA timesheet selectedDate k Hlt) as Hn.
  cbv zeta in Hn. rewrite Hk in Hn. apply Some_inj in Hn.
  rewrite (startingDayOfWeek_first selectedDate) in Hn.
  assert (Ec : cellDate
               = civil ((firstOfMonth selectedDate
                         - sundayBased (firstOfMonth selectedDate)
                         + Z.of_nat k) * msPerDay)).
  { unfold cellDate, civilOfDay, civil, getFullYear, getMonth, getDate.
    rewrite Day_midnight. reflexivity. }
  unfold marks. rewrite Ec, Hn.
  split; [apply dayCell_holiday |].
  split; [apply dayCell_holiday |].
  split; [apply dayCell_holiday |].
  split; [apply dayCell_holiday |].
  intros h Hin. apply holiday_local_date.
  exact (proj1 (Forall_forall _ _) HV h Hin).
Qed.

End HolidayFacts.

(** ** The statements at sample data *)

(** March 2024 begins on a Friday and has 31 days: six weeks. *)
Example march_grid :
  startingDayOfWeek march2024 = 5%Z /\ daysInMonth march2024 = 31%Z
  /\ weeksNeeded march2024 = 6%Z
  /\ map day (allDays zoneUTC marchSheet march2024)
     = map Some (range 25 5 ++ range 1 31 ++ range 1 6).
Proof. repeat split; vm_compute; reflexivity. Qed.

(** The example of the specification: one entry of eight consulting
    hours on 2024-03-15 gives the cell of day 15 these hours and every
    other day of the month none. *)
Example march_hours :
  map (fun c => (day c, hours c))
      (filter (fun c => Qltb 0 (consulting (hours c)))
              (allDays zoneUTC marchSheet march2024))
  = [(Some 15%Z,
      {| consulting := 8; handsOn := 0; squad := 0; internal := 0 |})].
Proof. vm_compute. reflexivity. Qed.

(** March 2024: the first is a Friday, so five days of February lead
    the grid; 31 days; six weeks; the fifteenth is the sixth cell of the
    third week.  February 2015 begins on a Sunday and fills four weeks. *)
Lemma grid_shape_witness :
  (startingDayOfWeek march2024 = 5
   /\ daysInMonth march2024 = 31 /\ weeksNeeded march2024 = 6)%Z
  /\ (exists c,
        nth_error (allDays zoneUTC marchSheet march2024) 19 = Some c
        /\ day c = Some 15%Z /\ type c = current)
  /\ (startingDayOfWeek (newDate 2015 1 10) = 0
      /\ daysInMonth (newDate 2015 1 10) = 28
      /\ weeksNeeded (newDate 2015 1 10) = 4)%Z.
Proof.
  assert (F : firstOfMonth march2024 = 19783%Z) by (vm_compute; reflexivity).
  assert (M : monthLength (fullYear (currentYear march2024))
                          (currentMonth march2024) = 31%Z)
    by (vm_compute; reflexivity).
  assert (F' : firstOfMonth (newDate 2015 1 10) = 16467%Z)
    by (vm_compute; reflexivity).
  assert (M' : monthLength (fullYear (currentYear (newDate 2015 1 10)))
                           (currentMonth (newDate 2015 1 10)) = 28%Z)
    by (vm_compute; reflexivity).
  pose proof (grid_shape zoneUTC marchSheet march2024) as G.
  pose proof (grid_shape zoneUTC marchSheet (newDate 2015 1 10)) as G'.
  cbv zeta in G, G'.
  destruct G as ((S1 & _ & S3 & _) & (_ & W) & _ & C & _).
  destruct G' as ((S1' & _ & S3' & _) & (_ & W') & _).
  rewrite F in S1. rewrite M in S3.
  rewrite F' in S1'. rewrite M' in S3'.
  change (sundayBased 19783) with 5%Z in S1.
  change (sundayBased 16467) with 0%Z in S1'.
  rewrite S1, S3 in W. rewrite S1', S3' in W'.
  assert (W6 : weeksNeeded march2024 = 6%Z) by lia.
  assert (W4 : weeksNeeded (newDate 2015 1 10) = 4%Z) by lia.
  split; [split; [exact S1 | split; [exact S3 | exact W6]] |].
  split; [| split; [exact S1' | split; [exact S3' | exact W4]]].
  destruct (C 19%nat ltac:(rewrite W6; lia)) as (c & Hn & Hd & _ & _ & Hc & _).
  rewrite F, S1, S3 in Hc. rewrite F, S1 in Hd.
  change (DateFromDay (19783 - 5 + Z.of_nat 19)) with 15%Z in Hd.
  exists c. split; [exact Hn |]. split; [exact Hd |].
  apply Hc. cbn. lia.
Defined.

Example week_and_grand_totals_exact_example :
  (2 < Z.to_nat (weeksNeeded march2024))%nat
  /\ exists weekDays T,
       nth_error (rows zoneUTC marchSheet march2024) 2
       = Some (weekDays ++ [totalCell T])
       /\ List.length weekDays = 7%nat
       /\ Heq T (sumHours (map hours (filter isCurrent weekDays))).
Proof.
  assert (H : (2 < Z.to_nat (weeksNeeded march2024))%nat)
    by (apply Nat.ltb_lt; vm_compute; reflexivity).
  split; [exact H |].
  destruct (proj1 (week_and_grand_totals_exact zoneUTC marchSheet march2024) 2%nat H)
    as (wd & T & Hn & _ & HL & _ & HT).
  exists wd, T. split; [exact Hn |]. split; [exact HL | exact HT].
Qed.

(** The holiday stored as 2024-03-15, in the grid of March 2024: at UTC
    it marks the cell of 16 March (cell 20), with its reason; three hours
    behind UTC it marks the cell of 15 March (cell 19). *)
Lemma holiday_marking_witness :
  Forall (fun h => validIso (hdate h)) (storedHolidays holidaySheet)
  /\ (exists c,
        nth_error (allDays zoneUTC holidaySheet march2024) 20 = Some c
        /\ day c = Some 16%Z /\ isHoliday c = Some true
        /\ holidayReason c = Some "Holiday"%string)
  /\ (exists c,
        nth_error (allDays zoneBRT holidaySheet march2024) 19 = Some c
        /\ day c = Some 15%Z /\ isHoliday c = Some true)
  /\ civil (holidayDate zoneUTC holiday15) = (2024, 3, 16)%Z
  /\ civil (holidayDate zoneBRT holiday15) = (2024, 3, 15)%Z.
Proof.
  assert (V : Forall (fun h => validIso (hdate h))
                     (storedHolidays holidaySheet)).
  { constructor; [| constructor].
    repeat split; apply Z.leb_le; vm_compute; reflexivity. }
  assert (In15 : In holiday15 (storedHolidays holidaySheet))
    by (left; reflexivity).
  assert (CU : civil (holidayDate zoneUTC holiday15) = (2024, 3, 16)%Z)
    by (vm_compute; reflexivity).
  assert (CB : civil (holidayDate zoneBRT holiday15) = (2024, 3, 15)%Z)
    by (vm_compute; reflexivity).
  split; [exact V |].
  split; [| split; [| split; [exact CU | exact CB]]].
  - let v := eval vm_compute in
      (nth_error (allDays zoneUTC holidaySheet march2024) 20) in
    match v with
    | Some ?c =>
        assert (E : nth_error (allDays zoneUTC holidaySheet march2024) 20
                    = Some c) by (vm_compute; reflexivity);
        pose proof (holiday_marking zoneUTC holidaySheet march2024 20 c V E)
          as (M1 & _ & M3 & _);
        assert (T : isHoliday c = Some true)
          by (apply M1; exists holiday15; split; [exact In15 |];
              rewrite CU; vm_compute; reflexivity);
        exists c; split; [exact E |]; split; [reflexivity |];
        split; [exact T |];
        destruct (M3 T) as (h & l1 & l2 & El & _ & _ & Er);
        rewrite Er;
        destruct l1 as [| x l1];
          [change ([holiday15] = h :: l2) in El;
           injection El as E1 _; rewrite <- E1; reflexivity
          | destruct l1; discriminate El]
    end.
  - let v := eval vm_compute in
      (nth_error (allDays zoneBRT holidaySheet march2024) 19) in
    match v with
    | Some ?c =>
        assert (E : nth_error (allDays zoneBRT holidaySheet march2024) 19
                    = Some c) by (vm_compute; reflexivity);
        pose proof (holiday_marking zoneBRT holidaySheet march2024 19 c V E)
          as (M1 & _);
        exists c; split; [exact E |]; split; [reflexivity |];
        apply M1; exists holiday15; split; [exact In15 |];
        rewrite CB; vm_compute; reflexivity
    end.
Defined.

(** The claim fails on a host behind UTC.  Three hours behind, a holiday
    stored as 2024-03-15 marks the cell of 15 March in the grid of March
    2024 and leaves the cell of 16 March, the day after, unmarked. *)
Lemma holiday_shift_counterexample :
  storedHolidays holidaySheet = [holiday15]
  /\ civilAfter (hdate holiday15) 1 = (2024, 3, 16)%Z
  /\ option_map (fun c => (type c, day c, isHoliday c))
                (nth_error (allDays zoneBRT holidaySheet march2024) 20)
     = Some (current, Some 16%Z, Some false)
  /\ option_map (fun c => (type c, day c, isHoliday c))
                (nth_error (allDays zoneBRT holidaySheet march2024) 19)
     = Some (current, Some 15%Z, Some true)
  /\ civilOfDay (firstOfMonth march2024 - sundayBased (firstOfMonth march2024)
                 + 20) = (2024, 3, 16)%Z.
Proof.
  split; [reflexivity |]. split; [vm_compute; reflexivity |].
  split; [vm_compute; reflexivity |]. split; [vm_compute; reflexivity |].
  vm_compute; reflexivity.
Qed.

(** The sheet of the example: eight consulting hours on 2024-03-15.
    Consulting is the one category offered; a selection of hands-on is
    replaced by it; the entry is shown in the cell of the fifteenth. *)
Lemma available_stat_types_witness :
  sumOf (map (entryValue Consulting) (byDate marchSheet)) == 8
  /\ In Consulting (availableStatTypes marchSheet)
  /\ ~ In HandsOn (availableStatTypes marchSheet)
  /\ substitutedStatType marchSheet HandsOn = Some Consulting
  /\ NoDup (map date (byDate marchSheet))
  /\ (exists c, In c (allDays zoneUTC marchSheet march2024)
                /\ type c = current /\ day c = Some 15%Z
                /\ statHours (hours c) Consulting = 8).
Proof.
  assert (H0 : sumOf (map (entryValue Consulting) (byDate marchSheet)) == 8)
    by reflexivity.
  assert (H1 : ~ In HandsOn (availableStatTypes marchSheet))
    by (intros H; vm_compute in H; destruct H as [H | []]; discriminate H).
  assert (H2 : availableStatTypes marchSheet <> [])
    by (intros H; vm_compute in H; discriminate H).
  assert (H3 : NoDup (map date (byDate marchSheet)))
    by (repeat constructor; intros []).
  destruct (available_stat_types marchSheet HandsOn)
    as (_ & P2 & P3 & _ & P5).
  destruct (P5 zoneUTC march2024) as [_ P6].
  split; [exact H0 |].
  split; [apply P2; rewrite H0; reflexivity |].
  split; [exact H1 |].
  split.
  { destruct (P3 H1 H2) as (first & rest & E & Sub). rewrite Sub.
    vm_compute in E. injection E as <- _. reflexivity. }
  split; [exact H3 |].
  destruct (P6 H3 (entry "2024-03-15" 8) 15%Z) as (c & C1 & C2 & C3 & C4).
  - left. reflexivity.
  - split; apply Z.leb_le; vm_compute; reflexivity.
  - vm_compute. reflexivity.
  - exists c. split; [exact C1 |]. split; [exact C2 |].
    split; [exact C3 |]. rewrite (C4 Consulting). reflexivity.
Defined.

(** The claim fails for hours outside the displayed month: a sheet whose
    only hours fall on 2024-04-10 offers the consulting category while
    March 2024 is displayed, and the grid's monthly total of consulting
    hours is zero. *)
Lemma available_outside_month_counterexample :
  In Consulting (availableStatTypes aprilSheet)
  /\ exists cts grand,
       columnTotals zoneUTC aprilSheet march2024 = Some cts
       /\ nth_error cts 7 = Some grand
       /\ statHours grand Consulting == 0.
Proof.
  split; [vm_compute; auto |].
  eexists. eexists. split; [vm_compute; reflexivity |].
  split; [reflexivity | reflexivity].
Qed.

Lemma day_click_stays_in_month_witness :
  exists s1,
    clickDayCell zoneUTC marchSheet 2 5 marchState = Some s1
    /\ selectedDay s1 = Some 15%Z
    /\ getMonth (selectedDate s1) = getMonth (selectedDate marchState).
Proof.
  let v := eval vm_compute in (clickDayCell zoneUTC marchSheet 2 5 marchState) in
  assert (E : clickDayCell zoneUTC marchSheet 2 5 marchState = v)
    by (vm_compute; reflexivity).
  match type of E with
  | _ = Some ?s =>
      exists s; split; [exact E |]; split; [reflexivity |];
      exact (proj1 (proj2 (day_click_stays_in_month zoneUTC marchSheet)
                      marchState 2%nat 5%nat s E))
  end.
Defined.

End CalendarSpec.

(* ================================================================= *)
(** * The totals of the grid over doubles *)

Module CalendarDSpec.
Import JS JSFacts AllocationCalendar CalendarSpec CalendarD PrimFloat.

Lemma statHoursD_add a b st :
  statHours (addHours a b) st
  = PrimFloat.add (statHours a st) (statHours b st).
Proof. destruct st; reflexivity. Qed.

Lemma sumD_hours (hs : list Hours) acc st :
  statHours (fold_left addHours hs acc) st
  = fold_left PrimFloat.add (map (fun h => statHours h st) hs)
              (statHours acc st).
Proof.
  revert acc. induction hs as [| h hs IH]; intros acc; [reflexivity |].
  cbn [fold_left map]. rewrite IH, statHoursD_add. reflexivity.
Qed.

(** What the accumulation over a week computes: the hours of the cells
    of the month, added in the order of the week, and no others. *)
Lemma weekTotalD_fold (l : list DayData) acc :
  fold_left
    (fun weekTotal c =>
       if CellType_eqb (type c) current
       then addHours weekTotal (hours c) else weekTotal) l acc
  = fold_left addHours (map hours (filter isCurrent l)) acc.
Proof.
  revert acc. induction l as [| c l IH]; intros acc; [reflexivity |].
  cbn [fold_left filter]. rewrite IH. unfold isCurrent at 2.
  destruct (CellType_eqb (type c) current); reflexivity.
Qed.

Lemma weekTotalOfD_sum (l : list DayData) st :
  statHours (weekTotalOf l) st
  = Double.sum (map (fun c => statHours (hours c) st) (filter isCurrent l)).
Proof.
  unfold weekTotalOf, Double.sum.
  rewrite weekTotalD_fold, sumD_hours, map_map.
  destruct st; reflexivity.
Qed.

(** *** Column totals *)

Lemma addAtD_spec i h (cts : list Hours) :
  (i < List.length cts)%nat ->
  exists cts',
    addAt i h cts = Some cts'
    /\ List.length cts' = List.length cts
    /\ nth_error cts' i = option_map (fun c => addHours c h) (nth_error cts i)
    /\ (forall j, j <> i -> nth_error cts' j = nth_error cts j).
Proof.
  revert i. induction cts as [| c cts IH]; intros i Hi; cbn in Hi; [lia |].
  destruct i as [| i].
  - eexists. split; [reflexivity |]. repeat split.
    intros [| j] Hj; [congruence | reflexivity].
  - destruct (IH i ltac:(lia)) as (cts' & E & L & N & F).
    exists (c :: cts'). cbn [addAt]. rewrite E. split; [reflexivity |].
    split; [cbn; congruence |]. split; [exact N |].
    intros [| j] Hj; [reflexivity |]. cbn. apply F. congruence.
Qed.

Lemma addWeekD_app i (l1 l2 : list DayData) cts :
  addWeek i (l1 ++ l2) cts
  = match addWeek i l1 cts with
    | Some cts' => addWeek (i + List.length l1) l2 cts'
    | None => None
    end.
Proof.
  revert i cts. induction l1 as [| c l1 IH]; intros i cts.
  - cbn. now rewrite Nat.add_0_r.
  - cbn [app addWeek List.length].
    destruct (if CellType_eqb (type c) current || CellType_eqb (type c) total
              then addAt i (hours c) cts else Some cts) as [cts' |]; trivial.
    rewrite IH. now rewrite Nat.add_succ_r.
Qed.

Lemma addWeekD_frame i (l : list DayData) cts :
  (i + List.length l <= List.length cts)%nat ->
  exists cts',
    addWeek i l cts = Some cts'
    /\ List.length cts' = List.length cts
    /\ (forall j, (i + List.length l <= j)%nat ->
                  nth_error cts' j = nth_error cts j).
Proof.
  revert i cts. induction l as [| c l IH]; intros i cts Hl.
  - exists cts. repeat split.
  - cbn [List.length] in Hl. cbn [addWeek].
    destruct (CellType_eqb (type c) current || CellType_eqb (type c) total).
    + destruct (addAtD_spec i (hours c) cts ltac:(lia)) as (c1 & E & L & _ & F).
      rewrite E.
      destruct (IH (S i) c1 ltac:(lia)) as (c2 & E2 & L2 & F2).
      exists c2. split; [exact E2 |]. split; [congruence |].
      intros j Hj. cbn [List.length] in Hj.
      rewrite F2 by lia. apply F. lia.
    + destruct (IH (S i) cts ltac:(lia)) as (c2 & E2 & L2 & F2).
      exists c2. split; [exact E2 |]. split; [exact L2 |].
      intros j Hj. cbn [List.length] in Hj. apply F2. lia.
Qed.

(** A row of seven day cells and the cell of their total adds the total
    to the eighth column. *)
Lemma addWeekD_row (wd : list DayData) T cts c7 :
  List.length wd = 7%nat -> List.length cts = 8%nat ->
  nth_error cts 7 = Some c7 ->
  exists cts',
    addWeek 0 (wd ++ [totalCell T]) cts = Some cts'
    /\ List.length cts' = 8%nat
    /\ nth_error cts' 7 = Some (addHours c7 T).
Proof.
  intros Hw Hc H7. rewrite addWeekD_app.
  destruct (addWeekD_frame 0 wd cts ltac:(lia)) as (c1 & E & L & F).
  rewrite E, Hw. cbn [addWeek Nat.add totalCell type CellType_eqb orb hours].
  destruct (addAtD_spec 7 T c1 ltac:(lia)) as (c2 & E2 & L2 & N & _).
  rewrite E2. exists c2. split; [reflexivity |]. split; [congruence |].
  rewrite N, F by lia. now rewrite H7.
Qed.

(** The loop over the rows: the totals of the weeks are added to the
    eighth column one after the other. *)
Lemma columnTotalsD_fold (wds : list (list DayData)) cts c7 :
  Forall (fun wd => List.length wd = 7%nat) wds ->
  List.length cts = 8%nat -> nth_error cts 7 = Some c7 ->
  exists cts',
    fold_left
      (fun acc week =>
         match acc with
         | Some cts => addWeek 0 week cts
         | None => None
         end)
      (map (fun wd => wd ++ [totalCell (weekTotalOf wd)]) wds)
      (Some cts)
    = Some cts'
    /\ List.length cts' = 8%nat
    /\ nth_error cts' 7
       = Some (fold_left addHours (map weekTotalOf wds) c7).
Proof.
  intros HF. revert cts c7.
  induction HF as [| wd wds Hwd _ IH]; intros cts c7 Hc H7.
  - exists cts. split; [reflexivity | split; [exact Hc | exact H7]].
  - cbn [map fold_left].
    destruct (addWeekD_row wd (weekTotalOf wd) cts c7 Hwd Hc H7)
      as (c1 & E & L & N).
    rewrite E. exact (IH c1 _ L N).
Qed.

(** A week adds to the column of each of its cells the hours of the
    cell, when the cell is of the month or a total, and leaves the other
    columns alone. *)
Lemma addWeekD_cols (l : list DayData) : forall i cts,
  (i + List.length l <= List.length cts)%nat ->
  exists cts',
    addWeek i l cts = Some cts'
    /\ List.length cts' = List.length cts
    /\ (forall j, (j < i)%nat -> nth_error cts' j = nth_error cts j)
    /\ (forall j c h,
          nth_error l j = Some c -> nth_error cts (i + j) = Some h ->
          nth_error cts' (i + j)
          = Some (if CellType_eqb (type c) current
                     || CellType_eqb (type c) total
                  then addHours h (hours c) else h)).
Proof.
  induction l as [| c l IH]; intros i cts HL.
  - exists cts. split; [reflexivity |]. split; [reflexivity |].
    split; [reflexivity |]. intros [| j] c h Hj; discriminate.
  - cbn [List.length] in HL.
    assert (Hstep : exists cts1,
               (if CellType_eqb (type c) current || CellType_eqb (type c) total
                then addAt i (hours c) cts else Some cts) = Some cts1
               /\ List.length cts1 = List.length cts
               /\ (forall j, j <> i -> nth_error cts1 j = nth_error cts j)
               /\ (forall h, nth_error cts i = Some h ->
                     nth_error cts1 i
                     = Some (if CellType_eqb (type c) current
                                || CellType_eqb (type c) total
                             then addHours h (hours c) else h))).
    { destruct (CellType_eqb (type c) current || CellType_eqb (type c) total).
      - destruct (addAtD_spec i (hours c) cts ltac:(lia))
          as (cts1 & A1 & A2 & A3 & A4).
        exists cts1. split; [exact A1 |]. split; [exact A2 |].
        split; [exact A4 |]. intros h Hh. rewrite A3, Hh. reflexivity.
      - exists cts. split; [reflexivity |]. split; [reflexivity |].
        split; [reflexivity |]. intros h Hh. exact Hh. }
    destruct Hstep as (cts1 & S1 & S2 & S3 & S4).
    destruct (IH (S i) cts1 ltac:(lia)) as (cts' & I1 & I2 & I3 & I4).
    exists cts'. split; [cbn [addWeek]; rewrite S1; exact I1 |].
    split; [lia |]. split.
    + intros j Hj. rewrite I3 by lia. apply S3. lia.
    + intros [| j] c0 h Hc0 Hh.
      * cbn [nth_error] in Hc0. injection Hc0 as <-.
        rewrite Nat.add_0_r in *. rewrite I3 by lia. apply S4. exact Hh.
      * cbn [nth_error] in Hc0.
        replace (i + S j)%nat with (S i + j)%nat in * by lia.
        apply (I4 j c0 h Hc0). rewrite S3 by lia. exact Hh.
Qed.

(** The loop over the rows, column by column. *)
Lemma columnsD_fold (rs : list (list DayData)) : forall cts,
  Forall (fun r => List.length r = 8%nat) rs ->
  List.length cts = 8%nat ->
  exists cts',
    fold_left
      (fun acc week =>
         match acc with
         | Some cts => addWeek 0 week cts
         | None => None
         end)
      rs (Some cts)
    = Some cts'
    /\ List.length cts' = 8%nat
    /\ forall j h,
         nth_error cts j = Some h ->
         nth_error cts' j
         = Some (fold_left
                   (fun h c =>
                      if CellType_eqb (type c) current
                         || CellType_eqb (type c) total
                      then addHours h (hours c) else h)
                   (map (fun r => nth j r (totalCell noHours)) rs) h).
Proof.
  induction rs as [| r rs IH]; intros cts HF HL.
  - exists cts. split; [reflexivity |]. split; [exact HL |].
    intros j h Hh. exact Hh.
  - pose proof (Forall_inv HF) as Hr. pose proof (Forall_inv_tail HF) as HF'.
    cbn beta in Hr.
    destruct (addWeekD_cols r 0 cts ltac:(rewrite Hr, HL; apply Nat.le_refl))
      as (cts1 & A1 & A2 & _ & A4).
    destruct (IH cts1 HF' ltac:(lia)) as (cts' & I1 & I2 & I3).
    exists cts'. split; [cbn [fold_left]; rewrite A1; exact I1 |].
    split; [exact I2 |].
    intros j h Hh.
    assert (Hj : (j < 8)%nat)
      by (rewrite <- HL; apply nth_error_Some; rewrite Hh; discriminate).
    destruct (nth_error r j) as [c |] eqn:Hc;
      [| apply nth_error_None in Hc; lia].
    pose proof (A4 j c h Hc Hh) as H1. cbn [Nat.add] in H1.
    rewrite (I3 j _ H1). cbn [map fold_left].
    rewrite (nth_error_nth _ _ _ Hc). reflexivity.
Qed.

(** Down a column of day cells only the cells of the month count. *)
Lemma column_currentD (cs : list DayData) h :
  Forall (fun c => type c <> total) cs ->
  fold_left
    (fun h c =>
       if CellType_eqb (type c) current || CellType_eqb (type c) total
       then addHours h (hours c) else h) cs h
  = fold_left addHours (map hours (filter isCurrent cs)) h.
Proof.
  intros HF. revert h. induction HF as [| c cs Hc _ IH]; intros h;
    [reflexivity |].
  cbn [fold_left filter]. rewrite IH. unfold isCurrent at 2.
  destruct (type c); try (exfalso; apply Hc; reflexivity); reflexivity.
Qed.

Section GridFactsD.
Variable LocalTZA : Z -> Z.
Variable timesheet : Timesheet.
Variable selectedDate : Date.
Local Open Scope Z_scope.

Lemma previousMonthDaysD_length :
  List.length (previousMonthDays LocalTZA timesheet selectedDate)
  = Z.to_nat (startingDayOfWeek selectedDate).
Proof.
  unfold previousMonthDays. now rewrite length_rev, Array_from_length.
Qed.

Lemma currentMonthDaysD_length :
  List.length (currentMonthDays LocalTZA timesheet selectedDate)
  = Z.to_nat (daysInMonth selectedDate).
Proof. unfold currentMonthDays. now rewrite Array_from_length. Qed.

Lemma remainingDaysD_eq :
  remainingDays LocalTZA timesheet selectedDate
  = 7 * weeksNeeded selectedDate
    - (startingDayOfWeek selectedDate + daysInMonth selectedDate).
Proof.
  pose proof (startingDayOfWeek_range selectedDate).
  pose proof (daysInMonth_bounds selectedDate).
  unfold remainingDays, totalCells.
  rewrite previousMonthDaysD_length, currentMonthDaysD_length.
  rewrite !Z2Nat.id by lia. lia.
Qed.

Lemma allDaysD_length :
  Z.of_nat (List.length (allDays LocalTZA timesheet selectedDate))
  = 7 * weeksNeeded selectedDate.
Proof.
  pose proof (startingDayOfWeek_range selectedDate).
  pose proof (daysInMonth_bounds selectedDate).
  pose proof (weeksNeeded_ceil LocalTZA selectedDate).
  pose proof remainingDaysD_eq as Er.
  unfold allDays. rewrite !length_app.
  rewrite previousMonthDaysD_length, currentMonthDaysD_length.
  unfold nextMonthDays. rewrite Array_from_length.
  rewrite !Nat2Z.inj_add, !Z2Nat.id by lia.
  lia.
Qed.

Lemma weekD_length i :
  (i < Z.to_nat (weeksNeeded selectedDate))%nat ->
  List.length (firstn 7 (skipn (7 * i)
                           (allDays LocalTZA timesheet selectedDate))) = 7%nat.
Proof.
  intros Hi. pose proof allDaysD_length as HL.
  rewrite length_firstn, length_skipn. lia.
Qed.

Lemma rowsD_length :
  List.length (rows LocalTZA timesheet selectedDate)
  = Z.to_nat (weeksNeeded selectedDate).
Proof. unfold rows. apply Array_from_length. Qed.

Lemma rowsD_weeks :
  rows LocalTZA timesheet selectedDate
  = map (fun wd => wd ++ [totalCell (weekTotalOf wd)])
        (map (fun i => firstn 7 (skipn (7 * i)
                                   (allDays LocalTZA timesheet selectedDate)))
             (seq 0 (Z.to_nat (weeksNeeded selectedDate)))).
Proof.
  unfold rows, Array_from. rewrite map_map. apply map_ext. intros i.
  now rewrite slice_week.
Qed.

Lemma rowsD_nth i :
  (i < Z.to_nat (weeksNeeded selectedDate))%nat ->
  nth_error (rows LocalTZA timesheet selectedDate) i
  = Some (firstn 7 (skipn (7 * i) (allDays LocalTZA timesheet selectedDate))
          ++ [totalCell
                (weekTotalOf
                   (firstn 7 (skipn (7 * i)
                                (allDays LocalTZA timesheet selectedDate))))]).
Proof.
  intros Hi. unfold rows. rewrite Array_from_nth by exact Hi.
  now rewrite slice_week.
Qed.

Lemma weeksD_lengths :
  Forall (fun wd : list DayData => List.length wd = 7%nat)
    (map (fun i => firstn 7 (skipn (7 * i)
                               (allDays LocalTZA timesheet selectedDate)))
         (seq 0 (Z.to_nat (weeksNeeded selectedDate)))).
Proof.
  apply Forall_forall. intros wd Hin. apply in_map_iff in Hin.
  destruct Hin as (i & <- & Hi). apply in_seq in Hi.
  apply weekD_length. lia.
Qed.

(** The day cells of the rows, row after row, are the cells of the
    grid. *)
Lemma rowsD_cells :
  List.concat (map (firstn 7) (rows LocalTZA timesheet selectedDate))
  = allDays LocalTZA timesheet selectedDate.
Proof.
  rewrite rowsD_weeks, !map_map.
  etransitivity;
    [| apply (weeks_concat (Z.to_nat (weeksNeeded selectedDate)));
       pose proof allDaysD_length; lia].
  f_equal. apply map_ext_in. intros i Hi. apply in_seq in Hi.
  rewrite firstn_app, weekD_length by lia.
  rewrite firstn_all2 by (rewrite weekD_length; lia).
  apply app_nil_r.
Qed.

(** C2, as the code has it.  In every week row the eighth cell holds,
    per category, the sum of the hours of the row's current-month cells
    only, added in the order of the row (the padding cells of the months
    before and after add nothing); the rows are the grid cut into weeks;
    and the grand total, the column total of the week-total column, is
    per category the sum of the week totals, added week by week.  (The
    grand total is thus a sum of the hours of all current-month cells
    taken week by week; in doubles it need not be the number that adding
    them cell by cell gives: [grand_total_not_cell_sum].) *)
Theorem week_and_grand_totals :
  (forall i, (i < Z.to_nat (weeksNeeded selectedDate))%nat ->
     exists weekDays T,
       nth_error (rows LocalTZA timesheet selectedDate) i
       = Some (weekDays ++ [totalCell T])
       /\ weekDays = slice (allDays LocalTZA timesheet selectedDate)
                           (Z.of_nat i * 7) ((Z.of_nat i + 1) * 7)
       /\ List.length weekDays = 7%nat
       /\ nth_error (weekDays ++ [totalCell T]) 7 = Some (totalCell T)
       /\ forall st,
            statHours T st
            = Double.sum (map (fun c => statHours (hours c) st)
                              (filter isCurrent weekDays)))
  /\ List.length (rows LocalTZA timesheet selectedDate)
     = Z.to_nat (weeksNeeded selectedDate)
  /\ List.concat (map (firstn 7) (rows LocalTZA timesheet selectedDate))
     = allDays LocalTZA timesheet selectedDate
  /\ (exists cts grand,
        columnTotals LocalTZA timesheet selectedDate = Some cts
        /\ List.length cts = 8%nat
        /\ nth_error cts 7 = Some grand
        /\ forall st,
             statHours grand st
             = Double.sum
                 (map (fun r => statHours (hours (nth 7 r (totalCell noHours)))
                                          st)
                      (rows LocalTZA timesheet selectedDate))).
Proof.
  split; [| split; [| split]].
  - intros i Hi.
    exists (firstn 7 (skipn (7 * i) (allDays LocalTZA timesheet selectedDate))),
           (weekTotalOf
              (firstn 7 (skipn (7 * i)
                           (allDays LocalTZA timesheet selectedDate)))).
    split; [apply rowsD_nth; exact Hi |].
    split; [symmetry; apply slice_week |].
    split; [apply weekD_length; exact Hi |].
    split.
    + rewrite nth_error_app2 by (rewrite weekD_length; lia).
      rewrite weekD_length by exact Hi. reflexivity.
    + intros st. apply weekTotalOfD_sum.
  - unfold rows. apply Array_from_length.
  - apply rowsD_cells.
  - destruct (columnTotalsD_fold _ (repeat noHours 8) noHours weeksD_lengths
                eq_refl eq_refl) as (cts & E & L & N).
    exists cts, (fold_left addHours
                   (map weekTotalOf
                      (map (fun i => firstn 7 (skipn (7 * i)
                              (allDays LocalTZA timesheet selectedDate)))
                           (seq 0 (Z.to_nat (weeksNeeded selectedDate)))))
                   noHours).
    unfold columnTotals. rewrite rowsD_weeks.
    split; [exact E |]. split; [exact L |]. split; [exact N |].
    intros st. unfold Double.sum. rewrite sumD_hours, !map_map.
    assert (Z0 : statHours noHours st = 0%float)
      by (destruct st; reflexivity).
    rewrite Z0. f_equal. apply map_ext_in. intros i Hi. apply in_seq in Hi.
    rewrite app_nth2 by (rewrite weekD_length; lia).
    rewrite weekD_length by lia. reflexivity.
Qed.

Lemma allDaysD_no_total c :
  In c (allDays LocalTZA timesheet selectedDate) -> type c <> total.
Proof.
  unfold allDays, previousMonthDays, currentMonthDays, nextMonthDays,
    Array_from.
  intros Hin.
  apply in_app_or in Hin. destruct Hin as [H | H];
    [apply in_rev in H | apply in_app_or in H; destruct H as [H | H]];
    apply in_map_iff in H; destruct H as (i & <- & _); discriminate.
Qed.

Lemma weekD_cell i j :
  (i < Z.to_nat (weeksNeeded selectedDate))%nat -> (j < 7)%nat ->
  nth_error (firstn 7 (skipn (7 * i)
                         (allDays LocalTZA timesheet selectedDate))) j
  = nth_error (allDays LocalTZA timesheet selectedDate) (7 * i + j).
Proof.
  intros Hi Hj. rewrite nth_error_firstn.
  destruct (Nat.ltb_spec j 7) as [_ | L]; [| lia].
  apply nth_error_skipn.
Qed.

(** The cells of column [j] are the cells [j], [7 + j], [14 + j], ... of
    the grid. *)
Lemma columnD_cells j i :
  (j < 7)%nat -> (i < Z.to_nat (weeksNeeded selectedDate))%nat ->
  nth_error (map (fun r => nth j r (totalCell noHours))
                 (rows LocalTZA timesheet selectedDate)) i
  = nth_error (allDays LocalTZA timesheet selectedDate) (7 * i + j).
Proof.
  intros Hj Hi. rewrite nth_error_map, (rowsD_nth i Hi). cbn [option_map].
  rewrite app_nth1 by (rewrite weekD_length; [exact Hj | exact Hi]).
  rewrite <- (weekD_cell i j Hi Hj). symmetry.
  apply nth_error_nth'. rewrite weekD_length; [exact Hj | exact Hi].
Qed.

Lemma columnD_no_total j :
  (j < 7)%nat ->
  Forall (fun c => type c <> total)
         (map (fun r => nth j r (totalCell noHours))
              (rows LocalTZA timesheet selectedDate)).
Proof.
  intros Hj. apply Forall_forall. intros c Hc.
  apply In_nth_error in Hc. destruct Hc as [i Hi].
  assert (Hlt : (i < Z.to_nat (weeksNeeded selectedDate))%nat).
  { rewrite <- rowsD_length.
    rewrite <- (length_map (fun r => nth j r (totalCell noHours))).
    apply nth_error_Some. rewrite Hi. discriminate. }
  rewrite (columnD_cells j i Hj Hlt) in Hi.
  apply nth_error_In in Hi. revert Hi. apply allDaysD_no_total.
Qed.

(** X12. The total row: [columnTotals] is built without a failing read
    and has eight entries; the cells of the column of a weekday are the
    cells of the grid seven apart, and the entry under the weekday is,
    per category, the sum of the hours of the cells of the month among
    them, added from the first week to the last. *)
Theorem column_totals :
  exists cts,
    columnTotals LocalTZA timesheet selectedDate = Some cts
    /\ List.length cts = 8%nat
    /\ (forall j, (j < 7)%nat ->
          (forall i, (i < Z.to_nat (weeksNeeded selectedDate))%nat ->
             nth_error (map (fun r => nth j r (totalCell noHours))
                            (rows LocalTZA timesheet selectedDate)) i
             = nth_error (allDays LocalTZA timesheet selectedDate)
                         (7 * i + j))
          /\ exists h,
               nth_error cts j = Some h
               /\ forall st,
                    statHours h st
                    = Double.sum
                        (map (fun c => statHours (hours c) st)
                           (filter isCurrent
                              (map (fun r => nth j r (totalCell noHours))
                                   (rows LocalTZA timesheet selectedDate))))).
Proof.
  assert (HF : Forall (fun r : list DayData => List.length r = 8%nat)
                      (rows LocalTZA timesheet selectedDate)).
  { rewrite rowsD_weeks. apply Forall_forall. intros r Hr.
    apply in_map_iff in Hr. destruct Hr as (wd & <- & Hwd).
    rewrite length_app.
    rewrite (proj1 (Forall_forall _ _) weeksD_lengths wd Hwd). reflexivity. }
  destruct (columnsD_fold (rows LocalTZA timesheet selectedDate)
              (repeat noHours 8) HF eq_refl) as (cts & C1 & C2 & C3).
  exists cts. split; [exact C1 |]. split; [exact C2 |].
  intros j Hj. split; [intros i Hi; exact (columnD_cells j i Hj Hi) |].
  eexists. split; [apply C3, nth_error_repeat; lia |].
  intros st. rewrite (column_currentD _ _ (columnD_no_total j Hj)).
  unfold Double.sum. rewrite sumD_hours, map_map.
  destruct st; reflexivity.
Qed.

End GridFactsD.

(** The sheet of the three tenths, March 2024: the second week holds one
    tenth and the third week two and three tenths; the grand total is
    the sum of the six week totals. *)
Lemma week_and_grand_totals_witness :
  (exists weekDays T,
     nth_error (rows zoneUTC tenthsSheet march2024) 2
     = Some (weekDays ++ [totalCell T])
     /\ List.length weekDays = 7%nat
     /\ statHours T Consulting
        = Double.sum (map (fun c => statHours (hours c) Consulting)
                          (filter isCurrent weekDays))
     /\ statHours T Consulting = 0.5%float)
  /\ (exists cts grand,
        columnTotals zoneUTC tenthsSheet march2024 = Some cts
        /\ nth_error cts 7 = Some grand
        /\ statHours grand Consulting
           = Double.sum [0; 0.1; 0.5; 0; 0; 0]%float).
Proof.
  destruct (week_and_grand_totals zoneUTC tenthsSheet march2024)
    as (W & _ & _ & G).
  split.
  - destruct (W 2%nat) as (wd & T & R & S & L & _ & HT).
    { apply Nat.ltb_lt. vm_compute. reflexivity. }
    exists wd, T. split; [exact R |]. split; [exact L |].
    split; [apply HT |].
    rewrite (HT Consulting), S. vm_compute. reflexivity.
  - destruct G as (cts & grand & C & _ & N & HG).
    exists cts, grand. split; [exact C |]. split; [exact N |].
    rewrite (HG Consulting). vm_compute. reflexivity.
Defined.

(** The claim fails in the doubles of the engine.  With a tenth of an
    hour on 4 March 2024, two tenths on the 10th and three tenths on the
    11th, the grand total of consulting hours is 0.1 + (0.2 + 0.3), that
    is 0.6, while the hours of the current-month cells of the grid added
    one after the other give 0.6000000000000001; so does the total of
    the sheet, which adds the entries. *)
Lemma grand_total_not_cell_sum :
  (exists cts grand,
     columnTotals zoneUTC tenthsSheet march2024 = Some cts
     /\ nth_error cts 7 = Some grand
     /\ statHours grand Consulting = 0.59999999999999998%float
     /\ PrimFloat.eqb
          (statHours grand Consulting)
          (Double.sum (map (fun c => statHours (hours c) Consulting)
                           (filter isCurrent
                                   (allDays zoneUTC tenthsSheet march2024))))
        = false
     /\ statHours grand Consulting
        <> Double.sum (map (fun c => statHours (hours c) Consulting)
                          (filter isCurrent
                                  (allDays zoneUTC tenthsSheet march2024))))
  /\ Double.sum (map (fun c => statHours (hours c) Consulting)
                     (filter isCurrent
                             (allDays zoneUTC tenthsSheet march2024)))
     = 0.60000000000000009%float
  /\ statHours (totalHours tenthsSheet) Consulting
     = 0.60000000000000009%float.
Proof.
  split; [| split; vm_compute; reflexivity].
  let v := eval vm_compute in (columnTotals zoneUTC tenthsSheet march2024) in
  match v with
  | Some ?cts =>
      let g := eval vm_compute in (nth 7 cts noHours) in
      exists cts, g;
      split; [vm_compute; reflexivity |];
      split; [reflexivity |];
      split; [vm_compute; reflexivity |];
      split; [vm_compute; reflexivity |];
      intros E;
      apply (f_equal (fun x => PrimFloat.eqb x 0.59999999999999998%float))
        in E;
      vm_compute in E; discriminate E
  end.
Qed.

(** The sheet of the three tenths, March 2024: the Monday column holds
    the tenth of the 4th and the three tenths of the 11th, the Sunday
    column the two tenths of the 10th. *)
Lemma column_totals_witness :
  exists cts h0 h1,
    columnTotals zoneUTC tenthsSheet march2024 = Some cts
    /\ nth_error cts 0 = Some h0
    /\ nth_error cts 1 = Some h1
    /\ statHours h0 Consulting = 0.2%float
    /\ statHours h1 Consulting = PrimFloat.add 0.1 0.3
    /\ statHours h1 Consulting
       = Double.sum
           (map (fun c => statHours (hours c) Consulting)
              (filter isCurrent
                 (map (fun r => nth 1 r (totalCell noHours))
                      (rows zoneUTC tenthsSheet march2024)))).
Proof.
  destruct (column_totals zoneUTC tenthsSheet march2024)
    as (cts & C & _ & Col).
  destruct (proj2 (Col 0%nat ltac:(lia))) as (h0 & N0 & S0).
  destruct (proj2 (Col 1%nat ltac:(lia))) as (h1 & N1 & S1).
  exists cts, h0, h1.
  split; [exact C |]. split; [exact N0 |]. split; [exact N1 |].
  split; [rewrite (S0 Consulting); vm_compute; reflexivity |].
  split; [rewrite (S1 Consulting); vm_compute; reflexivity |].
  exact (S1 Consulting).
Defined.

(** In doubles the total row need not reconcile: here the seven weekday
    entries add up to 0.6000000000000001, and the eighth entry, which
    adds the week totals, is 0.6. *)
Example column_totals_round :
  option_map
    (fun cts =>
       (Double.sum (map (fun h => statHours h Consulting) (firstn 7 cts)),
        map (fun h => statHours h Consulting) (skipn 7 cts)))
    (columnTotals zoneUTC tenthsSheet march2024)
  = Some (0.60000000000000009%float, [0.59999999999999998%float]).
Proof. vm_compute. reflexivity. Qed.

End CalendarDSpec.

(* ================================================================= *)
(** * The summary card: links, totals, the band of top contributors *)

Module SummariesMore.
Import JS JSFacts Summaries SummariesSpec.

(** ** Links *)

(** X1. A row links only if it has a slug that is not empty and the table
    is not the "By Type" table; the three known tables link to their
    path followed by the slug, any other title to the placeholder.  The
    name cell renders a link exactly when [getItemLink] returns one. *)
Theorem getItemLink_cases (title : string) (it : Item) :
  (getItemLink title it = None
   <-> slug it = None \/ slug it = Some ""%string \/ title = "By Type"%string)
  /\ (forall s, slug it = Some s -> s <> ""%string ->
        (title = "By Account Manager"%string ->
         getItemLink title it = Some ("/team/account-managers/" ++ s)%string)
        /\ (title = "By Client"%string ->
            getItemLink title it = Some ("/about-us/clients/" ++ s)%string)
        /\ (title = "By Sponsor"%string ->
            getItemLink title it = Some ("/about-us/sponsors/" ++ s)%string)
        /\ (title <> "By Type"%string ->
            title <> "By Account Manager"%string ->
            title <> "By Client"%string -> title <> "By Sponsor"%string ->
            getItemLink title it = Some "#"%string))
  /\ nameCellLink title it = getItemLink title it.
Proof.
  unfold nameCellLink, getItemLink.
  destruct (slug it) as [s |].
  2:{ split; [split; auto |]. split; [intros s H; discriminate | reflexivity]. }
  destruct (String.eqb_spec s "") as [-> | Hs].
  { split; [split; auto |]. split; [| reflexivity].
    intros s H Hne. inversion H; subst. congruence. }
  split; [| split].
  - destruct (String.eqb_spec title "By Type") as [-> | Ht].
    + split; auto.
    + split.
      * repeat match goal with
               | |- context [String.eqb ?a ?b] => destruct (String.eqb a b)
               end; discriminate.
      * intros [H | [H | H]]; [discriminate | inversion H; congruence
                               | congruence].
  - intros s' H Hne. inversion H; subst s'.
    repeat split; intros; subst;
      repeat match goal with
             | |- context [String.eqb ?a ?b] =>
                 destruct (String.eqb_spec a b); try congruence
             end; try discriminate.
  - repeat match goal with
           | |- context [String.eqb title ?b] => destruct (String.eqb title b)
           end; reflexivity.
Qed.

Lemma getItemLink_cases_witness :
  slug (mkSlugItem "acme") = Some "acme"%string
  /\ "acme"%string <> ""%string
  /\ getItemLink "By Client" (mkSlugItem "acme")
     = Some "/about-us/clients/acme"%string
  /\ getItemLink "By Region" (mkSlugItem "acme") = Some "#"%string.
Proof.
  assert (H1 : slug (mkSlugItem "acme") = Some "acme"%string) by reflexivity.
  assert (H2 : "acme"%string <> ""%string) by discriminate.
  destruct (proj1 (proj2 (getItemLink_cases "By Client" (mkSlugItem "acme")))
              "acme"%string H1 H2) as (_ & P & _).
  destruct (proj1 (proj2 (getItemLink_cases "By Region" (mkSlugItem "acme")))
              "acme"%string H1 H2) as (_ & _ & _ & Q).
  split; [exact H1 |]. split; [exact H2 |]. split; [exact (P eq_refl) |].
  apply Q; discriminate.
Defined.

(** ** Totals *)

(** ** The band of top contributors *)

Lemma prefix_sums_mono (l : list Q) i j :
  Forall (fun x => 0 <= x) l -> (i <= j)%nat ->
  0 <= sumOf (firstn i l) /\ sumOf (firstn i l) <= sumOf (firstn j l)
  /\ sumOf (firstn j l) <= sumOf l.
Proof.
  intros H. revert i j. induction H as [| x l Hx Hl IH]; intros i j Hij.
  - rewrite !firstn_nil. cbn. repeat split; apply Qle_refl.
  - destruct i as [| i], j as [| j]; try lia; cbn [firstn sumOf fold_right].
    + pose proof (sumOf_nonneg l Hl). repeat split; try apply Qle_refl.
      replace 0 with (0 + 0) by reflexivity. now apply Qplus_le_compat.
    + destruct (IH 0%nat j ltac:(lia)) as (_ & H1 & H2). cbn in H1.
      fold (sumOf (firstn j l)). fold (sumOf l).
      repeat split; try apply Qle_refl.
      * replace 0 with (0 + 0) by reflexivity. now apply Qplus_le_compat.
      * now apply Qplus_le_r.
    + destruct (IH i j ltac:(lia)) as (H0 & H1 & H2).
      fold (sumOf (firstn i l)). fold (sumOf (firstn j l)). fold (sumOf l).
      repeat split.
      * replace 0 with (0 + 0) by reflexivity. now apply Qplus_le_compat.
      * now apply Qplus_le_r.
      * now apply Qplus_le_r.
Qed.

Lemma Qdiv_le_compat a b t : 0 < t -> a <= b -> a / t <= b / t.
Proof.
  intros Ht Hab. unfold Qdiv. apply Qmult_le_compat_r; trivial.
  apply Qlt_le_weak. now apply Qinv_lt_0_compat.
Qed.

Section Band.
Variable StringToNumber : string -> number.
Variable key : Key.
Variable items : list Item.
Hypothesis nonNegative :
  Forall (fun i => 0 <= numField (effectiveKey key) i) items.
Hypothesis positiveTotal :
  0 < sumOf (map (numField (effectiveKey key)) items).

Lemma sorted_nonNegative :
  Forall (fun x => 0 <= x)
    (map (numField (effectiveKey key)) (sortedItems StringToNumber key items)).
Proof.
  apply Forall_map.
  eapply Permutation_Forall; [symmetry; apply sortedItems_perm |].
  exact nonNegative.
Qed.

(** The share of a row, as a rational. *)
Lemma share_value i c :
  nth_error (cumulativeItems StringToNumber key items) i = Some c ->
  exists q,
    cumulative c = Fin q
    /\ q == sumOf (firstn (S i)
                     (map (numField (effectiveKey key))
                          (sortedItems StringToNumber key items)))
            / sumOf (map (numField (effectiveKey key)) items).
Proof.
  intros Hc.
  assert (HT : ~ sumOf (map (numField (effectiveKey key)) items) == 0).
  { intros E. rewrite E in positiveTotal. now apply Qlt_irrefl in positiveTotal. }
  assert (HT' : ~ totalsAt (totals items) (effectiveKey key) == 0)
    by now rewrite totals_sum.
  assert (Hlt : (i < List.length (sortedItems StringToNumber key items))%nat).
  { rewrite sortedItems_length,
      <- (cumulativeItems_length StringToNumber key).
    apply nth_error_Some. congruence. }
  destruct (nth_error (sortedItems StringToNumber key items) i)
    as [it |] eqn:Hs; [| apply nth_error_None in Hs; lia].
  destruct (cumulativeItems_nth StringToNumber key items i it Hs)
    as (c' & Hc' & Hd & Hn).
  rewrite Hc in Hc'. inversion Hc'; subst c. cbn [cumulative] in *.
  rewrite Hd in Hn |- *. rewrite div_fin in Hn |- * by exact HT'.
  rewrite div_fin in Hn by exact HT. cbn [num_eq] in Hn.
  eexists. split; [reflexivity |]. rewrite Hn. now rewrite firstn_map.
Qed.

(** In exact arithmetic the shares do not exceed 1; in doubles the last
    may ([cumulativeItems] divides sums taken in two orders). *)
Lemma shares_ordered i j ci cj :
  (i <= j)%nat ->
  nth_error (cumulativeItems StringToNumber key items) i = Some ci ->
  nth_error (cumulativeItems StringToNumber key items) j = Some cj ->
  exists qi qj, cumulative ci = Fin qi /\ cumulative cj = Fin qj
                /\ 0 <= qi /\ qi <= qj /\ qj <= 1.
Proof.
  intros Hij Hi Hj.
  destruct (share_value i ci Hi) as (qi & Ei & Vi).
  destruct (share_value j cj Hj) as (qj & Ej & Vj).
  exists qi, qj. split; [exact Ei |]. split; [exact Ej |].
  destruct (prefix_sums_mono _ (S i) (S j) sorted_nonNegative ltac:(lia))
    as (H0 & H1 & H2).
  assert (HS : sumOf (map (numField (effectiveKey key))
                          (sortedItems StringToNumber key items))
               == sumOf (map (numField (effectiveKey key)) items))
    by apply sumOf_perm, Permutation_map, sortedItems_perm.
  rewrite HS in H2. rewrite Vi, Vj. split; [| split].
  - apply Qle_shift_div_l; trivial. now rewrite Qmult_0_l.
  - now apply Qdiv_le_compat.
  - apply Qle_shift_div_r; trivial. now rewrite Qmult_1_l.
Qed.

(** X3. When the values of the effective metric are not negative and
    their grand total is positive, the cumulative shares are numbers,
    not negative, that do not decrease down the sorted rows; hence the
    shaded rows are the first rows of the table: above a shaded row every
    row is shaded. *)
Theorem shaded_rows_are_a_prefix i j ci cj :
  (i <= j)%nat ->
  nth_error (cumulativeItems StringToNumber key items) i = Some ci ->
  nth_error (cumulativeItems StringToNumber key items) j = Some cj ->
  (exists qi qj, cumulative ci = Fin qi /\ cumulative cj = Fin qj
                 /\ 0 <= qi /\ qi <= qj)
  /\ ((exists col, rowBackgroundColor StringToNumber key items j cj
                   = Some (Some col)) ->
      exists col, rowBackgroundColor StringToNumber key items i ci
                  = Some (Some col)).
Proof.
  intros Hij Hi Hj.
  destruct (shares_ordered i j ci cj Hij Hi Hj)
    as (qi & qj & Ei & Ej & H0 & H1 & H2).
  split; [exists qi, qj; auto |].
  intros [col Hcol]. unfold rowBackgroundColor in *.
  rewrite (previousCumulative_defined _ _ _ _ _ Hj) in Hcol.
  rewrite (previousCumulative_defined _ _ _ _ _ Hi).
  unfold getBackgroundColor in *.
  destruct (showHighlight items); [| discriminate].
  rewrite Ej in Hcol. rewrite Ei. unfold threshold in *. cbn [andb leb] in *.
  destruct (Qle_bool qj (8 # 10)) eqn:Ej'; [| discriminate].
  apply Qle_bool_iff in Ej'.
  assert (Ei' : Qle_bool qi (8 # 10) = true)
    by (apply Qle_bool_iff; now apply Qle_trans with qj).
  rewrite Ei'. cbn [negb]. eauto.
Qed.

(** X4. Under the same conditions the background of a shaded row is a
    grey whose three components are one integer between 150 and 230: the
    intensity never leaves the range of a colour component. *)
Theorem shaded_intensity_in_range i ci r g b :
  nth_error (cumulativeItems StringToNumber key items) i = Some ci ->
  rowBackgroundColor StringToNumber key items i ci = Some (Some (rgb r g b)) ->
  exists n : Z,
    r = Fin (inject_Z n) /\ g = r /\ b = r /\ (150 <= n <= 230)%Z.
Proof.
  intros Hi Hcol. unfold rowBackgroundColor in Hcol.
  rewrite (previousCumulative_defined _ _ _ _ _ Hi) in Hcol.
  destruct (shares_ordered i i ci ci (Nat.le_refl i) Hi Hi)
    as (qi & _ & Ei & _ & H0 & _ & _).
  assert (Hp : exists qp,
             match i with
             | O => Fin 0
             | S j => nth j (map cumulative
                               (cumulativeItems StringToNumber key items)) NaN
             end = Fin qp /\ 0 <= qp /\ qp <= qi).
  { destruct i as [| j].
    - exists 0. repeat split; trivial. apply Qle_refl.
    - assert (Hj : (j < List.length (cumulativeItems StringToNumber key items))%nat).
      { apply Nat.lt_trans with (S j); [lia |]. apply nth_error_Some. congruence. }
      destruct (nth_error (cumulativeItems StringToNumber key items) j)
        as [cj |] eqn:Hcj; [| apply nth_error_None in Hcj; lia].
      destruct (shares_ordered j (S j) cj ci ltac:(lia) Hcj Hi)
        as (qj & qi' & Ej & Ei' & Hj0 & Hj1 & _).
      assert (qi' = qi) by congruence. subst qi'.
      exists qj. split; [| split; trivial].
      rewrite <- Ej. apply nth_error_nth. now rewrite nth_error_map, Hcj. }
  destruct Hp as (qp & Ep & Hp0 & Hp1). rewrite Ep in Hcol.
  unfold getBackgroundColor, contribution, threshold in Hcol.
  destruct (showHighlight items); [| discriminate].
  rewrite Ei in Hcol. cbn [andb leb] in Hcol.
  destruct (Qle_bool qi (8 # 10)) eqn:El; [| discriminate].
  apply Qle_bool_iff in El. cbn [negb] in Hcol.
  assert (Ho : exists qp', orZero (Fin qp) = Fin qp' /\ qp' == qp).
  { unfold orZero. destruct (Qeq_bool qp 0) eqn:E.
    - exists 0. split; trivial. apply Qeq_bool_iff in E. now symmetry.
    - exists qp. split; [trivial | reflexivity]. }
  destruct Ho as (qp' & Eo & Eq). rewrite Eo in Hcol.
  cbn [sub add neg mul Math_round] in Hcol.
  inversion Hcol; subst r g b; clear Hcol.
  eexists. split; [reflexivity |]. split; [reflexivity |].
  split; [reflexivity |].
  set (x := 230 + - ((qi + - qp') * 100) + (1 # 2)).
  assert (Hx : 150 + (1 # 2) <= x /\ x <= 230 + (1 # 2)).
  { subst x. split; lra. }
  destruct Hx as [Hlo Hhi].
  apply Qfloor_resp_le in Hlo, Hhi. split.
  - etransitivity; [| exact Hlo]. vm_compute. discriminate.
  - etransitivity; [exact Hhi |]. vm_compute. discriminate.
Qed.

End Band.

Lemma elevenItems_band :
  Forall (fun i => 0 <= numField (effectiveKey Ktotal) i) elevenItems
  /\ 0 < sumOf (map (numField (effectiveKey Ktotal)) elevenItems).
Proof.
  split.
  - unfold elevenItems. apply Forall_forall. intros x Hx.
    apply repeat_spec in Hx. subst x. cbn. discriminate.
  - vm_compute. reflexivity.
Defined.

Lemma shaded_rows_are_a_prefix_witness :
  exists c0 c1,
    nth_error (cumulativeItems noNumber Ktotal elevenItems) 0 = Some c0
    /\ nth_error (cumulativeItems noNumber Ktotal elevenItems) 1 = Some c1
    /\ (0 <= 1)%nat
    /\ Forall (fun i => 0 <= numField (effectiveKey Ktotal) i) elevenItems
    /\ 0 < sumOf (map (numField (effectiveKey Ktotal)) elevenItems)
    /\ ((exists col, rowBackgroundColor noNumber Ktotal elevenItems 1 c1
                     = Some (Some col)) ->
        exists col, rowBackgroundColor noNumber Ktotal elevenItems 0 c0
                    = Some (Some col)).
Proof.
  destruct elevenItems_band as [H1 H2].
  let v0 := eval vm_compute in
              (nth_error (cumulativeItems noNumber Ktotal elevenItems) 0) in
  let v1 := eval vm_compute in
              (nth_error (cumulativeItems noNumber Ktotal elevenItems) 1) in
  assert (E0 : nth_error (cumulativeItems noNumber Ktotal elevenItems) 0 = v0)
    by (vm_compute; reflexivity);
  assert (E1 : nth_error (cumulativeItems noNumber Ktotal elevenItems) 1 = v1)
    by (vm_compute; reflexivity).
  match type of E0 with
  | _ = Some ?c0 =>
      match type of E1 with
      | _ = Some ?c1 =>
          exists c0, c1;
          split; [exact E0 |]; split; [exact E1 |];
          split; [apply Nat.le_0_l |]; split; [exact H1 |];
          split; [exact H2 |];
          exact (proj2 (shaded_rows_are_a_prefix noNumber Ktotal elevenItems
                          H1 H2 0%nat 1%nat c0 c1 (Nat.le_0_l 1) E0 E1))
      end
  end.
Defined.

Lemma shaded_intensity_in_range_witness :
  Forall (fun i => 0 <= numField (effectiveKey Ktotal) i) elevenItems
  /\ 0 < sumOf (map (numField (effectiveKey Ktotal)) elevenItems)
  /\ nth_error (cumulativeItems noNumber Ktotal elevenItems) 0
     = Some firstOfEleven
  /\ rowBackgroundColor noNumber Ktotal elevenItems 0 firstOfEleven
     = Some (Some (rgb (Fin 221) (Fin 221) (Fin 221)))
  /\ exists n : Z,
       Fin 221 = Fin (inject_Z n) /\ Fin 221 = Fin 221 /\ Fin 221 = Fin 221
       /\ (150 <= n <= 230)%Z.
Proof.
  destruct elevenItems_band as [H1 H2].
  assert (E0 : nth_error (cumulativeItems noNumber Ktotal elevenItems) 0
               = Some firstOfEleven) by (vm_compute; reflexivity).
  assert (E1 : rowBackgroundColor noNumber Ktotal elevenItems 0 firstOfEleven
               = Some (Some (rgb (Fin 221) (Fin 221) (Fin 221))))
    by (vm_compute; reflexivity).
  split; [exact H1 |]. split; [exact H2 |]. split; [exact E0 |].
  split; [exact E1 |].
  exact (shaded_intensity_in_range noNumber Ktotal elevenItems H1 H2
           0%nat firstOfEleven _ _ _ E0 E1).
Defined.

End SummariesMore.

(* ================================================================= *)
(** * The calendar: what is rendered, and how the handlers compose *)

Module CalendarMore.
Import JS JSFacts AllocationCalendar CalendarSpec.

(** ** Categories *)

(** X5. The categories offered are those with a positive total, in the
    order consulting, hands-on, squad, internal, each at most once.  A
    substitution made while rendering settles at once: the category it
    sets is offered and has hours, so the next rendering substitutes
    nothing.  A sheet without entries offers no category and substitutes
    nothing. *)
Theorem stat_type_substitution_settles (timesheet : Timesheet)
  (selected : StatType) :
  availableStatTypes timesheet
  = filter (fun s => Qltb 0 (statHours (totalHours timesheet) s))
           [Consulting; HandsOn; Squad; Internal]
  /\ NoDup (availableStatTypes timesheet)
  /\ (forall s', substitutedStatType timesheet selected = Some s' ->
        In s' (availableStatTypes timesheet)
        /\ 0 < statHours (totalHours timesheet) s'
        /\ ~ In selected (availableStatTypes timesheet)
        /\ substitutedStatType timesheet s' = None)
  /\ (byDate timesheet = [] ->
      availableStatTypes timesheet = []
      /\ substitutedStatType timesheet selected = None).
Proof.
  assert (E : availableStatTypes timesheet
              = filter (fun s => Qltb 0 (statHours (totalHours timesheet) s))
                       [Consulting; HandsOn; Squad; Internal]).
  { unfold availableStatTypes, entries. cbn [filter snd statHours].
    destruct (Qltb 0 (consulting (totalHours timesheet)));
      destruct (Qltb 0 (handsOn (totalHours timesheet)));
      destruct (Qltb 0 (squad (totalHours timesheet)));
      destruct (Qltb 0 (internal (totalHours timesheet))); reflexivity. }
  split; [exact E |]. split; [| split].
  - rewrite E. apply NoDup_filter.
    repeat constructor; cbn; intuition discriminate.
  - intros s' H. unfold substitutedStatType in *.
    pose proof (availableStatTypes_In timesheet) as Hav.
    pose proof (includes_In (availableStatTypes timesheet)) as Hinc.
    remember (availableStatTypes timesheet) as av eqn:A. clear E A.
    destruct (includes av selected) eqn:I; [discriminate |].
    destruct av as [| first rest]; [discriminate |].
    cbn in H. inversion H; subst s'.
    assert (Hin : In first (first :: rest)) by now left.
    split; [exact Hin |]. split; [now apply Hav |]. split.
    + intros Hs. apply Hinc in Hs. congruence.
    + apply Hinc in Hin. now rewrite Hin.
  - intros Hb. unfold substitutedStatType.
    assert (A : availableStatTypes timesheet = [])
      by (unfold availableStatTypes, totalHours; now rewrite Hb).
    rewrite A. split; reflexivity.
Qed.

Lemma stat_type_substitution_settles_witness :
  substitutedStatType marchSheet HandsOn = Some Consulting
  /\ substitutedStatType marchSheet Consulting = None
  /\ byDate emptySheet = []
  /\ availableStatTypes emptySheet = [].
Proof.
  assert (H : substitutedStatType marchSheet HandsOn = Some Consulting)
    by reflexivity.
  assert (B : byDate emptySheet = []) by reflexivity.
  split; [exact H |]. split.
  - exact (proj2 (proj2 (proj2
             (proj1 (proj2 (proj2 (stat_type_substitution_settles
                                     marchSheet HandsOn)))
                    Consulting H)))).
  - split; [exact B |].
    exact (proj1 (proj2 (proj2 (proj2 (stat_type_substitution_settles
                                         emptySheet Consulting))) B)).
Defined.

(** ** Hours of a date *)

(** X6. The hours shown for a date depend on its calendar day only, not
    on the time of day; a date that no entry of the sheet carries has no
    hours in any category; and when several entries carry the date, the
    first one counts and the later ones are ignored. *)
Theorem hours_by_calendar_day (timesheet : Timesheet) (d : Date) :
  (forall d', civil d = civil d' ->
     getHoursForDate timesheet d = getHoursForDate timesheet d')
  /\ ((forall e, In e (byDate timesheet) -> date e <> formatDate d) ->
      getHoursForDate timesheet d = noHours)
  /\ (forall before e after,
        byDate timesheet = before ++ e :: after ->
        date e = formatDate d ->
        (forall x, In x before -> date x <> formatDate d) ->
        getHoursForDate timesheet d = entryHours e).
Proof.
  split; [| split].
  - intros d' H. apply formatDate_civil in H.
    unfold getHoursForDate. now rewrite H.
  - intros H. rewrite getHoursForDate_find.
    destruct (find (fun e => String.eqb (date e) (formatDate d))
                   (byDate timesheet)) as [e |] eqn:F; [| reflexivity].
    apply find_some in F. destruct F as [Hin He].
    apply String.eqb_eq in He. now apply H in Hin.
  - intros before e after Hb He Hbefore. rewrite getHoursForDate_find, Hb.
    clear Hb. induction before as [| x before IH]; cbn [app find].
    + apply String.eqb_eq in He. now rewrite He.
    + destruct (String.eqb_spec (date x) (formatDate d)) as [E | _].
      * exfalso. apply (Hbefore x); [now left | exact E].
      * apply IH. intros y Hy. apply Hbefore. now right.
Qed.

Lemma hours_by_calendar_day_witness :
  civil (newDate 2024 2 15) = civil (newDate 2024 2 15 + 3600000)%Z
  /\ getHoursForDate marchSheet (newDate 2024 2 15)
     = getHoursForDate marchSheet (newDate 2024 2 15 + 3600000)%Z
  /\ (forall e, In e (byDate marchSheet) ->
        date e <> formatDate (newDate 2024 2 16))
  /\ getHoursForDate marchSheet (newDate 2024 2 16) = noHours.
Proof.
  assert (H1 : civil (newDate 2024 2 15)
               = civil (newDate 2024 2 15 + 3600000)%Z)
    by (vm_compute; reflexivity).
  assert (H2 : forall e, In e (byDate marchSheet) ->
                 date e <> formatDate (newDate 2024 2 16)).
  { intros e [<- | []] H. vm_compute in H. discriminate H. }
  split; [exact H1 |]. split.
  - exact (proj1 (hours_by_calendar_day marchSheet (newDate 2024 2 15)) _ H1).
  - split; [exact H2 |].
    exact (proj1 (proj2 (hours_by_calendar_day marchSheet (newDate 2024 2 16)))
                 H2).
Defined.

(** ** Selection handlers *)

(** X7. What a handler leaves behind does not depend on what was
    selected before: two states with the same date and category give the
    same state after any event.  So a later click replaces an earlier
    one, and clicking the same header, week total or tab twice changes
    nothing the second time: nothing is toggled off. *)
Theorem handlers_overwrite (e : Event) (s s' : State) :
  (selectedDate s = selectedDate s' ->
   selectedStatType s = selectedStatType s' ->
   handle e s = handle e s')
  /\ match e with
     | ColumnSelect _ | RowSelect _ | StatTypeChange _ =>
         handle e (handle e s) = handle e s
     | _ => True
     end.
Proof.
  split.
  - intros Hd Ht.
    destruct e as [n ty r | c | r | i | t]; cbn [handle].
    + unfold handleDayClick, setIsAllSelected, setSelectedColumn,
        setSelectedRow, setSelectedDay, setSelectedDate.
      destruct ty;
        cbn [selectedDate selectedDay selectedRow selectedColumn
             isAllSelected selectedStatType];
        now rewrite Hd, Ht.
    + unfold handleColumnSelect, setIsAllSelected, setSelectedColumn,
        setSelectedRow, setSelectedDay.
      destruct (c =? 7)%Z;
        cbn [selectedDate selectedDay selectedRow selectedColumn
             isAllSelected selectedStatType];
        now rewrite Hd, Ht.
    + unfold handleRowSelect, setIsAllSelected, setSelectedColumn,
        setSelectedRow, setSelectedDay.
      cbn [selectedDate selectedDay selectedRow selectedColumn
           isAllSelected selectedStatType].
      now rewrite Hd, Ht.
    + unfold handleMonthChange, setIsAllSelected, setSelectedColumn,
        setSelectedRow, setSelectedDay, setSelectedDate.
      cbn [selectedDate selectedDay selectedRow selectedColumn
           isAllSelected selectedStatType].
      now rewrite Hd, Ht.
    + unfold handleStatTypeChange, setIsAllSelected, setSelectedColumn,
        setSelectedRow, setSelectedDay, setSelectedStatType.
      cbn [selectedDate selectedDay selectedRow selectedColumn
           isAllSelected selectedStatType].
      now rewrite Hd.
  - destruct e as [n ty r | c | r | i | t]; cbn [handle].
    + exact I.
    + unfold handleColumnSelect. destruct (c =? 7)%Z; reflexivity.
    + reflexivity.
    + exact I.
    + reflexivity.
Qed.

Lemma handlers_overwrite_witness :
  selectedDate (handleColumnSelect 3 marchState) = selectedDate marchState
  /\ selectedStatType (handleColumnSelect 3 marchState)
     = selectedStatType marchState
  /\ handle (RowSelect 2) (handleColumnSelect 3 marchState)
     = handle (RowSelect 2) marchState.
Proof.
  assert (H1 : selectedDate (handleColumnSelect 3 marchState)
               = selectedDate marchState) by reflexivity.
  assert (H2 : selectedStatType (handleColumnSelect 3 marchState)
               = selectedStatType marchState) by reflexivity.
  split; [exact H1 |]. split; [exact H2 |].
  exact (proj1 (handlers_overwrite (RowSelect 2)
                  (handleColumnSelect 3 marchState) marchState) H1 H2).
Defined.

(** ** Month navigation *)

Section MonthFacts.
Local Open Scope Z_scope.

Lemma TimeWithinDay_range t : 0 <= TimeWithinDay t < msPerDay.
Proof. unfold TimeWithinDay. apply Z.mod_pos_bound. reflexivity. Qed.

Lemma Day_TimeWithinDay t : Day t * msPerDay + TimeWithinDay t = t.
Proof.
  unfold Day, TimeWithinDay. rewrite Z.mul_comm. symmetry.
  apply Z.div_mod. discriminate.
Qed.

Lemma TimeWithinDay_within x r :
  0 <= r < msPerDay -> TimeWithinDay (x * msPerDay + r) = r.
Proof.
  intros Hr. unfold TimeWithinDay.
  rewrite Z.add_comm, Z.mod_add by discriminate. now apply Z.mod_small.
Qed.

(** The year, month and date of a day make the day. *)
Lemma MakeDay_inverse D :
  MakeDay (YearFromDay D) (MonthFromDay D) (DateFromDay D) = D.
Proof.
  rewrite MakeDay_canonical
    by (pose proof (MonthFromDay_range D); lia).
  unfold DateFromDay, DayWithinYear, leapDays, InLeapYear, leapOf.
  generalize (monthStart (if DaysInYear (YearFromDay D) =? 366 then 1 else 0)
                         (MonthFromDay D)).
  intros z. lia.
Qed.

(** Twelve months are a year. *)
Lemma MakeDay_months y m k d : MakeDay (y + k) (m - 12 * k) d = MakeDay y m d.
Proof.
  unfold MakeDay.
  replace (m - 12 * k) with (m + (- k) * 12) by lia.
  rewrite Z.div_add, Z.mod_add by discriminate.
  replace (y + k + (m / 12 + - k)) with (y + m / 12) by lia.
  reflexivity.
Qed.

Lemma setMonth_fields t m :
  getDate t <= 28 ->
  getFullYear (setMonth t m) = getFullYear t + m / 12
  /\ getMonth (setMonth t m) = m mod 12
  /\ getDate (setMonth t m) = getDate t
  /\ TimeWithinDay (setMonth t m) = TimeWithinDay t.
Proof.
  intros Hd. pose proof (TimeWithinDay_range t) as Hr.
  pose proof (DateFromDay_range (Day t)) as H1. fold (getDate t) in H1.
  pose proof (monthLength_bounds (getFullYear t + m / 12) (m mod 12)) as Hb.
  destruct (MakeDay_fields_any (getFullYear t) m (getDate t) ltac:(lia))
    as (EY & EM & ED).
  assert (E : Day (setMonth t m) = MakeDay (getFullYear t) m (getDate t))
    by (unfold setMonth; apply Day_within; exact Hr).
  split; [unfold getFullYear at 1; rewrite E; exact EY |].
  split; [unfold getMonth at 1; rewrite E; exact EM |].
  split; [unfold getDate at 1; rewrite E; exact ED |].
  unfold setMonth. apply TimeWithinDay_within. exact Hr.
Qed.

Lemma setMonth_back t inc :
  getDate t <= 28 ->
  setMonth (setMonth t (getMonth t + inc))
           (getMonth (setMonth t (getMonth t + inc)) - inc) = t.
Proof.
  intros Hd.
  destruct (setMonth_fields t (getMonth t + inc) Hd) as (EY & EM & ED & ET).
  unfold setMonth at 1. rewrite EY, EM, ED, ET.
  replace ((getMonth t + inc) mod 12 - inc)
    with (getMonth t - 12 * ((getMonth t + inc) / 12))
    by (pose proof (Z.div_mod (getMonth t + inc) 12 ltac:(lia)); lia).
  rewrite MakeDay_months. unfold getFullYear, getMonth, getDate.
  rewrite MakeDay_inverse. apply Day_TimeWithinDay.
Qed.

End MonthFacts.

(** X8. Month navigation on the instants a [Date] holds.  Let the
    state hold the local reading of the selected instant, on or before
    the 28th of its month, and let the zone of the host read the local
    time asked for back unchanged (it is not in an hour skipped by a
    clock change) and take the selected instant for its local time (it
    is not the second pass of a repeated hour).  Then the new instant
    reads as the same day and time of day of the month [increment]
    months away, carrying into the year, the state holds its local
    reading with the selection cleared, and navigating back by the same
    amount restores the instant. *)
Theorem month_navigation (offsetAt offsetOf : Z -> Z)
  (s : State) (selected increment : Z) :
  let t := LocalTime offsetAt selected in
  let asked := setMonth t (getMonth t + increment) in
  selectedDate s = t ->
  (getDate t <= 28)%Z ->
  LocalTime offsetAt (UTC offsetOf asked) = asked ->
  UTC offsetOf t = selected ->
  let s1 := handleMonthChange increment s in
  let selected1 := monthChangedAt offsetAt offsetOf increment selected in
  selectedDate s1 = LocalTime offsetAt selected1
  /\ getMonth (LocalTime offsetAt selected1)
     = ((getMonth t + increment) mod 12)%Z
  /\ getFullYear (LocalTime offsetAt selected1)
     = (getFullYear t + (getMonth t + increment) / 12)%Z
  /\ getDate (LocalTime offsetAt selected1) = getDate t
  /\ TimeWithinDay (LocalTime offsetAt selected1) = TimeWithinDay t
  /\ noSelection s1
  /\ monthChangedAt offsetAt offsetOf (- increment) selected1 = selected.
Proof.
  intros t asked Hs Hd Hskip Hrep s1 selected1.
  assert (E1 : selectedDate s1 = asked).
  { subst s1 asked. unfold handleMonthChange, setIsAllSelected,
      setSelectedColumn, setSelectedRow, setSelectedDay, setSelectedDate.
    cbn [selectedDate]. rewrite Hs. reflexivity. }
  assert (E2 : LocalTime offsetAt selected1 = asked).
  { subst selected1. unfold monthChangedAt, setMonthAt. exact Hskip. }
  destruct (setMonth_fields t (getMonth t + increment) Hd)
    as (EY & EM & ED & ET).
  rewrite E2. split; [exact E1 |].
  split; [exact EM |]. split; [exact EY |]. split; [exact ED |].
  split; [exact ET |]. split; [repeat split |].
  unfold monthChangedAt at 1, setMonthAt.
  rewrite E2. subst asked.
  rewrite Z.add_opp_r, (setMonth_back t increment Hd).
  exact Hrep.
Qed.

(** From a later day the month may be skipped: one month on from
    31 January 2024 is 2 March. *)
Example month_navigation_overflow :
  let s1 := handleMonthChange 1 (setSelectedDate (newDate 2024 0 31) marchState) in
  getMonth (selectedDate s1) = 2%Z /\ getDate (selectedDate s1) = 2%Z.
Proof. split; vm_compute; reflexivity. Qed.

(** Across a clock change the way back is another: from 02:30 on
    10 February 2024, one month on asks for 02:30 on 10 March, which the
    host of [springForwardAt] skips and reads as 03:30; one month back
    from there is 03:30 on 10 February, an hour after the start. *)
Example month_navigation_skipped_hour :
  let start := UTC springForwardOf (newDate 2024 1 10 + 150 * 60000)%Z in
  let there := monthChangedAt springForwardAt springForwardOf 1 start in
  let back := monthChangedAt springForwardAt springForwardOf (-1) there in
  LocalTime springForwardAt start = (newDate 2024 1 10 + 150 * 60000)%Z
  /\ LocalTime springForwardAt there = (newDate 2024 2 10 + 210 * 60000)%Z
  /\ LocalTime springForwardAt back = (newDate 2024 1 10 + 210 * 60000)%Z
  /\ back <> start.
Proof.
  split; [vm_compute; reflexivity |]. split; [vm_compute; reflexivity |].
  split; [vm_compute; reflexivity |]. vm_compute. discriminate.
Qed.

(** Three hours behind UTC all year: from noon of 1 March 2024 three
    months back is noon of 1 December 2023, and three months on from
    there is the start. *)
Lemma month_navigation_witness :
  let start := (newDate 2024 2 1 + 12 * hourMs - zoneBRT 0)%Z in
  let there := monthChangedAt zoneBRT zoneBRT (-3) start in
  LocalTime zoneBRT start = (march2024 + 12 * hourMs)%Z
  /\ LocalTime zoneBRT there = (newDate 2023 11 1 + 12 * hourMs)%Z
  /\ getMonth (LocalTime zoneBRT there) = 11%Z
  /\ getFullYear (LocalTime zoneBRT there) = 2023%Z
  /\ monthChangedAt zoneBRT zoneBRT (- -3) there = start.
Proof.
  intros start there.
  assert (H0 : LocalTime zoneBRT start = (march2024 + 12 * hourMs)%Z)
    by (vm_compute; reflexivity).
  assert (Hs : selectedDate
                 (setSelectedDate (march2024 + 12 * hourMs)%Z marchState)
               = LocalTime zoneBRT start) by (vm_compute; reflexivity).
  assert (Hd : (getDate (LocalTime zoneBRT start) <= 28)%Z)
    by (apply Z.leb_le; vm_compute; reflexivity).
  assert (Hk : LocalTime zoneBRT
                 (UTC zoneBRT
                    (setMonth (LocalTime zoneBRT start)
                       (getMonth (LocalTime zoneBRT start) + -3)))
               = setMonth (LocalTime zoneBRT start)
                   (getMonth (LocalTime zoneBRT start) + -3))
    by (vm_compute; reflexivity).
  assert (Hr : UTC zoneBRT (LocalTime zoneBRT start) = start)
    by (vm_compute; reflexivity).
  destruct (month_navigation zoneBRT zoneBRT
              (setSelectedDate (march2024 + 12 * hourMs)%Z marchState)
              start (-3) Hs Hd Hk Hr)
    as (_ & P2 & P3 & _ & _ & _ & P7).
  subst there.
  split; [exact H0 |].
  split; [vm_compute; reflexivity |].
  split; [rewrite P2; vm_compute; reflexivity |].
  split; [rewrite P3; vm_compute; reflexivity |].
  exact P7.
Defined.

(** ** The rendered day cells *)

Lemma nth_error_types_current (a b r k : nat) :
  nth_error (repeat prev a ++ repeat current b ++ repeat next r) k
  = Some current -> (a <= k < a + b)%nat.
Proof.
  intros H.
  destruct (Nat.lt_ge_cases k a) as [L | L].
  - rewrite nth_error_app1 in H by (rewrite repeat_length; exact L).
    apply nth_error_In, repeat_spec in H. discriminate.
  - split; [exact L |].
    rewrite nth_error_app2, repeat_length in H
      by (rewrite repeat_length; exact L).
    destruct (Nat.lt_ge_cases (k - a) b) as [L' | L']; [lia |].
    rewrite nth_error_app2, repeat_length in H
      by (rewrite repeat_length; exact L').
    apply nth_error_In, repeat_spec in H. discriminate.
Qed.

Lemma range_nth a n i :
  (i < Z.to_nat n)%nat -> nth_error (range a n) i = Some (a + Z.of_nat i)%Z.
Proof.
  intros Hi. unfold range. rewrite nth_error_map, nth_error_seq.
  apply Nat.ltb_lt in Hi. rewrite Hi. reflexivity.
Qed.

(** Only a cell of the month whose day is the selected day is selected:
    the grid is always the grid of the month of [selectedDate], so the
    tests for the months before and after never hold. *)
Lemma isSelected_iff s c :
  isSelected s c = true
  <-> type c = current /\ exists n, day c = Some n /\ selectedDay s = Some n.
Proof.
  unfold isSelected, currentMonth.
  destruct (day c) as [n |];
    [| split; [discriminate | intros (_ & n & Hn & _); discriminate]].
  destruct (selectedDay s) as [k |];
    [| split; [discriminate | intros (_ & n' & _ & Hn); discriminate]].
  rewrite Z.eqb_refl.
  replace (getMonth (selectedDate s) =? getMonth (selectedDate s) - 1)%Z
    with false by (symmetry; apply Z.eqb_neq; lia).
  replace (getMonth (selectedDate s) =? getMonth (selectedDate s) + 1)%Z
    with false by (symmetry; apply Z.eqb_neq; lia).
  rewrite !andb_false_r, !orb_false_r, andb_true_r.
  split.
  - intros H. apply andb_prop in H. destruct H as [Hk Ht].
    apply Z.eqb_eq in Hk. subst k.
    split; [destruct (type c); try discriminate; reflexivity |].
    exists n. split; reflexivity.
  - intros (Ht & n' & Hn & Hk). apply Some_inj in Hn, Hk. subst n' k.
    rewrite Ht, Z.eqb_refl. reflexivity.
Qed.

Section RenderFacts.
Variable LocalTZA : Z -> Z.
Variable timesheet : Timesheet.

Lemma allDays_no_total sd c :
  In c (allDays LocalTZA timesheet sd) -> type c <> total.
Proof.
  intros Hin Ht. apply (in_map type) in Hin.
  rewrite allDays_types, Ht in Hin.
  apply in_app_or in Hin. destruct Hin as [H | H];
    [| apply in_app_or in H; destruct H as [H | H]];
    apply repeat_spec in H; discriminate.
Qed.

Lemma allDays_day sd c :
  In c (allDays LocalTZA timesheet sd) -> exists n, day c = Some n.
Proof.
  intros Hin. apply (in_map day) in Hin. rewrite allDays_days in Hin.
  apply in_map_iff in Hin. destruct Hin as (n & Hn & _).
  exists n. symmetry. exact Hn.
Qed.

(** The cell of day [n] of the month sits at [startingDayOfWeek + n - 1]. *)
Lemma current_cell_position sd k c n :
  nth_error (allDays LocalTZA timesheet sd) k = Some c ->
  type c = current -> day c = Some n ->
  (Z.of_nat k = startingDayOfWeek sd + n - 1)%Z.
Proof.
  intros Hk Ht Hd.
  pose proof (startingDayOfWeek_range sd) as Hs.
  pose proof (daysInMonth_bounds sd) as Hb.
  pose proof (map_nth_error type _ _ Hk) as HT.
  rewrite allDays_types, Ht in HT. apply nth_error_types_current in HT.
  pose proof (map_nth_error day _ _ Hk) as HD.
  rewrite allDays_days, Hd, nth_error_map in HD.
  rewrite nth_error_app2 in HD by (rewrite range_length; lia).
  rewrite range_length in HD.
  rewrite nth_error_app1 in HD by (rewrite range_length; lia).
  rewrite range_nth in HD by lia.
  cbn [option_map] in HD. apply Some_inj, Some_inj in HD. lia.
Qed.

Lemma renderDayCell_eq s w j week c tc cts ct :
  nth_error (rows LocalTZA timesheet (selectedDate s)) w = Some week ->
  nth_error (slice week 0 7) j = Some c ->
  nth_error week 7 = Some tc ->
  columnTotals LocalTZA timesheet (selectedDate s) = Some cts ->
  nth_error cts j = Some ct ->
  renderDayCell LocalTZA timesheet s w j
  = Some {| p_dayData := c; p_weekIndex := w; p_dayIndex := j;
            p_isSelected := isSelected s c;
            p_rowPercentage :=
              rowPercentage c (selectedStatType s)
                (statHours (hours tc) (selectedStatType s));
            p_columnPercentage :=
              columnPercentage c (selectedStatType s)
                (statHours ct (selectedStatType s)) |}.
Proof.
  intros H1 H2 H3 H4 H5. unfold renderDayCell.
  rewrite H1, H2, H3, H4, H5. reflexivity.
Qed.

Lemma renderDayCell_inv s w j p :
  renderDayCell LocalTZA timesheet s w j = Some p ->
  exists week c tc cts ct,
    nth_error (rows LocalTZA timesheet (selectedDate s)) w = Some week
    /\ nth_error (slice week 0 7) j = Some c
    /\ nth_error week 7 = Some tc
    /\ columnTotals LocalTZA timesheet (selectedDate s) = Some cts
    /\ nth_error cts j = Some ct
    /\ p = {| p_dayData := c; p_weekIndex := w; p_dayIndex := j;
              p_isSelected := isSelected s c;
              p_rowPercentage :=
                rowPercentage c (selectedStatType s)
                  (statHours (hours tc) (selectedStatType s));
              p_columnPercentage :=
                columnPercentage c (selectedStatType s)
                  (statHours ct (selectedStatType s)) |}.
Proof.
  unfold renderDayCell.
  destruct (nth_error (rows LocalTZA timesheet (selectedDate s)) w)
    as [week |] eqn:H1; [| discriminate].
  destruct (nth_error (slice week 0 7) j) as [c |] eqn:H2; [| discriminate].
  destruct (nth_error week 7) as [tc |] eqn:H3; [| discriminate].
  destruct (columnTotals LocalTZA timesheet (selectedDate s))
    as [cts |] eqn:H4; [| discriminate].
  destruct (nth_error cts j) as [ct |] eqn:H5; [| discriminate].
  intros H. apply Some_inj in H.
  exists week, c, tc, cts, ct.
  split; [reflexivity |]. split; [exact H2 |]. split; [exact H3 |].
  split; [reflexivity |]. split; [exact H5 |]. symmetry. exact H.
Qed.

(** The parts of a rendered week. *)
Lemma rendered_week sd w :
  (w < Z.to_nat (weeksNeeded sd))%nat ->
  exists wd,
    nth_error (rows LocalTZA timesheet sd) w
    = Some (wd ++ [totalCell (weekTotalOf wd)])
    /\ List.length wd = 7%nat
    /\ slice (wd ++ [totalCell (weekTotalOf wd)]) 0 7 = wd
    /\ nth_error (wd ++ [totalCell (weekTotalOf wd)]) 7
       = Some (totalCell (weekTotalOf wd))
    /\ (forall j, (j < 7)%nat ->
          nth_error wd j
          = nth_error (allDays LocalTZA timesheet sd) (7 * w + j)).
Proof.
  intros Hw.
  pose proof (week_length LocalTZA timesheet sd w Hw) as HL.
  exists (firstn 7 (skipn (7 * w) (allDays LocalTZA timesheet sd))).
  split; [apply rows_nth; exact Hw |]. split; [exact HL |].
  split; [| split].
  - rewrite slice_0_7, firstn_app, HL, firstn_all2 by lia.
    apply app_nil_r.
  - rewrite nth_error_app2 by lia. rewrite HL. reflexivity.
  - intros j Hj. apply week_nth. exact Hj.
Qed.

Lemma rendered_cell_at s w j p :
  renderDayCell LocalTZA timesheet s w j = Some p ->
  (w < Z.to_nat (weeksNeeded (selectedDate s)))%nat /\ (j < 7)%nat
  /\ nth_error (allDays LocalTZA timesheet (selectedDate s)) (7 * w + j)
     = Some (p_dayData p)
  /\ p_weekIndex p = w /\ p_dayIndex p = j
  /\ p_isSelected p = isSelected s (p_dayData p).
Proof.
  intros H.
  destruct (renderDayCell_inv _ _ _ _ H)
    as (week & c & tc & cts & ct & H1 & H2 & H3 & H4 & H5 & Hp).
  assert (Hw : (w < Z.to_nat (weeksNeeded (selectedDate s)))%nat).
  { rewrite <- (rows_length LocalTZA timesheet (selectedDate s)).
    apply nth_error_Some. rewrite H1. discriminate. }
  destruct (rendered_week (selectedDate s) w Hw)
    as (wd & R1 & HL & R2 & R3 & R4).
  rewrite H1 in R1. apply Some_inj in R1. rewrite R1, R2 in H2.
  assert (Hj : (j < 7)%nat).
  { rewrite <- HL. apply nth_error_Some. rewrite H2. discriminate. }
  rewrite R4 in H2 by exact Hj.
  rewrite Hp. cbn [p_dayData p_weekIndex p_dayIndex p_isSelected].
  split; [exact Hw |]. split; [exact Hj |]. split; [exact H2 |].
  split; [reflexivity |]. split; reflexivity.
Qed.

Lemma rendered_cell_exists s w j :
  (w < Z.to_nat (weeksNeeded (selectedDate s)))%nat -> (j < 7)%nat ->
  exists p, renderDayCell LocalTZA timesheet s w j = Some p.
Proof.
  intros Hw Hj.
  destruct (rendered_week (selectedDate s) w Hw)
    as (wd & R1 & HL & R2 & R3 & R4).
  destruct (nth_error wd j) as [c |] eqn:Hc;
    [| apply nth_error_None in Hc; lia].
  destruct (columnTotals_grand LocalTZA timesheet (selectedDate s))
    as (cts & grand & C1 & C2 & _).
  destruct (nth_error cts j) as [ct |] eqn:Hct;
    [| apply nth_error_None in Hct; lia].
  eexists. eapply renderDayCell_eq.
  - exact R1.
  - rewrite R2. exact Hc.
  - exact R3.
  - exact C1.
  - exact Hct.
Qed.

(** X9. The grid renders exactly seven day cells for each of its weeks,
    and none of the reads [week[7]] and [columnTotals[dayIndex]] fails:
    the cell at [dayIndex] of week [weekIndex] is the cell
    [7 * weekIndex + dayIndex] of the month's cells, it is a day cell
    (never a total) and it shows a day. *)
Theorem render_day_cells (s : State) (w j : nat) :
  ((w < Z.to_nat (weeksNeeded (selectedDate s)))%nat /\ (j < 7)%nat ->
   exists p,
     renderDayCell LocalTZA timesheet s w j = Some p
     /\ nth_error (allDays LocalTZA timesheet (selectedDate s)) (7 * w + j)
        = Some (p_dayData p)
     /\ p_weekIndex p = w /\ p_dayIndex p = j
     /\ type (p_dayData p) <> total
     /\ exists n, day (p_dayData p) = Some n)
  /\ (renderDayCell LocalTZA timesheet s w j <> None ->
      (w < Z.to_nat (weeksNeeded (selectedDate s)))%nat /\ (j < 7)%nat).
Proof.
  split.
  - intros [Hw Hj].
    destruct (rendered_cell_exists s w j Hw Hj) as [p Hp].
    destruct (rendered_cell_at s w j p Hp) as (_ & _ & Hc & Hwi & Hji & _).
    exists p. split; [exact Hp |]. split; [exact Hc |].
    split; [exact Hwi |]. split; [exact Hji |].
    apply nth_error_In in Hc.
    split; [exact (allDays_no_total _ _ Hc) | exact (allDays_day _ _ Hc)].
  - intros H.
    destruct (renderDayCell LocalTZA timesheet s w j) as [p |] eqn:Hp;
      [| exfalso; apply H; reflexivity].
    destruct (rendered_cell_at s w j p Hp) as (Hw & Hj & _).
    split; [exact Hw | exact Hj].
Qed.

(** X10. A rendered day cell is marked selected exactly when it is a
    cell of the month and shows the selected day; at most one cell of the
    grid is. *)
Theorem selected_cell_unique (s : State) (w j : nat) (p : DayCellProps) :
  renderDayCell LocalTZA timesheet s w j = Some p ->
  (p_isSelected p = true
   <-> type (p_dayData p) = current /\ selectedDay s = day (p_dayData p))
  /\ (p_isSelected p = true ->
      forall w' j' p',
        renderDayCell LocalTZA timesheet s w' j' = Some p' ->
        p_isSelected p' = true -> w' = w /\ j' = j).
Proof.
  intros Hp.
  destruct (rendered_cell_at s w j p Hp) as (Hw & Hj & Hc & _ & _ & Hs).
  destruct (allDays_day _ _ (nth_error_In _ _ Hc)) as [n Hn].
  split.
  - rewrite Hs, isSelected_iff, Hn. split.
    + intros (Ht & n' & E1 & E2). apply Some_inj in E1. subst n'.
      split; [exact Ht | exact E2].
    + intros (Ht & E). split; [exact Ht |]. exists n.
      split; [reflexivity | exact E].
  - intros Hsel w' j' p' Hp' Hsel'.
    destruct (rendered_cell_at s w' j' p' Hp') as (Hw' & Hj' & Hc' & _ & _ & Hs').
    rewrite Hs in Hsel. rewrite Hs' in Hsel'.
    apply isSelected_iff in Hsel. apply isSelected_iff in Hsel'.
    destruct Hsel as (Ht & m & Hm & Hk).
    destruct Hsel' as (Ht' & m' & Hm' & Hk').
    rewrite Hk in Hk'. apply Some_inj in Hk'. subst m'.
    pose proof (current_cell_position _ _ _ _ Hc Ht Hm) as P.
    pose proof (current_cell_position _ _ _ _ Hc' Ht' Hm') as P'.
    lia.
Qed.

(** The grid is a function of the month and the year displayed. *)
Lemma grid_by_month d d' :
  getFullYear d = getFullYear d' -> getMonth d = getMonth d' ->
  rows LocalTZA timesheet d = rows LocalTZA timesheet d'
  /\ columnTotals LocalTZA timesheet d = columnTotals LocalTZA timesheet d'.
Proof.
  intros Hy Hm.
  unfold columnTotals, rows, allDays, nextMonthDays, remainingDays,
    currentMonthDays, previousMonthDays, totalCells, weeksNeeded, totalDays,
    daysInMonth, startingDayOfWeek, lastDayOfMonth, firstDayOfMonth,
    currentYear, currentMonth.
  rewrite Hy, Hm. split; reflexivity.
Qed.

(** X11. A click on a selectable day cell selects that cell and nothing
    else: the grid rendered afterwards is the grid rendered before, cell
    by cell, except that the clicked cell, and only it, is marked
    selected.  (Years 0 to 99 are excluded: [new Date(year, month, day)]
    reads them as 1900 to 1999.) *)
Theorem click_selects_the_cell (s0 : State) (w j : nat) (p : DayCellProps) :
  ~ (0 <= getFullYear (selectedDate s0) <= 99)%Z ->
  renderDayCell LocalTZA timesheet s0 w j = Some p ->
  isSelectable (p_dayData p) (selectedStatType s0) = true ->
  exists s1,
    clickDayCell LocalTZA timesheet w j s0 = Some s1
    /\ selectedDay s1 = day (p_dayData p)
    /\ forall w' j' p',
         renderDayCell LocalTZA timesheet s0 w' j' = Some p' ->
         renderDayCell LocalTZA timesheet s1 w' j'
         = Some {| p_dayData := p_dayData p';
                   p_weekIndex := w'; p_dayIndex := j';
                   p_isSelected := (w' =? w)%nat && (j' =? j)%nat;
                   p_rowPercentage := p_rowPercentage p';
                   p_columnPercentage := p_columnPercentage p' |}.
Proof.
  intros Hyear Hp Hsel.
  destruct (rendered_cell_at s0 w j p Hp) as (Hw & Hj & Hc & _ & _ & _).
  destruct (renderDayCell_inv _ _ _ _ Hp)
    as (week & c & tc & cts & ct & H1 & H2 & H3 & H4 & H5 & Ep).
  assert (Ec : p_dayData p = c) by (rewrite Ep; reflexivity).
  rewrite Ec in Hc, Hsel.
  unfold isSelectable in Hsel. apply andb_prop in Hsel.
  destruct Hsel as [Ht Hh].
  assert (Ht' : type c = current)
    by (destruct (type c); try discriminate; reflexivity).
  destruct (current_cell_day LocalTZA timesheet (selectedDate s0) c
              (nth_error_In _ _ Hc) Ht') as (n & Hn & Hd).
  assert (Ek : dayCellOnClick c (Z.of_nat w) (selectedStatType s0)
               = Some (n, current, Z.of_nat w)).
  { unfold dayCellOnClick. rewrite Hd, Ht, Hh, Ht'. reflexivity. }
  exists (handleDayClick n current (Z.of_nat w) s0).
  split; [| split].
  - unfold clickDayCell. rewrite H1, H2, Ek. reflexivity.
  - rewrite Ec, Hd. reflexivity.
  - intros w' j' p' Hp'.
    destruct (rendered_cell_at s0 w' j' p' Hp') as (_ & _ & Hc' & _ & _ & _).
    destruct (renderDayCell_inv _ _ _ _ Hp')
      as (week' & c' & tc' & cts' & ct' & G1 & G2 & G3 & G4 & G5 & Ep').
    assert (Ec' : p_dayData p' = c') by (rewrite Ep'; reflexivity).
    rewrite Ec' in Hc'.
    set (s1 := handleDayClick n current (Z.of_nat w) s0).
    assert (Ed : selectedDate s1
                 = newDate (getFullYear (selectedDate s0))
                           (getMonth (selectedDate s0)) n) by reflexivity.
    assert (Est : selectedStatType s1 = selectedStatType s0) by reflexivity.
    assert (Esd : selectedDay s1 = Some n) by reflexivity.
    destruct (current_cell_fields (selectedDate s0) (n - 1) ltac:(lia))
      as (FY & FM & _).
    replace (n - 1 + 1)%Z with n in FY, FM by lia.
    unfold currentYear, currentMonth in FY, FM.
    assert (EF : fullYear (getFullYear (selectedDate s0))
                 = getFullYear (selectedDate s0)).
    { unfold fullYear.
      destruct (0 <=? getFullYear (selectedDate s0))%Z eqn:A;
        [| reflexivity].
      destruct (getFullYear (selectedDate s0) <=? 99)%Z eqn:B;
        [| reflexivity].
      exfalso. apply Hyear. apply Z.leb_le in A, B. lia. }
    rewrite EF in FY. rewrite <- Ed in FY, FM.
    destruct (grid_by_month _ _ FY FM) as [ER EC].
    rewrite <- ER in G1. rewrite <- EC in G4.
    rewrite (renderDayCell_eq s1 w' j' week' c' tc' cts' ct' G1 G2 G3 G4 G5).
    rewrite Est, Ep'.
    cbn [p_dayData p_rowPercentage p_columnPercentage].
    assert (Ei : isSelected s1 c' = (w' =? w)%nat && (j' =? j)%nat).
    { destruct ((w' =? w)%nat && (j' =? j)%nat) eqn:Eq.
      - apply andb_prop in Eq. destruct Eq as [A B].
        apply Nat.eqb_eq in A, B. subst w' j'.
        rewrite Hc in Hc'. apply Some_inj in Hc'. subst c'.
        apply isSelected_iff. split; [exact Ht' |].
        exists n. split; [exact Hd | exact Esd].
      - destruct (isSelected s1 c') eqn:Es; [| reflexivity].
        apply isSelected_iff in Es. destruct Es as (Tc & m & Hm & Hk).
        rewrite Esd in Hk. apply Some_inj in Hk. subst m.
        pose proof (current_cell_position _ _ _ _ Hc Ht' Hd) as P.
        pose proof (current_cell_position _ _ _ _ Hc' Tc Hm) as P'.
        destruct (rendered_cell_at s0 w' j' p' Hp') as (_ & Hj' & _).
        assert (w' = w /\ j' = j) as [-> ->] by lia.
        rewrite !Nat.eqb_refl in Eq. discriminate. }
    rewrite Ei. reflexivity.
Qed.

End RenderFacts.

(** ** The totals of the columns *)

#[local] Existing Instance Heq_equiv.
#[local] Existing Instance addHours_proper.

Ltac heq :=
  unfold Heq, addHours, noHours in *;
  cbn [consulting handsOn squad internal] in *;
  intuition lra.

Lemma addWeek_cols l : forall i cts,
  (i + List.length l <= List.length cts)%nat ->
  exists cts',
    addWeek i l cts = Some cts'
    /\ List.length cts' = List.length cts
    /\ (forall j, (j < i)%nat -> nth_error cts' j = nth_error cts j)
    /\ (forall j c h,
          nth_error l j = Some c -> nth_error cts (i + j) = Some h ->
          exists h', nth_error cts' (i + j) = Some h'
                     /\ Heq h' (addHours h (counted c))).
Proof.
  induction l as [| c l IH]; intros i cts HL.
  - exists cts. split; [reflexivity |]. split; [reflexivity |].
    split; [reflexivity |]. intros [| j] c h Hj; discriminate.
  - cbn [List.length] in HL.
    assert (Hstep : exists cts1,
               (if CellType_eqb (type c) current || CellType_eqb (type c) total
                then addAt i (hours c) cts else Some cts) = Some cts1
               /\ List.length cts1 = List.length cts
               /\ (forall j, j <> i -> nth_error cts1 j = nth_error cts j)
               /\ (forall h, nth_error cts i = Some h ->
                     exists h', nth_error cts1 i = Some h'
                                /\ Heq h' (addHours h (counted c)))).
    { unfold counted.
      destruct (CellType_eqb (type c) current || CellType_eqb (type c) total).
      - destruct (addAt_spec i (hours c) cts ltac:(lia))
          as (cts1 & A1 & A2 & A3 & A4).
        exists cts1. split; [exact A1 |]. split; [exact A2 |].
        split; [exact A4 |]. intros h Hh. rewrite A3, Hh.
        eexists. split; [reflexivity | reflexivity].
      - exists cts. split; [reflexivity |]. split; [reflexivity |].
        split; [reflexivity |]. intros h Hh. exists h.
        split; [exact Hh |]. symmetry. apply addHours_noHours_r. }
    destruct Hstep as (cts1 & S1 & S2 & S3 & S4).
    destruct (IH (S i) cts1 ltac:(lia)) as (cts' & I1 & I2 & I3 & I4).
    exists cts'. split; [cbn [addWeek]; rewrite S1; exact I1 |].
    split; [lia |]. split.
    + intros j Hj. rewrite I3 by lia. apply S3. lia.
    + intros [| j] c0 h Hc0 Hh.
      * cbn [nth_error] in Hc0. apply Some_inj in Hc0. subst c0.
        rewrite Nat.add_0_r in *. rewrite I3 by lia. apply S4. exact Hh.
      * cbn [nth_error] in Hc0.
        replace (i + S j)%nat with (S i + j)%nat in * by lia.
        apply (I4 j c0 h Hc0). rewrite S3 by lia. exact Hh.
Qed.

Lemma columns_fold (rs : list (list DayData)) : forall cts,
  Forall (fun r => List.length r = 8%nat) rs ->
  List.length cts = 8%nat ->
  exists cts',
    fold_left
      (fun acc week =>
         match acc with
         | Some cts => addWeek 0 week cts
         | None => None
         end)
      rs (Some cts)
    = Some cts'
    /\ List.length cts' = 8%nat
    /\ forall j h,
         nth_error cts j = Some h ->
         exists h',
           nth_error cts' j = Some h'
           /\ Heq h' (addHours h
                        (sumHours
                           (map (fun r => counted (nth j r (totalCell noHours)))
                                rs))).
Proof.
  induction rs as [| r rs IH]; intros cts HF HL.
  - exists cts. split; [reflexivity |]. split; [exact HL |].
    intros j h Hh. exists h. split; [exact Hh |].
    symmetry. apply addHours_noHours_r.
  - pose proof (Forall_inv HF) as Hr. pose proof (Forall_inv_tail HF) as HF'.
    cbn beta in Hr.
    destruct (addWeek_cols r 0 cts ltac:(rewrite Hr, HL; apply Nat.le_refl))
      as (cts1 & A1 & A2 & _ & A4).
    destruct (IH cts1 HF' ltac:(lia)) as (cts' & I1 & I2 & I3).
    exists cts'. split; [cbn [fold_left]; rewrite A1; exact I1 |].
    split; [exact I2 |].
    intros j h Hh.
    assert (Hj : (j < 8)%nat)
      by (rewrite <- HL; apply nth_error_Some; rewrite Hh; discriminate).
    destruct (nth_error r j) as [c |] eqn:Hc;
      [| apply nth_error_None in Hc; lia].
    destruct (A4 j c h Hc Hh) as (h1 & H1 & E1).
    destruct (I3 j h1 H1) as (h' & H' & E').
    exists h'. split; [exact H' |].
    cbn [map sumHours fold_right].
    fold (sumHours (map (fun r => counted (nth j r (totalCell noHours))) rs)).
    rewrite (nth_error_nth _ _ _ Hc).
    rewrite E', E1. apply addHours_assoc.
Qed.

Lemma counted_current cs :
  Forall (fun c => type c <> total) cs ->
  Heq (sumHours (map counted cs)) (sumHours (map hours (filter isCurrent cs))).
Proof.
  induction 1 as [| c cs Hc _ IH]; [reflexivity |].
  cbn [map filter sumHours fold_right]. fold (sumHours (map counted cs)).
  rewrite IH. unfold counted, isCurrent.
  destruct (type c); try (exfalso; apply Hc; reflexivity);
    cbn [CellType_eqb orb map sumHours fold_right];
    try apply addHours_noHours_l; reflexivity.
Qed.

(** In a row, the cell of the week's total counts what its seven day
    cells count together. *)
Lemma row_reconciles wd :
  List.length wd = 7%nat -> Forall (fun c => type c <> total) wd ->
  let r := wd ++ [totalCell (weekTotalOf wd)] in
  let d := totalCell noHours in
  Heq (sumHours (map (fun j => counted (nth j r d)) (seq 0 7)))
      (counted (nth 7 r d)).
Proof.
  intros HL HT r d.
  pose proof (counted_current wd HT) as E.
  pose proof (weekTotalOf_sum wd) as W. rewrite <- E in W.
  do 7 (destruct wd as [| ? wd]; [discriminate |]).
  destruct wd; [| discriminate].
  subst r d. cbn [app nth seq map].
  unfold counted at 8. cbn [type totalCell CellType_eqb orb hours].
  rewrite W. reflexivity.
Qed.

Lemma sum_interchange {A} (a f : A -> Hours) l :
  Heq (sumHours (map (fun j => addHours (a j) (f j)) l))
      (addHours (sumHours (map a l)) (sumHours (map f l))).
Proof.
  induction l as [| x l IH]; cbn [map sumHours fold_right].
  - symmetry. apply addHours_noHours_l.
  - fold (sumHours (map (fun j => addHours (a j) (f j)) l)).
    fold (sumHours (map a l)). fold (sumHours (map f l)).
    rewrite IH.
    generalize (sumHours (map a l)) (sumHours (map f l)) (a x) (f x).
    intros s1 s2 ax fx. unfold Heq, addHours; cbn.
    repeat split; ring.
Qed.

Section ColumnFacts.
Variable LocalTZA : Z -> Z.
Variable timesheet : Timesheet.
Variable sd : Date.

Lemma rows_of_weeks r :
  In r (rows LocalTZA timesheet sd) ->
  exists wd,
    r = wd ++ [totalCell (weekTotalOf wd)]
    /\ List.length wd = 7%nat
    /\ Forall (fun c => type c <> total) wd
    /\ Forall (fun c => In c (allDays LocalTZA timesheet sd)) wd.
Proof.
  intros Hin. apply In_nth_error in Hin. destruct Hin as [w Hw].
  assert (Hlt : (w < Z.to_nat (weeksNeeded sd))%nat).
  { rewrite <- (rows_length LocalTZA timesheet sd).
    apply nth_error_Some. rewrite Hw. discriminate. }
  destruct (rendered_week LocalTZA timesheet sd w Hlt)
    as (wd & R1 & HL & _ & _ & R4).
  rewrite Hw in R1. apply Some_inj in R1.
  exists wd. split; [exact R1 |]. split; [exact HL |].
  assert (HA : Forall (fun c => In c (allDays LocalTZA timesheet sd)) wd).
  { apply Forall_forall. intros c Hc.
    apply In_nth_error in Hc. destruct Hc as [j Hj].
    assert (Hj7 : (j < 7)%nat)
      by (rewrite <- HL; apply nth_error_Some; rewrite Hj; discriminate).
    rewrite R4 in Hj by exact Hj7.
    exact (nth_error_In _ _ Hj). }
  split; [| exact HA].
  apply Forall_forall. intros c Hc.
  exact (allDays_no_total LocalTZA timesheet sd c
           (proj1 (Forall_forall _ _) HA c Hc)).
Qed.

Lemma rows_of_weeks' r :
  In r (rows LocalTZA timesheet sd) ->
  exists wd,
    r = wd ++ [totalCell (weekTotalOf wd)]
    /\ List.length wd = 7%nat
    /\ Forall (fun c => type c <> total) wd.
Proof.
  intros Hin. destruct (rows_of_weeks r Hin) as (wd & H1 & H2 & H3 & _).
  exists wd. split; [exact H1 |]. split; [exact H2 | exact H3].
Qed.

(** The cells of a column of the grid are cells of [allDays]. *)
Lemma column_cells j :
  (j < 7)%nat ->
  Forall (fun c => In c (allDays LocalTZA timesheet sd))
         (map (fun r => nth j r (totalCell noHours))
              (rows LocalTZA timesheet sd)).
Proof.
  intros Hj. apply Forall_forall. intros c Hc.
  apply in_map_iff in Hc. destruct Hc as (r & <- & Hr).
  destruct (rows_of_weeks r Hr) as (wd & -> & HL & _ & HA).
  rewrite app_nth1 by (rewrite HL; exact Hj).
  exact (proj1 (Forall_forall _ _) HA _
               (nth_In wd _ ltac:(rewrite HL; exact Hj))).
Qed.

Lemma columnTotals_counted :
  exists cts,
    columnTotals LocalTZA timesheet sd = Some cts
    /\ List.length cts = 8%nat
    /\ forall j, (j < 8)%nat ->
         exists h, nth_error cts j = Some h
           /\ Heq h (sumHours
                       (map (fun r => counted (nth j r (totalCell noHours)))
                            (rows LocalTZA timesheet sd))).
Proof.
  assert (HF : Forall (fun r => List.length r = 8%nat)
                      (rows LocalTZA timesheet sd)).
  { apply Forall_forall. intros r Hr.
    destruct (rows_of_weeks r Hr) as (wd & -> & HL & _).
    rewrite length_app, HL. reflexivity. }
  destruct (columns_fold (rows LocalTZA timesheet sd) (repeat noHours 8)
              HF eq_refl) as (cts & C1 & C2 & C3).
  exists cts. split; [exact C1 |]. split; [exact C2 |].
  intros j Hj.
  destruct (C3 j noHours (nth_error_repeat noHours Hj)) as (h & H1 & H2).
  exists h. split; [exact H1 |]. rewrite H2. apply addHours_noHours_l.
Qed.

Lemma column_counted_current j :
  (j < 7)%nat ->
  Heq (sumHours
         (map (fun r => counted (nth j r (totalCell noHours)))
              (rows LocalTZA timesheet sd)))
      (sumHours
         (map hours
            (filter isCurrent
               (map (fun r => nth j r (totalCell noHours))
                    (rows LocalTZA timesheet sd))))).
Proof.
  intros Hj.
  rewrite <- (map_map (fun r => nth j r (totalCell noHours)) counted).
  apply counted_current.
  eapply Forall_impl; [| exact (column_cells j Hj)].
  intros c Hc. exact (allDays_no_total LocalTZA timesheet sd c Hc).
Qed.

Lemma rows_reconcile (rs : list (list DayData)) :
  (forall r, In r rs ->
     exists wd, r = wd ++ [totalCell (weekTotalOf wd)]
                /\ List.length wd = 7%nat
                /\ Forall (fun c => type c <> total) wd) ->
  Heq (sumHours
         (map (fun j =>
                 sumHours
                   (map (fun r => counted (nth j r (totalCell noHours))) rs))
              (seq 0 7)))
      (sumHours (map (fun r => counted (nth 7 r (totalCell noHours))) rs)).
Proof.
  induction rs as [| r rs IH]; intros HR.
  - cbn. heq.
  - destruct (HR r (or_introl eq_refl)) as (wd & Er & HL & HT).
    pose proof (row_reconciles wd HL HT) as Row.
    pose proof (IH (fun r' H => HR r' (or_intror H))) as Rest.
    cbn zeta in Row. rewrite <- Er in Row.
    change (Heq (sumHours
                   (map (fun j =>
                           addHours
                             (counted (nth j r (totalCell noHours)))
                             (sumHours
                                (map (fun r =>
                                        counted (nth j r (totalCell noHours)))
                                     rs)))
                        (seq 0 7)))
                (addHours
                   (counted (nth 7 r (totalCell noHours)))
                   (sumHours
                      (map (fun r => counted (nth 7 r (totalCell noHours)))
                           rs)))).
    rewrite sum_interchange, Row, Rest. reflexivity.
Qed.

Lemma columnTotals_reconcile cts :
  columnTotals LocalTZA timesheet sd = Some cts ->
  exists g, nth_error cts 7 = Some g /\ Heq (sumHours (firstn 7 cts)) g.
Proof.
  intros Hc.
  destruct columnTotals_counted as (cts' & C1 & C2 & Col).
  rewrite Hc in C1. apply Some_inj in C1. subst cts'.
  pose proof (rows_reconcile (rows LocalTZA timesheet sd) rows_of_weeks')
    as Rec.
  cbn [seq map sumHours fold_right] in Rec.
  destruct (Col 0%nat ltac:(lia)) as (h0 & N0 & E0).
  destruct (Col 1%nat ltac:(lia)) as (h1 & N1 & E1).
  destruct (Col 2%nat ltac:(lia)) as (h2 & N2 & E2).
  destruct (Col 3%nat ltac:(lia)) as (h3 & N3 & E3).
  destruct (Col 4%nat ltac:(lia)) as (h4 & N4 & E4).
  destruct (Col 5%nat ltac:(lia)) as (h5 & N5 & E5).
  destruct (Col 6%nat ltac:(lia)) as (h6 & N6 & E6).
  destruct (Col 7%nat ltac:(lia)) as (h7 & N7 & E7).
  exists h7. split; [exact N7 |].
  do 8 (destruct cts as [| ? cts]; [discriminate |]).
  cbn [nth_error] in N0, N1, N2, N3, N4, N5, N6, N7.
  apply Some_inj in N0, N1, N2, N3, N4, N5, N6, N7. subst.
  cbn [firstn sumHours fold_right].
  rewrite E0, E1, E2, E3, E4, E5, E6, E7. exact Rec.
Qed.

Lemma columnTotals_column cts j :
  columnTotals LocalTZA timesheet sd = Some cts -> (j < 7)%nat ->
  exists h,
    nth_error cts j = Some h
    /\ Heq h (sumHours
                (map hours
                   (filter isCurrent
                      (map (fun r => nth j r (totalCell noHours))
                           (rows LocalTZA timesheet sd))))).
Proof.
  intros Hc Hj.
  destruct columnTotals_counted as (cts' & C1 & _ & Col).
  rewrite Hc in C1. apply Some_inj in C1. subst cts'.
  destruct (Col j ltac:(lia)) as (h & H1 & H2).
  exists h. split; [exact H1 |]. rewrite H2.
  apply column_counted_current. exact Hj.
Qed.

End ColumnFacts.

(** ** The percentages *)

Lemma toFixed1_percent x : 0 <= x <= 100 -> 0 <= toFixed1 x <= 100.
Proof.
  intros [H0 H1]. unfold toFixed1.
  assert (E : Qltb x 0 = false) by (apply Qltb_ge; exact H0).
  rewrite E.
  assert (L : (0 <= Qfloor (x * 10 + (1 # 2)))%Z).
  { change 0%Z with (Qfloor 0). apply Qfloor_resp_le. lra. }
  assert (U : (Qfloor (x * 10 + (1 # 2)) <= 1000)%Z).
  { change 1000%Z with (Qfloor (1000 + (1 # 2))). apply Qfloor_resp_le. lra. }
  rewrite Zle_Qle in L, U.
  revert L U. generalize (inject_Z (Qfloor (x * 10 + (1 # 2)))).
  intros z L U.
  change (inject_Z 0) with 0 in L. change (inject_Z 1000) with 1000 in U.
  unfold Qdiv. change (/ 10) with (1 # 10). split; lra.
Qed.

Lemma share_percent a b : 0 < a -> a <= b -> 0 <= a / b * 100 <= 100.
Proof.
  intros Ha Hab. assert (Hb : 0 < b) by lra.
  assert (L : 0 <= a / b) by (apply Qle_shift_div_l; [exact Hb | lra]).
  assert (U : a / b <= 1) by (apply Qle_shift_div_r; [exact Hb | lra]).
  revert L U. generalize (a / b). intros q L U. split; lra.
Qed.

Lemma statHours_nonneg h st : nonNegHours h -> 0 <= statHours h st.
Proof. intros (H1 & H2 & H3 & H4). destruct st; assumption. Qed.

Lemma nonNegHours_Heq a b : Heq a b -> nonNegHours a -> nonNegHours b.
Proof.
  intros (H1 & H2 & H3 & H4) (G1 & G2 & G3 & G4).
  unfold nonNegHours. rewrite <- H1, <- H2, <- H3, <- H4.
  split; [exact G1 |]. split; [exact G2 |]. split; [exact G3 | exact G4].
Qed.

Lemma sumHours_nonneg l : Forall nonNegHours l -> nonNegHours (sumHours l).
Proof.
  induction 1 as [| h l (H1 & H2 & H3 & H4) _ (G1 & G2 & G3 & G4)].
  - unfold nonNegHours. cbn. repeat split; apply Qle_refl.
  - unfold nonNegHours. cbn [sumHours fold_right addHours consulting handsOn
                             squad internal].
    fold (sumHours l). repeat split; lra.
Qed.

Lemma sumHours_member l st h :
  Forall nonNegHours l -> In h l ->
  statHours h st <= statHours (sumHours l) st.
Proof.
  induction 1 as [| x l Hx Hl IH]; intros Hin; [contradiction |].
  cbn [sumHours fold_right]. fold (sumHours l). rewrite statHours_add.
  pose proof (statHours_nonneg _ st Hx) as Px.
  pose proof (statHours_nonneg _ st (sumHours_nonneg l Hl)) as Pl.
  destruct Hin as [<- | Hin]; [lra |]. specialize (IH Hin). lra.
Qed.

Lemma isCurrent_type c : isCurrent c = true <-> type c = current.
Proof.
  unfold isCurrent. destruct (type c); split;
    try discriminate; reflexivity.
Qed.

Section PercentFacts.
Variable LocalTZA : Z -> Z.
Variable timesheet : Timesheet.

(** No entry of the sheet has negative hours. *)
Hypothesis nonNeg :
  Forall (fun e => nonNegHours (entryHours e)) (byDate timesheet).

Lemma getHours_nonneg d : nonNegHours (getHoursForDate timesheet d).
Proof.
  rewrite getHoursForDate_find.
  destruct (find (fun e => String.eqb (date e) (formatDate d))
                 (byDate timesheet)) as [e |] eqn:E.
  - apply find_some in E. destruct E as [Hin _].
    exact (proj1 (Forall_forall _ _) nonNeg e Hin).
  - unfold nonNegHours. cbn. repeat split; apply Qle_refl.
Qed.

Lemma current_hours_nonneg sd c :
  In c (allDays LocalTZA timesheet sd) -> type c = current ->
  nonNegHours (hours c).
Proof.
  intros Hin Ht.
  assert (Hc : In c (filter isCurrent (allDays LocalTZA timesheet sd))).
  { apply filter_In. split; [exact Hin |]. apply isCurrent_type. exact Ht. }
  rewrite current_of_allDays, currentMonthDays_cells in Hc.
  apply in_map_iff in Hc. destruct Hc as (i & <- & _).
  exact (getHours_nonneg _).
Qed.

Lemma current_sum_nonneg sd (cs : list DayData) :
  Forall (fun c => In c (allDays LocalTZA timesheet sd)) cs ->
  Forall nonNegHours (map hours (filter isCurrent cs)).
Proof.
  intros HA. apply Forall_forall. intros h Hh.
  apply in_map_iff in Hh. destruct Hh as (c & <- & Hc).
  apply filter_In in Hc. destruct Hc as [Hc Ht].
  apply (current_hours_nonneg sd).
  - exact (proj1 (Forall_forall _ _) HA c Hc).
  - apply isCurrent_type. exact Ht.
Qed.

(** A cell of the month is counted in the total of its week and in the
    total of its column. *)
Lemma cell_within_totals s w j p :
  renderDayCell LocalTZA timesheet s w j = Some p ->
  type (p_dayData p) = current ->
  exists T ct,
    p_rowPercentage p
    = rowPercentage (p_dayData p) (selectedStatType s)
                    (statHours T (selectedStatType s))
    /\ p_columnPercentage p
       = columnPercentage (p_dayData p) (selectedStatType s)
                          (statHours ct (selectedStatType s))
    /\ (forall st, statHours (hours (p_dayData p)) st <= statHours T st)
    /\ (forall st, statHours (hours (p_dayData p)) st <= statHours ct st).
Proof.
  intros Hp Ht.
  destruct (rendered_cell_at LocalTZA timesheet s w j p Hp)
    as (Hw & Hj & Hc & _ & _ & _).
  destruct (renderDayCell_inv _ _ _ _ _ _ Hp)
    as (week & c & tc & cts & ct & H1 & H2 & H3 & H4 & H5 & Ep).
  assert (Ec : p_dayData p = c) by (rewrite Ep; reflexivity).
  rewrite Ec in Hc, Ht |- *.
  destruct (rendered_week LocalTZA timesheet (selectedDate s) w Hw)
    as (wd & R1 & HL & R2 & R3 & R4).
  rewrite H1 in R1. apply Some_inj in R1. subst week.
  rewrite R2 in H2. rewrite R3 in H3. apply Some_inj in H3. subst tc.
  destruct (rows_of_weeks LocalTZA timesheet (selectedDate s) _
              (nth_error_In _ _ H1)) as (wd' & Ewd & _ & _ & HA).
  apply app_inj_tail in Ewd. destruct Ewd as [<- _].
  exists (weekTotalOf wd), ct.
  split; [rewrite Ep; reflexivity |]. split; [rewrite Ep; reflexivity |].
  split.
  - intros st. rewrite (statHours_Heq _ _ st (weekTotalOf_sum wd)).
    apply sumHours_member.
    + exact (current_sum_nonneg (selectedDate s) wd HA).
    + apply in_map. apply filter_In.
      split; [exact (nth_error_In _ _ H2) | apply isCurrent_type; exact Ht].
  - intros st.
    destruct (columnTotals_counted LocalTZA timesheet (selectedDate s))
      as (cts' & C1 & _ & Col).
    rewrite H4 in C1. apply Some_inj in C1. subst cts'.
    destruct (Col j ltac:(lia)) as (h & N & E).
    rewrite H5 in N. apply Some_inj in N. subst h.
    rewrite (statHours_Heq _ _ st E).
    rewrite (statHours_Heq _ _ st
               (column_counted_current LocalTZA timesheet (selectedDate s)
                                       j Hj)).
    apply sumHours_member.
    + exact (current_sum_nonneg (selectedDate s) _
               (column_cells LocalTZA timesheet (selectedDate s) j Hj)).
    + apply in_map. apply filter_In.
      split; [| apply isCurrent_type; exact Ht].
      apply in_map_iff. exists (wd ++ [totalCell (weekTotalOf wd)]).
      split; [| exact (nth_error_In _ _ H1)].
      rewrite app_nth1 by (rewrite HL; exact Hj).
      apply nth_error_nth. exact H2.
Qed.

Lemma percentage_shown c st T :
  (isSelectable c st = true -> statHours (hours c) st <= T) ->
  let r := if CellType_eqb (type c) current
              && Qltb 0 (statHours (hours c) st) && Qltb 0 T
           then Some (toFixed1 (statHours (hours c) st / T * 100))
           else None in
  (r <> None <-> isSelectable c st = true)
  /\ (forall q, r = Some q -> 0 <= q <= 100).
Proof.
  intros HT r. subst r. unfold isSelectable in *.
  destruct (CellType_eqb (type c) current && Qltb 0 (statHours (hours c) st))
    eqn:E; cbn [andb].
  - apply andb_prop in E. destruct E as [_ E]. apply Qltb_lt in E.
    specialize (HT eq_refl).
    assert (ET : Qltb 0 T = true) by (apply Qltb_lt; lra).
    rewrite ET. split.
    + split; [reflexivity | discriminate].
    + intros q Hq. apply Some_inj in Hq. rewrite <- Hq.
      apply toFixed1_percent. apply share_percent; assumption.
  - split.
    + split; [intros H; exfalso; apply H; reflexivity | discriminate].
    + discriminate.
Qed.

(** X13. With no negative hours in the sheet, a rendered day cell shows
    its share of the week and its share of the column exactly when it is
    selectable (a cell of the month with hours for the selected
    statistic), and each share lies between 0 and 100. *)
Theorem day_cell_percentages (s : State) (w j : nat) (p : DayCellProps) :
  renderDayCell LocalTZA timesheet s w j = Some p ->
  (p_rowPercentage p <> None
   <-> isSelectable (p_dayData p) (selectedStatType s) = true)
  /\ (p_columnPercentage p <> None
      <-> isSelectable (p_dayData p) (selectedStatType s) = true)
  /\ (forall q, p_rowPercentage p = Some q -> 0 <= q <= 100)
  /\ (forall q, p_columnPercentage p = Some q -> 0 <= q <= 100).
Proof.
  intros Hp.
  destruct (renderDayCell_inv _ _ _ _ _ _ Hp)
    as (week & c & tc & cts & ct & _ & _ & _ & _ & _ & Ep).
  assert (Er : p_rowPercentage p
               = rowPercentage (p_dayData p) (selectedStatType s)
                   (statHours (hours tc) (selectedStatType s)))
    by (rewrite Ep; reflexivity).
  assert (Ek : p_columnPercentage p
               = columnPercentage (p_dayData p) (selectedStatType s)
                   (statHours ct (selectedStatType s)))
    by (rewrite Ep; reflexivity).
  assert (B : forall T' ct',
             p_rowPercentage p
             = rowPercentage (p_dayData p) (selectedStatType s) T' ->
             p_columnPercentage p
             = columnPercentage (p_dayData p) (selectedStatType s) ct' ->
             (isSelectable (p_dayData p) (selectedStatType s) = true ->
              statHours (hours (p_dayData p)) (selectedStatType s) <= T'
              /\ statHours (hours (p_dayData p)) (selectedStatType s) <= ct') ->
             (p_rowPercentage p <> None
              <-> isSelectable (p_dayData p) (selectedStatType s) = true)
             /\ (p_columnPercentage p <> None
                 <-> isSelectable (p_dayData p) (selectedStatType s) = true)
             /\ (forall q, p_rowPercentage p = Some q -> 0 <= q <= 100)
             /\ (forall q, p_columnPercentage p = Some q -> 0 <= q <= 100)).
  { intros T' ct' -> -> HB.
    destruct (percentage_shown (p_dayData p) (selectedStatType s) T'
                (fun H => proj1 (HB H))) as [R1 R2].
    destruct (percentage_shown (p_dayData p) (selectedStatType s) ct'
                (fun H => proj2 (HB H))) as [K1 K2].
    split; [exact R1 |]. split; [exact K1 |]. split; [exact R2 | exact K2]. }
  destruct (CellType_eqb (type (p_dayData p)) current) eqn:Et.
  - assert (Ht : type (p_dayData p) = current)
      by (apply isCurrent_type; exact Et).
    destruct (cell_within_totals s w j p Hp Ht) as (T & ct' & Q1 & Q2 & Q3 & Q4).
    apply (B _ _ Q1 Q2). intros _. split; [apply Q3 | apply Q4].
  - apply (B _ _ Er Ek). unfold isSelectable. rewrite Et. discriminate.
Qed.

Lemma week_totals_nonneg sd :
  Forall nonNegHours
         (map (fun r => hours (nth 7 r (totalCell noHours)))
              (rows LocalTZA timesheet sd)).
Proof.
  apply Forall_forall. intros h Hh.
  apply in_map_iff in Hh. destruct Hh as (r & <- & Hr).
  destruct (rows_of_weeks LocalTZA timesheet sd r Hr)
    as (wd & -> & HL & _ & HA).
  rewrite app_nth2 by (rewrite HL; apply Nat.le_refl).
  rewrite HL. cbn [Nat.sub nth totalCell hours].
  apply (nonNegHours_Heq _ _ (Heq_sym _ _ (weekTotalOf_sum wd))).
  apply sumHours_nonneg. exact (current_sum_nonneg sd wd HA).
Qed.

Lemma weekday_totals_nonneg sd cts :
  columnTotals LocalTZA timesheet sd = Some cts ->
  Forall nonNegHours (firstn 7 cts).
Proof.
  intros Hc.
  apply Forall_forall. intros h Hh.
  apply In_nth_error in Hh. destruct Hh as [j Hj].
  rewrite nth_error_firstn in Hj.
  destruct (j <? 7)%nat eqn:Ej; [| discriminate].
  apply Nat.ltb_lt in Ej.
  destruct (columnTotals_column LocalTZA timesheet sd cts j Hc Ej)
    as (h' & N & E).
  rewrite Hj in N. apply Some_inj in N. subst h'.
  apply (nonNegHours_Heq _ _ (Heq_sym _ _ E)).
  apply sumHours_nonneg.
  exact (current_sum_nonneg sd _ (column_cells LocalTZA timesheet sd j Ej)).
Qed.

(** X14. With no negative hours in the sheet, the percentages on the
    total cells are well defined and lie between 0 and 100: the quotient
    by the grand total handed to the total cell of a week is never
    [NaN] or an infinity, although it is not guarded, and the total row
    shows a percentage only under the seven weekdays. *)
Theorem total_cell_percentages (s : State) :
  (forall w, (w < Z.to_nat (weeksNeeded (selectedDate s)))%nat ->
     exists o,
       renderWeekTotal LocalTZA timesheet s w = Some o
       /\ (o = None \/ exists q, o = Some (Fin q) /\ 0 <= q <= 100))
  /\ (forall i, (i < 8)%nat ->
        exists o,
          renderDayOfWeekTotal LocalTZA timesheet s i = Some o
          /\ (o = None
              \/ exists q, o = Some q /\ (i < 7)%nat /\ 0 <= q <= 100)).
Proof.
  split.
  - intros w Hw.
    destruct (rendered_week LocalTZA timesheet (selectedDate s) w Hw)
      as (wd & R1 & HL & _ & R3 & _).
    destruct (columnTotals_grand LocalTZA timesheet (selectedDate s))
      as (cts & grand & C1 & _ & C3 & C4 & _).
    exists (weekTotalColumnPercentage (weekTotalOf wd) grand
              (selectedStatType s)).
    split; [unfold renderWeekTotal; rewrite R1, C1, R3, C3; reflexivity |].
    unfold weekTotalColumnPercentage.
    destruct (Qltb 0 (statHours (weekTotalOf wd) (selectedStatType s)))
      eqn:E; [right | left; reflexivity].
    apply Qltb_lt in E.
    assert (B : statHours (weekTotalOf wd) (selectedStatType s)
                <= statHours grand (selectedStatType s)).
    { rewrite (statHours_Heq _ _ (selectedStatType s) C4).
      apply sumHours_member; [apply week_totals_nonneg |].
      apply in_map_iff. exists (wd ++ [totalCell (weekTotalOf wd)]).
      split; [| exact (nth_error_In _ _ R1)].
      rewrite app_nth2 by (rewrite HL; apply Nat.le_refl).
      rewrite HL. reflexivity. }
    assert (G : Qeq_bool (statHours grand (selectedStatType s)) 0 = false)
      by (apply Qeq_bool_false; lra).
    unfold div. rewrite G. cbn [mul numToFixed1].
    eexists. split; [reflexivity |].
    apply toFixed1_percent. apply share_percent; assumption.
  - intros i Hi.
    destruct (columnTotals_counted LocalTZA timesheet (selectedDate s))
      as (cts & C1 & C2 & _).
    destruct (columnTotals_reconcile LocalTZA timesheet (selectedDate s)
                cts C1) as (g & C3 & C4).
    destruct (nth_error cts i) as [ct |] eqn:Ei;
      [| apply nth_error_None in Ei; lia].
    exists (dayOfWeekPercentage ct i (statHours g (selectedStatType s))
              (selectedStatType s)).
    split; [unfold renderDayOfWeekTotal; rewrite C1, Ei, C3; reflexivity |].
    unfold dayOfWeekPercentage.
    destruct (Qltb 0 (statHours ct (selectedStatType s))) eqn:E;
      [| left; reflexivity].
    destruct (i <? 7)%nat eqn:E7; [| left; reflexivity].
    destruct (Qeq_bool (statHours g (selectedStatType s)) 0);
      [left; reflexivity | right].
    cbn [andb negb]. apply Qltb_lt in E. apply Nat.ltb_lt in E7.
    eexists. split; [reflexivity |]. split; [exact E7 |].
    apply toFixed1_percent. apply share_percent; [exact E |].
    rewrite <- (statHours_Heq _ _ (selectedStatType s) C4).
    apply sumHours_member.
    + exact (weekday_totals_nonneg (selectedDate s) cts C1).
    + apply (nth_error_In _ i). rewrite nth_error_firstn.
      apply Nat.ltb_lt in E7. rewrite E7. exact Ei.
Qed.

End PercentFacts.

Lemma marchSheet_nonNeg :
  Forall (fun e => nonNegHours (entryHours e)) (byDate marchSheet).
Proof.
  constructor; [| constructor].
  unfold nonNegHours. cbn.
  repeat split; apply Qle_bool_imp_le; reflexivity.
Defined.

(** ** Highlighting after a selection *)

Lemma isSelected_no_day s c : selectedDay s = None -> isSelected s c = false.
Proof.
  intros H. unfold isSelected. rewrite H.
  destruct (day c); reflexivity.
Qed.

(** X15. What the ring of a day cell shows after a selection: after a
    row is selected, exactly the cells of that week; after a weekday
    column is selected, exactly the cells under that weekday; after the
    column of the totals (index 7) is selected, every cell; after the
    month or the statistic is changed, none; after a click on a day,
    the cell of the month that shows that day. *)
Theorem selection_highlights
  (LocalTZA : Z -> Z) (timesheet : Timesheet) (e : Event) (s : State)
  (w j : nat) (p : DayCellProps) :
  renderDayCell LocalTZA timesheet (handle e s) w j = Some p ->
  match e with
  | RowSelect rowIndex =>
      isHighlighted p (handle e s) = true <-> Z.of_nat w = rowIndex
  | ColumnSelect columnIndex =>
      if (columnIndex =? 7)%Z then isHighlighted p (handle e s) = true
      else isHighlighted p (handle e s) = true <-> Z.of_nat j = columnIndex
  | MonthChange _ | StatTypeChange _ => isHighlighted p (handle e s) = false
  | DayClick n _ _ =>
      isHighlighted p (handle e s) = true
      <-> type (p_dayData p) = current /\ day (p_dayData p) = Some n
  end.
Proof.
  intros Hp.
  destruct (rendered_cell_at LocalTZA timesheet _ w j p Hp)
    as (_ & _ & _ & Hw & Hj & Hs).
  unfold isHighlighted. rewrite Hw, Hj, Hs.
  destruct e as [n ty r | c | r | inc | st]; cbn [handle].
  - assert (E : selectedDay (handleDayClick n ty r s) = Some n)
      by (destruct ty; reflexivity).
    assert (E1 : selectedColumn (handleDayClick n ty r s) = None)
      by (destruct ty; reflexivity).
    assert (E2 : selectedRow (handleDayClick n ty r s) = None)
      by (destruct ty; reflexivity).
    assert (E3 : isAllSelected (handleDayClick n ty r s) = false)
      by (destruct ty; reflexivity).
    rewrite E1, E2, E3. cbn [sameIndex]. rewrite !orb_false_r.
    rewrite isSelected_iff, E. split.
    + intros (Ht & m & Hm & Hk). apply Some_inj in Hk. subst m.
      split; [exact Ht | exact Hm].
    + intros (Ht & Hm). split; [exact Ht |]. exists n.
      split; [exact Hm | reflexivity].
  - unfold handleColumnSelect. destruct (c =? 7)%Z.
    + cbn [isAllSelected setSelectedDay setSelectedRow setSelectedColumn
           setIsAllSelected]. apply orb_true_r.
    + rewrite isSelected_no_day by reflexivity.
      cbn [selectedColumn selectedRow isAllSelected setSelectedDay
           setSelectedRow setSelectedColumn setIsAllSelected sameIndex orb].
      rewrite !orb_false_r. rewrite Z.eqb_eq.
      split; intros H; symmetry; exact H.
  - rewrite isSelected_no_day by reflexivity.
    cbn [handleRowSelect selectedColumn selectedRow isAllSelected
         setSelectedDay setSelectedRow setSelectedColumn setIsAllSelected
         sameIndex orb].
    rewrite orb_false_r. rewrite Z.eqb_eq.
    split; intros H; symmetry; exact H.
  - rewrite isSelected_no_day by reflexivity. reflexivity.
  - rewrite isSelected_no_day by reflexivity. reflexivity.
Qed.

(** ** The number of working days *)

Section WorkingDays.
Variable LocalTZA : Z -> Z.
Local Open Scope Z_scope.

Lemma stored_day_month (d : IsoDate) :
  validIso d ->
  (0 <= LocalTZA (parseDateOnly d) < msPerDay ->
   getMonth (parseDateOnly d + LocalTZA (parseDateOnly d)) = iso_month d - 1)
  /\ (- msPerDay <= LocalTZA (parseDateOnly d) < 0 ->
      getMonth (parseDateOnly d + LocalTZA (parseDateOnly d))
      = MonthFromDay (MakeDay (iso_year d) (iso_month d - 1) (iso_day d) - 1)).
Proof.
  intros [Hm Hd]. unfold getMonth, parseDateOnly.
  generalize (LocalTZA (MakeDay (iso_year d) (iso_month d - 1) (iso_day d)
                        * msPerDay)).
  intros o. split; intros Ho.
  - rewrite Day_within by exact Ho.
    apply (MakeDay_fields (iso_year d) (iso_month d - 1) (iso_day d));
      [lia | exact Hd].
  - replace (MakeDay (iso_year d) (iso_month d - 1) (iso_day d) * msPerDay + o)
      with ((MakeDay (iso_year d) (iso_month d - 1) (iso_day d) - 1) * msPerDay
            + (o + msPerDay)) by ring.
    rewrite Day_within by lia. reflexivity.
Qed.

(** X16. The count of working days under the month's name takes each
    stored date by its month alone, whatever its year.  On a host at or
    east of UTC the month is the stored one; on a host west of UTC it is
    the month of the day before, so that the first of a month counts for
    the month that precedes it. *)
Theorem working_days_shown (workingDays : list IsoDate) (sd : Date) :
  Forall validIso workingDays ->
  ((forall t, 0 <= LocalTZA t < msPerDay) ->
   workingDaysShown LocalTZA workingDays sd
   = List.length
       (filter (fun d => iso_month d - 1 =? getMonth sd) workingDays))
  /\ ((forall t, - msPerDay <= LocalTZA t < 0) ->
      workingDaysShown LocalTZA workingDays sd
      = List.length
          (filter
             (fun d =>
                MonthFromDay
                  (MakeDay (iso_year d) (iso_month d - 1) (iso_day d) - 1)
                =? getMonth sd)
             workingDays)).
Proof.
  intros HV. unfold workingDaysShown.
  split; intros HZ; f_equal; apply filter_ext_in; intros d Hd;
    pose proof (proj1 (Forall_forall _ _) HV d Hd) as Hv;
    destruct (stored_day_month d Hv) as [E W].
  - rewrite (E (HZ _)). reflexivity.
  - rewrite (W (HZ _)). reflexivity.
Qed.

End WorkingDays.

Lemma render_day_cells_witness :
  exists p,
    renderDayCell zoneUTC marchSheet marchState 2 5 = Some p
    /\ day (p_dayData p) = Some 15%Z /\ type (p_dayData p) = current.
Proof.
  destruct (proj1 (render_day_cells zoneUTC marchSheet marchState 2 5))
    as (p & Hp & _).
  - split; [apply Nat.ltb_lt; vm_compute; reflexivity | lia].
  - exists p. split; [exact Hp |].
    let v := eval vm_compute in (renderDayCell zoneUTC marchSheet marchState 2 5) in
    assert (E : renderDayCell zoneUTC marchSheet marchState 2 5 = v)
      by (vm_compute; reflexivity).
    rewrite E in Hp. apply Some_inj in Hp. subst p.
    split; vm_compute; reflexivity.
Defined.

Lemma selected_cell_unique_witness :
  let s := setSelectedDay (Some 15%Z) marchState in
  exists p,
    renderDayCell zoneUTC marchSheet s 2 5 = Some p
    /\ p_isSelected p = true
    /\ forall w' j' p',
         renderDayCell zoneUTC marchSheet s w' j' = Some p' ->
         p_isSelected p' = true -> w' = 2%nat /\ j' = 5%nat.
Proof.
  intros s.
  let v := eval vm_compute in (renderDayCell zoneUTC marchSheet s 2 5) in
  match v with
  | Some ?q =>
      assert (E : renderDayCell zoneUTC marchSheet s 2 5 = Some q)
        by (vm_compute; reflexivity);
      exists q; split; [exact E |];
      split; [reflexivity |];
      exact (proj2 (selected_cell_unique zoneUTC marchSheet s 2 5 q E)
                   eq_refl)
  end.
Defined.

Lemma click_selects_the_cell_witness :
  exists s1,
    clickDayCell zoneUTC marchSheet 2 5 marchState = Some s1
    /\ selectedDay s1 = Some 15%Z.
Proof.
  let v := eval vm_compute in (renderDayCell zoneUTC marchSheet marchState 2 5) in
  match v with
  | Some ?q =>
      assert (E : renderDayCell zoneUTC marchSheet marchState 2 5 = Some q)
        by (vm_compute; reflexivity);
      assert (Y : ~ (0 <= getFullYear (selectedDate marchState) <= 99)%Z)
        by (let y := eval vm_compute in (getFullYear (selectedDate marchState)) in
            assert (Ey : getFullYear (selectedDate marchState) = y)
              by (vm_compute; reflexivity);
            rewrite Ey; lia);
      destruct (click_selects_the_cell zoneUTC marchSheet marchState 2 5 q
                  Y E eq_refl) as (s1 & C1 & C2 & _);
      exists s1; split; [exact C1 | exact C2]
  end.
Defined.

Lemma day_cell_percentages_witness :
  exists p q,
    renderDayCell zoneUTC marchSheet marchState 2 5 = Some p
    /\ p_rowPercentage p = Some q /\ 0 <= q <= 100.
Proof.
  let v := eval vm_compute in (renderDayCell zoneUTC marchSheet marchState 2 5) in
  match v with
  | Some ?r =>
      assert (E : renderDayCell zoneUTC marchSheet marchState 2 5 = Some r)
        by (vm_compute; reflexivity);
      let o := eval vm_compute in (p_rowPercentage r) in
      match o with
      | Some ?q =>
          exists r, q; split; [exact E |]; split; [reflexivity |];
          exact (proj1 (proj2 (proj2
                   (day_cell_percentages zoneUTC marchSheet marchSheet_nonNeg
                      marchState 2 5 r E))) q eq_refl)
      end
  end.
Defined.

Lemma total_cell_percentages_witness :
  exists o,
    renderWeekTotal zoneUTC marchSheet marchState 2 = Some o
    /\ (o = None \/ exists q, o = Some (Fin q) /\ 0 <= q <= 100).
Proof.
  apply (proj1 (total_cell_percentages zoneUTC marchSheet marchSheet_nonNeg
                  marchState)).
  apply Nat.ltb_lt. vm_compute. reflexivity.
Defined.

Lemma selection_highlights_witness :
  exists p,
    renderDayCell zoneUTC marchSheet (handle (RowSelect 2) marchState) 2 5
    = Some p
    /\ isHighlighted p (handle (RowSelect 2) marchState) = true.
Proof.
  let v := eval vm_compute in
    (renderDayCell zoneUTC marchSheet (handle (RowSelect 2) marchState) 2 5) in
  match v with
  | Some ?r =>
      assert (E : renderDayCell zoneUTC marchSheet
                    (handle (RowSelect 2) marchState) 2 5 = Some r)
        by (vm_compute; reflexivity);
      exists r; split; [exact E |];
      exact (proj2 (selection_highlights zoneUTC marchSheet (RowSelect 2)
                      marchState 2 5 r E) eq_refl)
  end.
Defined.

Lemma sampleWorkingDays_valid : Forall validIso sampleWorkingDays.
Proof.
  repeat constructor; cbn; try lia;
    match goal with
    | |- (_ <= monthLength ?y ?m)%Z =>
        let v := eval vm_compute in (monthLength y m) in
        change (monthLength y m) with v; lia
    end.
Defined.

(** Three stored days count for March 2024 at UTC, one of them of 2023;
    three hours west only the fourth of March 2024 and the first of
    April do. *)
Lemma working_days_shown_witness :
  workingDaysShown zoneUTC sampleWorkingDays march2024 = 3%nat
  /\ workingDaysShown zoneBRT sampleWorkingDays march2024 = 2%nat.
Proof.
  split.
  - rewrite (proj1 (working_days_shown zoneUTC sampleWorkingDays march2024
                      sampleWorkingDays_valid)).
    + vm_compute. reflexivity.
    + intros t. unfold zoneUTC, msPerDay. lia.
  - rewrite (proj2 (working_days_shown zoneBRT sampleWorkingDays march2024
                      sampleWorkingDays_valid)).
    + vm_compute. reflexivity.
    + intros t. unfold zoneBRT, msPerDay. lia.
Defined.

End CalendarMore.
